(** * weem: test-execution telemetry (metrics collector, failure analyzer,
      report generator, reporter)

    Shallow embedding of
      - src/reporting/metrics/test-metrics.ts     (TestMetricsCollector)
      - src/reporting/analysis/failure-analyzer.ts (FailureAnalyzer)
      - src/unnamed/part_004                       (HTMLReportGenerator)
      - src/reporting/reporters/enhanced-reporter.ts (EnhancedReporter)

    Modelling conventions.
      - A JS string is a [string] over 8-bit code units; the texts the
        analyzer inspects are treated as ASCII, on which [toLowerCase]
        changes exactly the letters A-Z.
      - Counters ([total], [passed], ..., [count], [occurrences]) are [nat]:
        they only ever start at 0 and are incremented.
      - Non-integer JS numbers (durations, rates) are exact rationals [Qc];
        where the source divides without a guard the result lives in
        [JsNumber.t], which adds NaN and the two infinities.
      - The pass rate of the report header is compared with thresholds
        after it has been rounded for display, so there the arithmetic
        matters to the last bit: the header is computed in IEEE 754
        double precision ([Binary64]), every operation rounded as the
        code rounds it.
      - [Date] values are milliseconds since the epoch, in [Z]; every
        [new Date()] reads the next tick of a clock.
      - The metrics objects live in a heap, so that object identity
        ([getMetrics] returning a copy) can be stated.  Test results and
        failure-index entries are values: that a [topFailures] array
        computed by [finish()] shares its entries with the failure index,
        and would see them change under a later [recordTest], is not
        modelled, and nothing below concerns that situation. *)

From Stdlib Require Import Ascii QArith Qcanon Qround SpecFloat.
From stdpp Require Import gmap strings list sorting.

Local Open Scope Z_scope.
Local Open Scope nat_scope.

(* ===================================================================== *)
(** ** JavaScript strings *)
(* ===================================================================== *)

Module Js.

(** [c] is one of A-Z. *)
Definition is_upper (c : ascii) : bool :=
  let n := nat_of_ascii c in (65 <=? n) && (n <=? 90).

Definition lower_char (c : ascii) : ascii :=
  if is_upper c then ascii_of_nat (nat_of_ascii c + 32) else c.

(** [s.toLowerCase()] *)
Fixpoint toLowerCase (s : string) : string :=
  match s with
  | EmptyString => EmptyString
  | String c r => String (lower_char c) (toLowerCase r)
  end.

(** [s.startsWith(p)], returning what follows the prefix. *)
Fixpoint strip_prefix (p s : string) : option string :=
  match p, s with
  | EmptyString, _ => Some s
  | String a p', String b s' =>
      if Ascii.eqb a b then strip_prefix p' s' else None
  | String _ _, EmptyString => None
  end.

Definition startsWith (s p : string) : bool :=
  match strip_prefix p s with Some _ => true | None => false end.

(** [s.includes(needle)] *)
Fixpoint includes (s needle : string) : bool :=
  startsWith s needle ||
  match s with
  | EmptyString => false
  | String _ r => includes r needle
  end.

(** Longest prefix of [s] whose characters satisfy [p], and the rest. *)
Fixpoint span (p : ascii -> bool) (s : string) : string * string :=
  match s with
  | EmptyString => (EmptyString, EmptyString)
  | String c r =>
      if p c then let '(a, b) := span p r in (String c a, b)
      else (EmptyString, s)
  end.

Definition nonempty (s : string) : bool :=
  match s with EmptyString => false | String _ _ => true end.

(** [s.match(re)] for a regular expression without the global flag: the
    attempt [try] is made at every start position from the left, and the
    first success is the match.  [try] returns capture group 1. *)
Fixpoint search (try : string -> option string) (s : string)
  : option string :=
  match try s with
  | Some cap => Some cap
  | None =>
      match s with
      | EmptyString => None
      | String _ r => search try r
      end
  end.

(** [s.split('\n')[0]] *)
Fixpoint first_line (s : string) : string :=
  match s with
  | EmptyString => EmptyString
  | String c r =>
      if Ascii.eqb c "010"%char then EmptyString
      else String c (first_line r)
  end.

(** [s.substring(0, n)] *)
Fixpoint substring0 (n : nat) (s : string) : string :=
  match n, s with
  | O, _ => EmptyString
  | S _, EmptyString => EmptyString
  | S n', String c r => String c (substring0 n' r)
  end.

Definition is_digit (c : ascii) : bool :=
  let n := nat_of_ascii c in (48 <=? n) && (n <=? 57).

Definition is_quote (c : ascii) : bool :=
  Ascii.eqb c "'"%char || Ascii.eqb c (ascii_of_nat 34).

Definition is_rparen (c : ascii) : bool := Ascii.eqb c ")"%char.

(** One attempt of [/Timeout (\d+)ms/] at the start of [s].  The greedy
    [\d+] takes the whole digit run: giving a digit back would leave a
    digit where [m] is required. *)
Definition re_timeout_at (s : string) : option string :=
  match strip_prefix "Timeout " s with
  | Some r =>
      let '(digits, rest) := span is_digit r in
      if nonempty digits && startsWith rest "ms" then Some digits else None
  | None => None
  end.

(** One attempt of the locator expression: the text [locator(], a single
    or double quote, a non-empty run of characters that are not quotes
    (captured; greedy, hence the whole run), a quote, and [)]. *)
Definition re_locator_at (s : string) : option string :=
  match strip_prefix "locator(" s with
  | Some (String q r) =>
      if is_quote q then
        let '(lit, rest) := span (fun c => negb (is_quote c)) r in
        match rest with
        | String q' rest' =>
            if nonempty lit && is_quote q' && startsWith rest' ")"
            then Some lit else None
        | EmptyString => None
        end
      else None
  | _ => None
  end.

(** One attempt of [/expect\(([^)]+)\)/]. *)
Definition re_expect_at (s : string) : option string :=
  match strip_prefix "expect(" s with
  | Some r =>
      let '(expr, rest) := span (fun c => negb (is_rparen c)) r in
      if nonempty expr && startsWith rest ")" then Some expr else None
  | None => None
  end.


(** [s.replace(/c/g, by)] for a single character [c] and a replacement
    text without substitution patterns. *)
Fixpoint replaceAll (c : ascii) (by_ : string) (s : string) : string :=
  match s with
  | EmptyString => EmptyString
  | String a r =>
      if Ascii.eqb a c then by_ +:+ replaceAll c by_ r
      else String a (replaceAll c by_ r)
  end.

(** [s || d] for a text that may be absent: the empty text counts as
    absent. *)
Definition or_else (s : option string) (d : string) : string :=
  match s with
  | Some (String a r) => String a r
  | _ => d
  end.

(** [parts.join(sep)] *)
Fixpoint join (sep : string) (parts : list string) : string :=
  match parts with
  | [] => EmptyString
  | [p] => p
  | p :: rest => p +:+ sep +:+ join sep rest
  end.

End Js.

(* ===================================================================== *)
(** ** [Array.prototype.sort] and insertion-ordered [Map] *)
(* ===================================================================== *)

Module JsArray.
Section Sort.
Context {A : Type}.
(** The comparator: negative puts its first argument first, positive its
    second, zero keeps the order the two had in the input (the sort is
    stable). *)
Variable cmp : A -> A -> Z.

Fixpoint insert (x : A) (l : list A) : list A :=
  match l with
  | [] => [x]
  | y :: l' => if (cmp x y <=? 0)%Z then x :: y :: l' else y :: insert x l'
  end.

(** [l.sort(cmp)]: every element is placed, from the right, in front of
    the elements it does not have to follow. *)
Fixpoint sort (l : list A) : list A :=
  match l with
  | [] => []
  | x :: l' => insert x (sort l')
  end.
End Sort.

(** [a] may stand before [b] in a list that is descending by [key]. *)
Definition desc {A} (key : A -> nat) (a b : A) : Prop := key b <= key a.

(** [a] need not follow [b] under the comparator [cmp]. *)
Definition in_order {A} (cmp : A -> A -> Z) (a b : A) : Prop :=
  (cmp a b <= 0)%Z.

(** [l.slice(0, n)] for an integer [n]: a negative [n] counts from the end. *)
Definition slice0 {A} (n : Z) (l : list A) : list A :=
  if (0 <=? n)%Z then take (Z.to_nat n) l
  else take (length l - Z.to_nat (- n)) l.
End JsArray.

Module JsMap.
Section Map.
Context {V : Type}.
(** A [Map<string, V>]: the entries in insertion order, keys distinct. *)
Definition t := list (string * V).

Definition empty : t := [].

Fixpoint get (k : string) (m : t) : option V :=
  match m with
  | [] => None
  | (k', v) :: m' => if String.eqb k k' then Some v else get k m'
  end.

Definition has (k : string) (m : t) : bool :=
  match get k m with Some _ => true | None => false end.

(** [m.set(k, v)]: a new key goes last, an existing key keeps its place. *)
Fixpoint set (k : string) (v : V) (m : t) : t :=
  match m with
  | [] => [(k, v)]
  | (k', v') :: m' =>
      if String.eqb k k' then (k', v) :: m' else (k', v') :: set k v m'
  end.

(** [Array.from(m.values())] *)
Definition values (m : t) : list V := map snd m.
End Map.
Arguments t : clear implicits.
End JsMap.

(* ===================================================================== *)
(** ** Data model (test-metrics.ts, failure-analyzer.ts) *)
(* ===================================================================== *)

Definition Qc_of_Z (z : Z) : Qc := Q2Qc (inject_Z z).
Definition Qc_of_nat (n : nat) : Qc := Qc_of_Z (Z.of_nat n).

(** A [Date] is its time value: milliseconds since the epoch. *)
Definition Date : Type := Z.

Inductive Status := passed | failed | skipped | flaky.

Global Instance Status_eq_dec : EqDecision Status.
Proof. solve_decision. Defined.

Inductive AttachmentType := screenshot | video | trace | log.

Module Location.
Record t := mk { file : string; line : Z; column : Z }.
End Location.

Module TestError.
Record t := mk {
  message : string;
  stack : option string;
  type : string;
  location : option Location.t;
}.
End TestError.

Module Attachment.
Record t := mk {
  name : string;
  path : string;
  type : AttachmentType;
  size : option Z;
}.
End Attachment.

Module TestResult.
Record t := mk {
  name : string;
  fullName : string;
  status : Status;
  duration : Qc;
  startTime : Date;
  endTime : option Date;
  error : option TestError.t;
  retries : nat;
  attachments : list Attachment.t;
  tags : list string;
}.
End TestResult.

Module FailureAnalysis.
Record t := mk {
  errorType : string;
  errorMessage : string;
  count : nat;
  tests : list string;
  firstOccurrence : Date;
  lastOccurrence : Date;
}.
End FailureAnalysis.

Module TestMetrics.
Record t := mk {
  total : nat;
  passed : nat;
  failed : nat;
  skipped : nat;
  flaky : nat;
  startTime : Date;
  endTime : option Date;
  duration : Z;
  averageTestDuration : Qc;
  slowestTest : option TestResult.t;
  fastestTest : option TestResult.t;
  failureRate : Qc;
  topFailures : list FailureAnalysis.t;
  browser : string;
  environment : string;
}.
End TestMetrics.

Inductive FailureCategory :=
  | timeout | assertion | element_not_found | network
  | navigation | authentication | data | unknown.

Global Instance FailureCategory_eq_dec : EqDecision FailureCategory.
Proof. solve_decision. Defined.

(** The string each member of the [FailureCategory] union is. *)
Definition category_name (c : FailureCategory) : string :=
  match c with
  | timeout => "timeout"
  | assertion => "assertion"
  | element_not_found => "element-not-found"
  | network => "network"
  | navigation => "navigation"
  | authentication => "authentication"
  | data => "data"
  | unknown => "unknown"
  end.

Inductive Severity := high | medium | low.

Global Instance Severity_eq_dec : EqDecision Severity.
Proof. solve_decision. Defined.

Module FailurePattern.
Record t := mk {
  pattern : string;
  description : string;
  occurrences : nat;
  affectedTests : list string;
  severity : Severity;
  category : FailureCategory;
  suggestedFix : option string;
}.
End FailurePattern.

(* ===================================================================== *)
(** ** FailureAnalyzer (failure-analyzer.ts) *)
(* ===================================================================== *)

Module FailureAnalyzer.
Import Js.

Definition categorizeFailure (error : TestError.t) : FailureCategory :=
  let message := toLowerCase (TestError.message error) in
  let type := toLowerCase (TestError.type error) in
  if includes message "timeout" || includes type "timeout" then timeout
  else if includes message "expect" || includes message "assert"
          || includes type "assertion" then assertion
  else if includes message "locator" || includes message "element"
          || includes message "selector" then element_not_found
  else if includes message "network" || includes message "net::"
          || includes message "fetch" then network
  else if includes message "navigation" || includes message "goto"
  then navigation
  else if includes message "authentication" || includes message "login"
          || includes message "unauthorized" then authentication
  else if includes message "data" || includes message "validation"
  then data
  else unknown.

Definition extractPattern (error : TestError.t) : string :=
  let message := TestError.message error in
  if includes message "Timeout" then
    match search re_timeout_at message with
    | Some n => "Timeout " +:+ n +:+ "ms"
    | None => "Timeout"
    end
  else if includes message "locator" then
    match search re_locator_at message with
    | Some lit => "Locator: " +:+ lit
    | None => "Locator not found"
    end
  else if includes message "expect" then
    match search re_expect_at message with
    | Some e => "Assertion failed: " +:+ e
    | None => "Assertion failed"
    end
  else substring0 100 (first_line message).

Definition getPatternDescription (category : FailureCategory)
    (pattern : string) : string :=
  match category with
  | timeout => "Test exceeded the maximum execution time"
  | assertion => "Expected condition was not met"
  | element_not_found => "Could not find the specified element on the page"
  | network => "Network request failed or timed out"
  | navigation => "Failed to navigate to the specified URL"
  | authentication => "Authentication or authorization failed"
  | data => "Data validation or processing failed"
  | unknown => "Unclassified failure"
  end.

Definition calculateSeverity (category : FailureCategory) : Severity :=
  match category with
  | authentication | network | navigation => high
  | element_not_found | timeout => medium
  | _ => low
  end.

Definition getSuggestedFix (category : FailureCategory) (pattern : string)
  : option string :=
  Some match category with
  | timeout => "Increase timeout value or optimize test performance. Check for slow network or page loads."
  | assertion => "Review test assertions and ensure expected values are correct."
  | element_not_found => "Verify element selectors are correct and elements are visible. Consider adding explicit waits."
  | network => "Check network connectivity and API endpoints. Implement retry logic for flaky requests."
  | navigation => "Verify URLs are correct and accessible. Check for redirect issues."
  | authentication => "Verify authentication credentials and flow. Check for expired tokens or sessions."
  | data => "Validate test data format and values. Check data generators and fixtures."
  | unknown => "Review error stack trace and test logs for more details."
  end.

(** The key under which a test's failure is filed. *)
Definition key_of (error : TestError.t) : string :=
  category_name (categorizeFailure error) +:+ ":" +:+ extractPattern error.

(** The [FailurePattern] created the first time a key is seen. *)
Definition new_pattern (error : TestError.t) (fullName : string)
  : FailurePattern.t :=
  let category := categorizeFailure error in
  let pattern := extractPattern error in
  {| FailurePattern.pattern := pattern;
     FailurePattern.description := getPatternDescription category pattern;
     FailurePattern.occurrences := 1;
     FailurePattern.affectedTests := [fullName];
     FailurePattern.severity := calculateSeverity category;
     FailurePattern.category := category;
     FailurePattern.suggestedFix := getSuggestedFix category pattern |}.

(** [existing.occurrences++; existing.affectedTests.push(fullName)] *)
Definition bump (existing : FailurePattern.t) (fullName : string)
  : FailurePattern.t :=
  {| FailurePattern.pattern := FailurePattern.pattern existing;
     FailurePattern.description := FailurePattern.description existing;
     FailurePattern.occurrences := S (FailurePattern.occurrences existing);
     FailurePattern.affectedTests :=
       FailurePattern.affectedTests existing ++ [fullName];
     FailurePattern.severity := FailurePattern.severity existing;
     FailurePattern.category := FailurePattern.category existing;
     FailurePattern.suggestedFix := FailurePattern.suggestedFix existing |}.

(** The body of the [forEach] callback of [analyzeFailures]. *)
Definition visit (patterns : JsMap.t FailurePattern.t)
    (test : TestResult.t) : JsMap.t FailurePattern.t :=
  match TestResult.error test with
  | None => patterns
  | Some error =>
      let key := key_of error in
      if JsMap.has key patterns then
        match JsMap.get key patterns with
        | Some existing =>
            JsMap.set key (bump existing (TestResult.fullName test)) patterns
        | None => patterns (* not reached: [has] and [get] agree *)
        end
      else
        JsMap.set key (new_pattern error (TestResult.fullName test)) patterns
  end.

Definition by_occurrences (a b : FailurePattern.t) : Z :=
  (Z.of_nat (FailurePattern.occurrences b)
   - Z.of_nat (FailurePattern.occurrences a))%Z.

(** The pattern map once every failed test has been visited. *)
Definition collect (failedTests : list TestResult.t)
  : JsMap.t FailurePattern.t :=
  fold_left visit failedTests JsMap.empty.

Definition analyzeFailures (failedTests : list TestResult.t)
  : list FailurePattern.t :=
  JsArray.sort by_occurrences (JsMap.values (collect failedTests)).

(** [getCommonFailures(limit = 5)] *)
Definition getCommonFailures (limit : option Z)
    (failedTests : list TestResult.t) : list FailurePattern.t :=
  let limit := match limit with Some n => n | None => 5%Z end in
  JsArray.slice0 limit (analyzeFailures failedTests).

(** The body of the [forEach] callback of [getFailuresByCategory]; the keys
    of the map are the category names. *)
Definition file_by_category (categorized : JsMap.t (list FailurePattern.t))
    (pattern : FailurePattern.t) : JsMap.t (list FailurePattern.t) :=
  let key := category_name (FailurePattern.category pattern) in
  let categorized :=
    if JsMap.has key categorized then categorized
    else JsMap.set key [] categorized in
  match JsMap.get key categorized with
  | Some filed => JsMap.set key (filed ++ [pattern]) categorized
  | None => categorized (* not reached: the key has just been set *)
  end.

Definition getFailuresByCategory (failedTests : list TestResult.t)
  : JsMap.t (list FailurePattern.t) :=
  fold_left file_by_category (analyzeFailures failedTests) JsMap.empty.

Definition getHighSeverityFailures (failedTests : list TestResult.t)
  : list FailurePattern.t :=
  filter (fun p => FailurePattern.severity p = high)
    (analyzeFailures failedTests).

Definition getFlakyTestCandidates (failedTests : list TestResult.t)
  : list TestResult.t :=
  filter (fun t => 0 < TestResult.retries t) failedTests.

End FailureAnalyzer.

(* ===================================================================== *)
(** ** TestMetricsCollector (test-metrics.ts) *)
(* ===================================================================== *)

(** Assignments to the fields of a metrics object. *)
Module Assign.
Import TestMetrics.

Definition total (v : nat) (m : t) : t :=
  mk v (passed m) (failed m) (skipped m) (flaky m) (startTime m)
     (endTime m) (duration m) (averageTestDuration m) (slowestTest m)
     (fastestTest m) (failureRate m) (topFailures m) (browser m)
     (environment m).
Definition passed (v : nat) (m : t) : t :=
  mk (TestMetrics.total m) v (failed m) (skipped m) (flaky m) (startTime m)
     (endTime m) (duration m) (averageTestDuration m) (slowestTest m)
     (fastestTest m) (failureRate m) (topFailures m) (browser m)
     (environment m).
Definition failed (v : nat) (m : t) : t :=
  mk (TestMetrics.total m) (TestMetrics.passed m) v (skipped m) (flaky m)
     (startTime m) (endTime m) (duration m) (averageTestDuration m)
     (slowestTest m) (fastestTest m) (failureRate m) (topFailures m)
     (browser m) (environment m).
Definition skipped (v : nat) (m : t) : t :=
  mk (TestMetrics.total m) (TestMetrics.passed m) (TestMetrics.failed m) v
     (flaky m) (startTime m) (endTime m) (duration m)
     (averageTestDuration m) (slowestTest m) (fastestTest m)
     (failureRate m) (topFailures m) (browser m) (environment m).
Definition flaky (v : nat) (m : t) : t :=
  mk (TestMetrics.total m) (TestMetrics.passed m) (TestMetrics.failed m)
     (TestMetrics.skipped m) v (startTime m) (endTime m) (duration m)
     (averageTestDuration m) (slowestTest m) (fastestTest m)
     (failureRate m) (topFailures m) (browser m) (environment m).
Definition startTime (v : Date) (m : t) : t :=
  mk (TestMetrics.total m) (TestMetrics.passed m) (TestMetrics.failed m)
     (TestMetrics.skipped m) (TestMetrics.flaky m) v (endTime m)
     (duration m) (averageTestDuration m) (slowestTest m) (fastestTest m)
     (failureRate m) (topFailures m) (browser m) (environment m).
Definition endTime (v : option Date) (m : t) : t :=
  mk (TestMetrics.total m) (TestMetrics.passed m) (TestMetrics.failed m)
     (TestMetrics.skipped m) (TestMetrics.flaky m) (TestMetrics.startTime m)
     v (duration m) (averageTestDuration m) (slowestTest m) (fastestTest m)
     (failureRate m) (topFailures m) (browser m) (environment m).
Definition duration (v : Z) (m : t) : t :=
  mk (TestMetrics.total m) (TestMetrics.passed m) (TestMetrics.failed m)
     (TestMetrics.skipped m) (TestMetrics.flaky m) (TestMetrics.startTime m)
     (TestMetrics.endTime m) v (averageTestDuration m) (slowestTest m)
     (fastestTest m) (failureRate m) (topFailures m) (browser m)
     (environment m).
Definition averageTestDuration (v : Qc) (m : t) : t :=
  mk (TestMetrics.total m) (TestMetrics.passed m) (TestMetrics.failed m)
     (TestMetrics.skipped m) (TestMetrics.flaky m) (TestMetrics.startTime m)
     (TestMetrics.endTime m) (TestMetrics.duration m) v (slowestTest m)
     (fastestTest m) (failureRate m) (topFailures m) (browser m)
     (environment m).
Definition slowestTest (v : option TestResult.t) (m : t) : t :=
  mk (TestMetrics.total m) (TestMetrics.passed m) (TestMetrics.failed m)
     (TestMetrics.skipped m) (TestMetrics.flaky m) (TestMetrics.startTime m)
     (TestMetrics.endTime m) (TestMetrics.duration m)
     (TestMetrics.averageTestDuration m) v (fastestTest m) (failureRate m)
     (topFailures m) (browser m) (environment m).
Definition fastestTest (v : option TestResult.t) (m : t) : t :=
  mk (TestMetrics.total m) (TestMetrics.passed m) (TestMetrics.failed m)
     (TestMetrics.skipped m) (TestMetrics.flaky m) (TestMetrics.startTime m)
     (TestMetrics.endTime m) (TestMetrics.duration m)
     (TestMetrics.averageTestDuration m) (TestMetrics.slowestTest m) v
     (failureRate m) (topFailures m) (browser m) (environment m).
Definition failureRate (v : Qc) (m : t) : t :=
  mk (TestMetrics.total m) (TestMetrics.passed m) (TestMetrics.failed m)
     (TestMetrics.skipped m) (TestMetrics.flaky m) (TestMetrics.startTime m)
     (TestMetrics.endTime m) (TestMetrics.duration m)
     (TestMetrics.averageTestDuration m) (TestMetrics.slowestTest m)
     (TestMetrics.fastestTest m) v (topFailures m) (browser m)
     (environment m).
Definition topFailures (v : list FailureAnalysis.t) (m : t) : t :=
  mk (TestMetrics.total m) (TestMetrics.passed m) (TestMetrics.failed m)
     (TestMetrics.skipped m) (TestMetrics.flaky m) (TestMetrics.startTime m)
     (TestMetrics.endTime m) (TestMetrics.duration m)
     (TestMetrics.averageTestDuration m) (TestMetrics.slowestTest m)
     (TestMetrics.fastestTest m) (TestMetrics.failureRate m) v (browser m)
     (environment m).
End Assign.

(** The object literal shared by the constructor and [reset]. *)
Definition fresh_metrics (now : Date) (browser environment : string)
  : TestMetrics.t :=
  {| TestMetrics.total := 0;
     TestMetrics.passed := 0;
     TestMetrics.failed := 0;
     TestMetrics.skipped := 0;
     TestMetrics.flaky := 0;
     TestMetrics.startTime := now;
     TestMetrics.endTime := None;
     TestMetrics.duration := 0%Z;
     TestMetrics.averageTestDuration := 0%Qc;
     TestMetrics.slowestTest := None;
     TestMetrics.fastestTest := None;
     TestMetrics.failureRate := 0%Qc;
     TestMetrics.topFailures := [];
     TestMetrics.browser := browser;
     TestMetrics.environment := environment |}.

Global Instance TestMetrics_inhabited : Inhabited TestMetrics.t :=
  populate (fresh_metrics 0%Z EmptyString EmptyString).

(** [a > b] and [a < b] on rationals. *)
Definition Qc_ltb (a b : Qc) : bool := negb (Qle_bool b a).

(** The sign of a number: [Array.prototype.sort] looks at nothing else in
    what a comparator returns. *)
Definition Qc_sign (q : Qc) : Z := Z.sgn (Qnum q).

Module TestMetricsCollector.
Section Collector.
(** The wall clock: the value of the [n]-th [new Date()] of the run. *)
Variable clock : nat -> Date.

(** A collector and the part of the world it acts on. *)
Record t := mk {
  heap : gmap positive TestMetrics.t; (* the metrics objects allocated *)
  ticks : nat;                        (* clock reads made so far *)
  metrics : positive;                 (* this.metrics *)
  testResults : list TestResult.t;    (* this.testResults *)
  failures : JsMap.t FailureAnalysis.t; (* this.failures *)
}.

(** The object [this.metrics] refers to. *)
Definition the_metrics (c : t) : TestMetrics.t := heap c !!! metrics c.

(** An in-place update of the object [this.metrics] refers to. *)
Definition mutate (f : TestMetrics.t -> TestMetrics.t) (c : t) : t :=
  mk (<[metrics c := f (the_metrics c)]> (heap c)) (ticks c) (metrics c)
     (testResults c) (failures c).

(** [new Date()] *)
Definition new_Date (c : t) : Date * t :=
  (clock (ticks c),
   mk (heap c) (S (ticks c)) (metrics c) (testResults c) (failures c)).

(** A new object holding [m]. *)
Definition alloc (m : TestMetrics.t) (h : gmap positive TestMetrics.t)
  : positive * gmap positive TestMetrics.t :=
  let l := fresh (dom h) in (l, <[l := m]> h).

(** [new TestMetricsCollector(browser, environment)], in a world where
    nothing has been allocated and the clock has not been read. *)
Definition new (browser environment : string) : t :=
  let '(l, h) := alloc (fresh_metrics (clock 0) browser environment) ∅ in
  mk h 1 l [] JsMap.empty.

Definition start (c : t) : t :=
  let '(now, c) := new_Date c in
  mutate (Assign.startTime now) c.

(** [result.endTime || new Date()]: the clock is read only when the
    result has no end time. *)
Definition endTime_or_now (result : TestResult.t) (c : t) : Date * t :=
  match TestResult.endTime result with
  | Some e => (e, c)
  | None => new_Date c
  end.

Definition set_failures (f : JsMap.t FailureAnalysis.t) (c : t) : t :=
  mk (heap c) (ticks c) (metrics c) (testResults c) f.

Definition recordFailure (result : TestResult.t) (c : t) : t :=
  match TestResult.error result with
  | None => c
  | Some error =>
      let key := TestError.type error +:+ ":" +:+ TestError.message error in
      match JsMap.get key (failures c) with
      | Some existing =>
          let '(last, c) := endTime_or_now result c in
          set_failures
            (JsMap.set key
               {| FailureAnalysis.errorType :=
                    FailureAnalysis.errorType existing;
                  FailureAnalysis.errorMessage :=
                    FailureAnalysis.errorMessage existing;
                  FailureAnalysis.count :=
                    S (FailureAnalysis.count existing);
                  FailureAnalysis.tests :=
                    FailureAnalysis.tests existing
                    ++ [TestResult.fullName result];
                  FailureAnalysis.firstOccurrence :=
                    FailureAnalysis.firstOccurrence existing;
                  FailureAnalysis.lastOccurrence := last |}
               (failures c)) c
      | None =>
          let '(first, c) := endTime_or_now result c in
          let '(last, c) := endTime_or_now result c in
          set_failures
            (JsMap.set key
               {| FailureAnalysis.errorType := TestError.type error;
                  FailureAnalysis.errorMessage := TestError.message error;
                  FailureAnalysis.count := 1;
                  FailureAnalysis.tests := [TestResult.fullName result];
                  FailureAnalysis.firstOccurrence := first;
                  FailureAnalysis.lastOccurrence := last |}
               (failures c)) c
      end
  end.

(** [this.testResults.reduce((sum, t) => sum + t.duration, 0)] *)
Definition totalDuration (results : list TestResult.t) : Qc :=
  fold_left (fun sum t => (sum + TestResult.duration t)%Qc) results 0%Qc.

Definition updatePerformanceMetrics (result : TestResult.t) (c : t) : t :=
  let c :=
    match TestMetrics.slowestTest (the_metrics c) with
    | None => mutate (Assign.slowestTest (Some result)) c
    | Some slowest =>
        if Qc_ltb (TestResult.duration slowest) (TestResult.duration result)
        then mutate (Assign.slowestTest (Some result)) c
        else c
    end in
  let c :=
    if decide (TestResult.status result = passed) then
      match TestMetrics.fastestTest (the_metrics c) with
      | None => mutate (Assign.fastestTest (Some result)) c
      | Some fastest =>
          if Qc_ltb (TestResult.duration result)
               (TestResult.duration fastest)
          then mutate (Assign.fastestTest (Some result)) c
          else c
      end
    else c in
  mutate
    (Assign.averageTestDuration
       (totalDuration (testResults c)
        / Qc_of_nat (length (testResults c)))%Qc) c.

(** [this.testResults.push(result)] *)
Definition push_result (result : TestResult.t) (c : t) : t :=
  mk (heap c) (ticks c) (metrics c) (testResults c ++ [result])
     (failures c).

Definition recordTest (result : TestResult.t) (c : t) : t :=
  let c := push_result result c in
  let c :=
    mutate (fun m => Assign.total (S (TestMetrics.total m)) m) c in
  let c :=
    match TestResult.status result with
    | passed =>
        mutate (fun m => Assign.passed (S (TestMetrics.passed m)) m) c
    | failed =>
        recordFailure result
          (mutate (fun m => Assign.failed (S (TestMetrics.failed m)) m) c)
    | skipped =>
        mutate (fun m => Assign.skipped (S (TestMetrics.skipped m)) m) c
    | flaky =>
        mutate (fun m => Assign.flaky (S (TestMetrics.flaky m)) m) c
    end in
  updatePerformanceMetrics result c.

Definition by_count (a b : FailureAnalysis.t) : Z :=
  (Z.of_nat (FailureAnalysis.count b)
   - Z.of_nat (FailureAnalysis.count a))%Z.

Definition finish (c : t) : t :=
  let '(now, c) := new_Date c in
  let c := mutate (Assign.endTime (Some now)) c in
  let c :=
    mutate (fun m => Assign.duration (now - TestMetrics.startTime m)%Z m)
      c in
  let c :=
    if decide (0 < TestMetrics.total (the_metrics c)) then
      mutate
        (fun m =>
           Assign.failureRate
             (Qc_of_nat (TestMetrics.failed m)
              / Qc_of_nat (TestMetrics.total m) * Qc_of_Z 100)%Qc m) c
    else c in
  mutate
    (Assign.topFailures
       (take 10 (JsArray.sort by_count (JsMap.values (failures c))))) c.

(** [{ ...this.metrics }]: a new object with the same field values. *)
Definition getMetrics (c : t) : positive * t :=
  let '(l, h) := alloc (the_metrics c) (heap c) in
  (l, mk h (ticks c) (metrics c) (testResults c) (failures c)).

Definition getTestResults (c : t) : list TestResult.t := testResults c.

Definition getFailedTests (c : t) : list TestResult.t :=
  filter (fun r => TestResult.status r = failed) (testResults c).

Definition getPassedTests (c : t) : list TestResult.t :=
  filter (fun r => TestResult.status r = passed) (testResults c).

Definition getPassRate (c : t) : Qc :=
  if decide (TestMetrics.total (the_metrics c) = 0) then 0%Qc
  else (Qc_of_nat (TestMetrics.passed (the_metrics c))
        / Qc_of_nat (TestMetrics.total (the_metrics c)) * Qc_of_Z 100)%Qc.

Definition reset (c : t) : t :=
  let '(now, c) := new_Date c in
  let '(l, h) :=
    alloc (fresh_metrics now (TestMetrics.browser (the_metrics c))
             (TestMetrics.environment (the_metrics c))) (heap c) in
  mk h (ticks c) l [] JsMap.empty.

Definition getSkippedTests (c : t) : list TestResult.t :=
  filter (fun r => TestResult.status r = skipped) (testResults c).

Definition getFlakyTests (c : t) : list TestResult.t :=
  filter (fun r => TestResult.status r = flaky \/ 0 < TestResult.retries r)
    (testResults c).

Definition by_duration (a b : TestResult.t) : Z :=
  Qc_sign (TestResult.duration b - TestResult.duration a)%Qc.

(** [getTestsByDuration(limit)]: [limit] is absent or an integer; the
    conditional takes 0 for absent. *)
Definition getTestsByDuration (limit : option Z) (c : t)
  : list TestResult.t :=
  let sorted := JsArray.sort by_duration (testResults c) in
  match limit with
  | None => sorted
  | Some n => if (n =? 0)%Z then sorted else JsArray.slice0 n sorted
  end.

Definition getTestsByStatus (status : Status) (c : t) : list TestResult.t :=
  filter (fun r => TestResult.status r = status) (testResults c).

End Collector.
End TestMetricsCollector.

(* ===================================================================== *)
(** ** JavaScript numbers where division is not guarded *)
(* ===================================================================== *)

Module JsNumber.

(** A number: a rational, an infinity, or NaN. *)
Inductive t := Num (q : Qc) | PosInf | NegInf | NaN.

Definition of_nat (n : nat) : t := Num (Qc_of_nat n).

Definition is_zero (q : Qc) : bool := Qeq_bool q 0.
Definition is_neg (q : Qc) : bool := Qc_ltb q 0%Qc.

(** [a / b] *)
Definition div (a b : t) : t :=
  match a, b with
  | NaN, _ | _, NaN => NaN
  | Num x, Num y =>
      if is_zero y then
        if is_zero x then NaN else if is_neg x then NegInf else PosInf
      else Num (x / y)%Qc
  | Num _, (PosInf | NegInf) => Num 0%Qc
  | PosInf, Num y => if is_neg y then NegInf else PosInf
  | NegInf, Num y => if is_neg y then PosInf else NegInf
  | (PosInf | NegInf), (PosInf | NegInf) => NaN
  end.

(** [a * b] *)
Definition mul (a b : t) : t :=
  match a, b with
  | NaN, _ | _, NaN => NaN
  | Num x, Num y => Num (x * y)%Qc
  | PosInf, Num y | Num y, PosInf =>
      if is_zero y then NaN else if is_neg y then NegInf else PosInf
  | NegInf, Num y | Num y, NegInf =>
      if is_zero y then NaN else if is_neg y then PosInf else NegInf
  | PosInf, PosInf | NegInf, NegInf => PosInf
  | PosInf, NegInf | NegInf, PosInf => NegInf
  end.

(** [a >= b] *)
Definition geb (a b : t) : bool :=
  match a, b with
  | NaN, _ | _, NaN => false
  | Num x, Num y => Qle_bool y x
  | PosInf, _ => true
  | _, NegInf => true
  | _, _ => false
  end.

(** The text [toFixed(1)] returns, by its shape. *)
Inductive Fixed :=
  | FNaN                   (* the text NaN *)
  | FInf (negative : bool) (* Infinity, -Infinity *)
  | FDec (tenths : Z)      (* digits with one decimal: tenths / 10 *)
  | FSci (q : Qc).         (* magnitude 1e21 and above: as printed in full *)

Definition ten_pow_21 : Qc := Qc_of_Z (10 ^ 21).

(** The integer [n] for which [n / 10 - x] is closest to zero, the larger
    one when two are equally close; [x] is not negative. *)
Definition nearest_tenths (x : Qc) : Z :=
  Qfloor (x * Qc_of_Z 10 + Q2Qc (1 # 2))%Qc.

(** [x.toFixed(1)] *)
Definition toFixed1 (x : t) : Fixed :=
  match x with
  | NaN => FNaN
  | PosInf => FInf false
  | NegInf => FInf true
  | Num q =>
      if is_neg q then
        if Qle_bool ten_pow_21 (- q)%Qc then FSci q
        else FDec (- nearest_tenths (- q)%Qc)
      else
        if Qle_bool ten_pow_21 q then FSci q
        else FDec (nearest_tenths q)
  end.

(** [parseFloat(text)] on such a text. *)
Definition parseFloat (f : Fixed) : t :=
  match f with
  | FNaN => NaN
  | FInf false => PosInf
  | FInf true => NegInf
  | FDec n => Num (Qc_of_Z n / Qc_of_Z 10)%Qc
  | FSci q => Num q
  end.


(** The text [toFixed(d)] returns, by its shape. *)
Inductive FixedText :=
  | TNaN                              (* the text NaN *)
  | TInf (negative : bool)            (* Infinity, -Infinity *)
  | TDigits (decimals : nat) (scaled : Z)
      (* scaled / 10^decimals, printed with that many decimals *)
  | TSci (q : Qc).                    (* magnitude 1e21 and above *)

(** The integer [n] for which [n / 10^d - x] is closest to zero, the larger
    one when two are equally close; [x] is not negative. *)
Definition nearest_scaled (d : nat) (x : Qc) : Z :=
  Qfloor (x * Qc_of_Z (10 ^ Z.of_nat d) + Q2Qc (1 # 2))%Qc.

(** [x.toFixed(d)] *)
Definition toFixed (d : nat) (x : t) : FixedText :=
  match x with
  | NaN => TNaN
  | PosInf => TInf false
  | NegInf => TInf true
  | Num q =>
      if is_neg q then
        if Qle_bool ten_pow_21 (- q)%Qc then TSci q
        else TDigits d (- nearest_scaled d (- q)%Qc)
      else
        if Qle_bool ten_pow_21 q then TSci q
        else TDigits d (nearest_scaled d q)
  end.

End JsNumber.

(* ===================================================================== *)
(** ** Double-precision numbers *)
(* ===================================================================== *)

(** IEEE 754 binary64, the format of a JS number, by the Standard
    Library's specification of floating-point arithmetic: 53 bits of
    precision, binary exponents below 1024, every operation rounded to the
    nearest double, ties to the even one. *)
Module Binary64.

Definition prec : Z := 53%Z.
Definition emax : Z := 1024%Z.

Definition t : Type := spec_float.

Definition of_Z (z : Z) : t := binary_normalize prec emax z 0%Z false.

(** A counter as a number; below 2^53, where every counter of a run
    lies, the conversion is exact. *)
Definition of_nat (n : nat) : t := of_Z (Z.of_nat n).

(** [a / b] *)
Definition div (a b : t) : t := SFdiv prec emax a b.

(** [a * b] *)
Definition mul (a b : t) : t := SFmul prec emax a b.

(** The number a double stands for: its mantissa times the power of two
    of its exponent. *)
Definition value (x : t) : JsNumber.t :=
  match x with
  | S754_zero _ => JsNumber.Num 0%Qc
  | S754_infinity negative =>
      if negative then JsNumber.NegInf else JsNumber.PosInf
  | S754_nan => JsNumber.NaN
  | S754_finite negative m e =>
      JsNumber.Num
        (Q2Qc (inject_Z (if negative then Z.neg m else Z.pos m)
               * Qpower (inject_Z 2) e))
  end.

End Binary64.

(** The arithmetic a rate is computed in.  [binary64] is the arithmetic
    of the code.  [exact] computes in the rationals: it is the reading of
    numbers under which the collector is modelled, and it serves to set
    the header beside [getPassRate()]. *)
Module Arithmetic.

Record t := {
  number : Type;
  of_nat : nat -> number;
  div : number -> number -> number;
  mul : number -> number -> number;
  value : number -> JsNumber.t;
}.

Definition binary64 : t :=
  {| number := Binary64.t;
     of_nat := Binary64.of_nat;
     div := Binary64.div;
     mul := Binary64.mul;
     value := Binary64.value |}.

Definition exact : t :=
  {| number := JsNumber.t;
     of_nat := JsNumber.of_nat;
     div := JsNumber.div;
     mul := JsNumber.mul;
     value := fun x => x |}.

End Arithmetic.

(* ===================================================================== *)
(** ** HTMLReportGenerator *)
(* ===================================================================== *)

Module HTMLReportGenerator.
Import JsNumber.

Inductive StatusClass := success | warning | error.

(** The header, by the parts of it that are computed from the metrics;
    what lies between them is fixed markup. *)
Record Header := {
  header_environment : string;
  header_browser : string;
  header_date : Date;
  pass_rate_class : StatusClass;
  pass_rate_value : Fixed;
}.

Section Header.
Variable arith : Arithmetic.t.

(** [(metrics.passed / metrics.total) * 100] *)
Definition rate (metrics : TestMetrics.t) : JsNumber.t :=
  Arithmetic.value arith
    (Arithmetic.mul arith
       (Arithmetic.div arith
          (Arithmetic.of_nat arith (TestMetrics.passed metrics))
          (Arithmetic.of_nat arith (TestMetrics.total metrics)))
       (Arithmetic.of_nat arith 100)).

(** [((metrics.passed / metrics.total) * 100).toFixed(1)] *)
Definition passRate (metrics : TestMetrics.t) : Fixed :=
  toFixed1 (rate metrics).

(** The class put on the pass-rate element of the header. *)
Definition statusClass (metrics : TestMetrics.t) : StatusClass :=
  if geb (parseFloat (passRate metrics)) (Num (Qc_of_Z 80)) then success
  else if geb (parseFloat (passRate metrics)) (Num (Qc_of_Z 50))
  then warning
  else error.

Definition buildHeader (metrics : TestMetrics.t) : Header :=
  {| header_environment := TestMetrics.environment metrics;
     header_browser := TestMetrics.browser metrics;
     header_date := TestMetrics.startTime metrics;
     pass_rate_class := statusClass metrics;
     pass_rate_value := passRate metrics |}.
End Header.


(** The five replacements of [escapeHTML], in the order they are made; the
    result of the last is returned unless it is empty, in which case the
    text itself is. *)
Definition escapeHTML (text : string) : string :=
  let innerHTML :=
    Js.replaceAll "'" "&#039;"
      (Js.replaceAll (ascii_of_nat 34) "&quot;"
         (Js.replaceAll ">" "&gt;"
            (Js.replaceAll "<" "&lt;"
               (Js.replaceAll "&" "&amp;" text)))) in
  if Js.nonempty innerHTML then innerHTML else text.

(** A row of the failure-analysis table, by what its five cells show. *)
Record AnalysisRow := {
  row_severity : Severity;
  row_category : FailureCategory;
  row_pattern : string;
  row_occurrences : nat;
  row_affected : nat;
  row_fix : string;
}.

(** The failure-analysis section: the message that there are no failures,
    or the table. *)
Inductive FailureSection :=
  | NoFailures
  | AnalysisTable (rows : list AnalysisRow).

Definition analysis_row (pattern : FailurePattern.t) : AnalysisRow :=
  {| row_severity := FailurePattern.severity pattern;
     row_category := FailurePattern.category pattern;
     row_pattern := escapeHTML (FailurePattern.pattern pattern);
     row_occurrences := FailurePattern.occurrences pattern;
     row_affected := length (FailurePattern.affectedTests pattern);
     row_fix :=
       escapeHTML (Js.or_else (FailurePattern.suggestedFix pattern) "N/A") |}.

Definition buildFailureAnalysis (patterns : list FailurePattern.t)
  : FailureSection :=
  if decide (length patterns = 0) then NoFailures
  else AnalysisTable (analysis_row <$> take 10 patterns).

(** The data of the two charts in [getScripts]: the four counters, and the
    name and duration in seconds of the results charted. *)
Definition statusData (metrics : TestMetrics.t) : list nat :=
  [ TestMetrics.passed metrics; TestMetrics.failed metrics;
    TestMetrics.skipped metrics; TestMetrics.flaky metrics ].

Definition durationData (testResults : list TestResult.t)
  : list (string * FixedText) :=
  (fun t =>
     (TestResult.name t,
      toFixed 2 (div (Num (TestResult.duration t)) (Num (Qc_of_Z 1000)))))
  <$> JsArray.sort TestMetricsCollector.by_duration (take 10 testResults).

End HTMLReportGenerator.

(* ===================================================================== *)
(** ** EnhancedReporter (enhanced-reporter.ts) *)
(* ===================================================================== *)

(** What the test framework hands to a reporter, by the fields the reporter
    reads. *)
Module Playwright.

Inductive Status := passed | failed | timedOut | skipped | interrupted.

Global Instance PlaywrightStatus_eq_dec : EqDecision Status.
Proof. solve_decision. Defined.

Module TestError.
Record t := mk {
  message : option string;
  stack : option string;
  name : option string;
}.
End TestError.

Module Attachment.
Record t := mk {
  name : string;
  path : option string;
  body : option nat; (* the length of the body, when there is one *)
}.
End Attachment.

Module TestResult.
Record t := mk {
  status : Status;
  retry : nat;
  duration : Qc;
  startTime : Date;
  error : option TestError.t;
  attachments : list Attachment.t;
}.
End TestResult.

Module TestCase.
Record t := mk {
  title : string;
  titlePath : list string;
  tags : option (list string);
}.
End TestCase.

End Playwright.

(** The time value of [new Date(t)] for a number [t] within the range of
    dates: [t] without its fraction. *)
Definition time_value (t : Qc) : Date := Z.quot (Qnum t) (Zpos (Qden t)).

Module EnhancedReporter.
Section Reporter.
Variable clock : nat -> Date.

Record t := mk {
  metricsCollector : TestMetricsCollector.t;
  startTime : Z;
  outputHTML : bool;
  outputJSON : bool;
}.

(** [options?.outputHTML !== false] *)
Definition unless_false (option : option bool) : bool :=
  match option with Some false => false | _ => true end.

(** The constructor, but for the report directory. *)
Definition new (outputHTML outputJSON : option bool) : t :=
  {| metricsCollector := TestMetricsCollector.new clock "chromium" "dev";
     startTime := 0%Z;
     outputHTML := unless_false outputHTML;
     outputJSON := unless_false outputJSON |}.

Definition getTestStatus (result : Playwright.TestResult.t) : Status :=
  if decide (Playwright.TestResult.status result = Playwright.skipped)
  then skipped
  else if decide (Playwright.TestResult.status result = Playwright.passed)
  then (if decide (0 < Playwright.TestResult.retry result)
        then flaky else passed)
  else failed.

Definition getAttachmentType (name : string) : AttachmentType :=
  if Js.includes name "screenshot" then screenshot
  else if Js.includes name "video" then video
  else if Js.includes name "trace" then trace
  else log.

Definition convertToTestResult (test : Playwright.TestCase.t)
    (result : Playwright.TestResult.t) : TestResult.t :=
  let status := getTestStatus result in
  let error :=
    match Playwright.TestResult.error result with
    | Some e =>
        Some {| TestError.message :=
                  Js.or_else (Playwright.TestError.message e) "Unknown error";
                TestError.stack := Playwright.TestError.stack e;
                TestError.type :=
                  Js.or_else (Playwright.TestError.name e) "Error";
                TestError.location := None |}
    | None => None
    end in
  {| TestResult.name := Playwright.TestCase.title test;
     TestResult.fullName :=
       Js.join " › " (Playwright.TestCase.titlePath test);
     TestResult.status := status;
     TestResult.duration := Playwright.TestResult.duration result;
     TestResult.startTime := Playwright.TestResult.startTime result;
     TestResult.endTime :=
       Some (time_value
               (Qc_of_Z (Playwright.TestResult.startTime result)
                + Playwright.TestResult.duration result)%Qc);
     TestResult.error := error;
     TestResult.retries := Playwright.TestResult.retry result;
     TestResult.attachments :=
       (fun att =>
          {| Attachment.name := Playwright.Attachment.name att;
             Attachment.path :=
               Js.or_else (Playwright.Attachment.path att) EmptyString;
             Attachment.type :=
               getAttachmentType (Playwright.Attachment.name att);
             Attachment.size :=
               Z.of_nat <$> Playwright.Attachment.body att |})
       <$> Playwright.TestResult.attachments result;
     TestResult.tags :=
       match Playwright.TestCase.tags test with
       | Some tags => tags
       | None => []
       end |}.

Definition onBegin (r : t) : t :=
  let '(now, c) := TestMetricsCollector.new_Date clock (metricsCollector r) in
  mk (TestMetricsCollector.start clock c) now (outputHTML r) (outputJSON r).

Definition onTestEnd (test : Playwright.TestCase.t)
    (result : Playwright.TestResult.t) (r : t) : t :=
  mk (TestMetricsCollector.recordTest clock
        (convertToTestResult test result) (metricsCollector r))
     (startTime r) (outputHTML r) (outputJSON r).

(** What [onEnd] computes and hands to the summary and to the report
    generators. *)
Record Handoff := {
  metrics : TestMetrics.t;
  testResults : list TestResult.t;
  failurePatterns : list FailurePattern.t;
}.

Definition onEnd (r : t) : Handoff * t :=
  let c := TestMetricsCollector.finish clock (metricsCollector r) in
  let '(copy, c) := TestMetricsCollector.getMetrics c in
  let failedTests := TestMetricsCollector.getFailedTests c in
  ({| metrics := TestMetricsCollector.heap c !!! copy;
      testResults := TestMetricsCollector.getTestResults c;
      failurePatterns := FailureAnalyzer.analyzeFailures failedTests |},
   mk c (startTime r) (outputHTML r) (outputJSON r)).

(** A whole run: the reporter is constructed, told of the beginning, of
    the end of each test in turn, and of the end. *)
Definition run (outputHTML outputJSON : option bool)
    (tests : list (Playwright.TestCase.t * Playwright.TestResult.t))
  : Handoff :=
  (onEnd
     (fold_left (fun r ev => onTestEnd ev.1 ev.2 r) tests
        (onBegin (new outputHTML outputJSON)))).1.

End Reporter.
End EnhancedReporter.

(* ===================================================================== *)
(** ** Reachable collectors *)
(* ===================================================================== *)

(** The collectors a client can produce through the public methods, from
    the construction with the labels [browser] and [environment]. *)
Inductive reachable (clock : nat -> Date) (browser environment : string)
  : TestMetricsCollector.t -> Prop :=
  | reach_new :
      reachable clock browser environment
        (TestMetricsCollector.new clock browser environment)
  | reach_start c :
      reachable clock browser environment c ->
      reachable clock browser environment (TestMetricsCollector.start clock c)
  | reach_recordTest r c :
      reachable clock browser environment c ->
      reachable clock browser environment
        (TestMetricsCollector.recordTest clock r c)
  | reach_finish c :
      reachable clock browser environment c ->
      reachable clock browser environment
        (TestMetricsCollector.finish clock c)
  | reach_getMetrics c :
      reachable clock browser environment c ->
      reachable clock browser environment
        (TestMetricsCollector.getMetrics c).2
  | reach_reset c :
      reachable clock browser environment c ->
      reachable clock browser environment (TestMetricsCollector.reset clock c).

(** [recordTest] called on each result of [results] in turn. *)
Definition record_all (clock : nat -> Date) (results : list TestResult.t)
    (c : TestMetricsCollector.t) : TestMetricsCollector.t :=
  fold_left (fun c r => TestMetricsCollector.recordTest clock r c) results c.

(** [this.metrics] refers to an allocated object. *)
Definition wf (c : TestMetricsCollector.t) : Prop :=
  is_Some (TestMetricsCollector.heap c !! TestMetricsCollector.metrics c).

(* ===================================================================== *)
(** ** Statements the code is compared with *)
(* ===================================================================== *)

Module Spec.
Import Js.

(** The elements of [l], each kept at its first occurrence only. *)
Fixpoint first_seen {A} `{EqDecision A} (l : list A) : list A :=
  match l with
  | [] => []
  | x :: l' => x :: filter (fun y => y <> x) (first_seen l')
  end.

(** The key under which [recordTest] files a result, if it files it. *)
Definition failure_key (r : TestResult.t) : option string :=
  match TestResult.status r, TestResult.error r with
  | failed, Some e => Some (TestError.type e +:+ ":" +:+ TestError.message e)
  | _, _ => None
  end.

(** The results of status [st]. *)
Definition with_status (st : Status) (results : list TestResult.t)
  : list TestResult.t :=
  filter (fun r => TestResult.status r = st) results.

(** The five counters are consistent. *)
Definition counts_add_up (m : TestMetrics.t) : Prop :=
  TestMetrics.total m
  = TestMetrics.passed m + TestMetrics.failed m + TestMetrics.skipped m
    + TestMetrics.flaky m.

(** What holds of every collector constructed with the labels [browser]
    and [environment], whatever has been called on it since. *)
Record invariant (browser environment : string)
    (c : TestMetricsCollector.t) : Prop := {
  inv_wf : wf c;
  inv_browser :
    TestMetrics.browser (TestMetricsCollector.the_metrics c) = browser;
  inv_environment :
    TestMetrics.environment (TestMetricsCollector.the_metrics c)
    = environment;
  inv_total :
    TestMetrics.total (TestMetricsCollector.the_metrics c)
    = length (TestMetricsCollector.testResults c);
  inv_empty :
    TestMetricsCollector.testResults c = [] ->
    TestMetricsCollector.failures c = []
    /\ TestMetrics.failureRate (TestMetricsCollector.the_metrics c) = 0%Qc;
  inv_keys :
    (TestMetricsCollector.failures c).*1
    = first_seen (omap failure_key (TestMetricsCollector.testResults c));
}.

(** The mean duration of [results]. *)
Definition mean (results : list TestResult.t) : Qc :=
  (TestMetricsCollector.totalDuration results
   / Qc_of_nat (length results))%Qc.

(** The counters after one more result of status [st]. *)
Definition counted (st : Status) (m : TestMetrics.t) : TestMetrics.t :=
  let m := Assign.total (S (TestMetrics.total m)) m in
  match st with
  | passed => Assign.passed (S (TestMetrics.passed m)) m
  | failed => Assign.failed (S (TestMetrics.failed m)) m
  | skipped => Assign.skipped (S (TestMetrics.skipped m)) m
  | flaky => Assign.flaky (S (TestMetrics.flaky m)) m
  end.

(** *** Categorization as worded: one text, one keyword list per category *)

Definition keywords : list (FailureCategory * list string) :=
  [ (timeout, ["timeout"]);
    (assertion, ["expect"; "assert"; "assertion"]);
    (element_not_found, ["locator"; "element"; "selector"]);
    (network, ["network"; "net::"; "fetch"]);
    (navigation, ["navigation"; "goto"]);
    (authentication, ["authentication"; "login"; "unauthorized"]);
    (data, ["data"; "validation"]) ].

Fixpoint first_match (text : string)
    (table : list (FailureCategory * list string)) : FailureCategory :=
  match table with
  | [] => unknown
  | (c, kws) :: rest =>
      if existsb (includes text) kws then c else first_match text rest
  end.

(** The checks made against the lower-cased concatenation of the message
    and the type. *)
Definition categorize_combined (error : TestError.t) : FailureCategory :=
  first_match
    (toLowerCase (TestError.message error +:+ TestError.type error))
    keywords.

(** *** Categorization as a decision table with separate keyword lists for
    the message and for the type *)

Definition rules : list (FailureCategory * list string * list string) :=
  [ (timeout, ["timeout"], ["timeout"]);
    (assertion, ["expect"; "assert"], ["assertion"]);
    (element_not_found, ["locator"; "element"; "selector"], []);
    (network, ["network"; "net::"; "fetch"], []);
    (navigation, ["navigation"; "goto"], []);
    (authentication, ["authentication"; "login"; "unauthorized"], []);
    (data, ["data"; "validation"], []) ].

Fixpoint first_rule (message type : string)
    (table : list (FailureCategory * list string * list string))
  : FailureCategory :=
  match table with
  | [] => unknown
  | (c, in_message, in_type) :: rest =>
      if existsb (includes message) in_message
         || existsb (includes type) in_type
      then c else first_rule message type rest
  end.

(** *** Grouping of failed tests by (category, pattern) *)

(** The failed tests that carry an error, in order: the error and the
    test's full name. *)
Definition attributable (tests : list TestResult.t)
  : list (TestError.t * string) :=
  omap (fun t => (fun e => (e, TestResult.fullName t))
                   <$> TestResult.error t) tests.

Definition pair_of (error : TestError.t) : FailureCategory * string :=
  (FailureAnalyzer.categorizeFailure error,
   FailureAnalyzer.extractPattern error).

(** The map key of a pair. *)
Definition key_str (pr : FailureCategory * string) : string :=
  category_name pr.1 +:+ ":" +:+ pr.2.

(** The full names of the tests whose error has the pair [pr]. *)
Definition members (pr : FailureCategory * string)
    (items : list (TestError.t * string)) : list string :=
  snd <$> filter (fun it => pair_of it.1 = pr) items.

(** The pattern record of a pair, given its member tests. *)
Definition pattern_of (items : list (TestError.t * string))
    (pr : FailureCategory * string) : FailurePattern.t :=
  {| FailurePattern.pattern := pr.2;
     FailurePattern.description :=
       FailureAnalyzer.getPatternDescription pr.1 pr.2;
     FailurePattern.occurrences := length (members pr items);
     FailurePattern.affectedTests := members pr items;
     FailurePattern.severity := FailureAnalyzer.calculateSeverity pr.1;
     FailurePattern.category := pr.1;
     FailurePattern.suggestedFix :=
       FailureAnalyzer.getSuggestedFix pr.1 pr.2 |}.

(** One pattern per distinct pair, in the order the pairs are first seen. *)
Definition group_by_pair (tests : list TestResult.t)
  : list FailurePattern.t :=
  pattern_of (attributable tests)
    <$> first_seen (pair_of <$> (fst <$> attributable tests)).


(** A number rounded to one decimal place, a half rounded away from
    zero. *)
Definition rounded_to_tenth (x : JsNumber.t) : JsNumber.t :=
  match x with
  | JsNumber.Num q =>
      let tenths :=
        if Qle_bool 0 q then Qfloor (q * Qc_of_Z 10 + Q2Qc (1 # 2))%Qc
        else (- Qfloor (- q * Qc_of_Z 10 + Q2Qc (1 # 2))%Qc)%Z in
      JsNumber.Num (Qc_of_Z tenths / Qc_of_Z 10)%Qc
  | other => other
  end.

(** The class of a rate by the two thresholds. *)
Definition class_of (rate : JsNumber.t) : HTMLReportGenerator.StatusClass :=
  if JsNumber.geb rate (JsNumber.Num (Qc_of_Z 80))
  then HTMLReportGenerator.success
  else if JsNumber.geb rate (JsNumber.Num (Qc_of_Z 50))
  then HTMLReportGenerator.warning
  else HTMLReportGenerator.error.

(** [x] is a number and is at least [bound]. *)
Definition at_least (bound : Qc) (x : JsNumber.t) : Prop :=
  match x with
  | JsNumber.Num q => (bound <= q)%Qc
  | JsNumber.PosInf => True
  | JsNumber.NegInf | JsNumber.NaN => False
  end.

End Spec.

(* ===================================================================== *)
(** ** Views of the collector's state *)
(* ===================================================================== *)

Module Derived.

(** The full names of the results filed under the key [k]. *)
Definition filed_under (k : string) (results : list TestResult.t)
  : list string :=
  TestResult.fullName
    <$> filter (fun r => Spec.failure_key r = Some k) results.

(** [slowestTest] after a result [r] has been recorded. *)
Definition slowest_after (r : TestResult.t) (slowest : option TestResult.t)
  : option TestResult.t :=
  match slowest with
  | None => Some r
  | Some s =>
      if Qc_ltb (TestResult.duration s) (TestResult.duration r)
      then Some r else Some s
  end.

(** [fastestTest] after a result [r] has been recorded. *)
Definition fastest_after (r : TestResult.t) (fastest : option TestResult.t)
  : option TestResult.t :=
  if decide (TestResult.status r = passed) then
    match fastest with
    | None => Some r
    | Some f =>
        if Qc_ltb (TestResult.duration r) (TestResult.duration f)
        then Some r else Some f
    end
  else fastest.

(** The entry [kv] of the failure index holds the tests filed under its
    key. *)
Definition entry_ok (results : list TestResult.t)
    (kv : string * FailureAnalysis.t) : Prop :=
  FailureAnalysis.tests kv.2 = filed_under kv.1 results
  /\ FailureAnalysis.count kv.2 = length (FailureAnalysis.tests kv.2)
  /\ 0 < FailureAnalysis.count kv.2
  /\ FailureAnalysis.errorType kv.2 +:+ ":"
       +:+ FailureAnalysis.errorMessage kv.2 = kv.1.

(** The pair a pattern stands for. *)
Definition pair (p : FailurePattern.t) : FailureCategory * string :=
  (FailurePattern.category p, FailurePattern.pattern p).

(** The categories of severity high. *)
Definition is_high (c : FailureCategory) : Prop :=
  c = authentication \/ c = network \/ c = navigation.

(** The five replacements of [escapeHTML], without the final test for
    emptiness. *)
Definition replaced (text : string) : string :=
  Js.replaceAll "'" "&#039;"
    (Js.replaceAll (ascii_of_nat 34) "&quot;"
       (Js.replaceAll ">" "&gt;"
          (Js.replaceAll "<" "&lt;" (Js.replaceAll "&" "&amp;" text)))).

(** What [escapeHTML] writes for one character. *)
Definition escape_char (c : ascii) : string :=
  if Ascii.eqb c "&" then "&amp;"
  else if Ascii.eqb c "<" then "&lt;"
  else if Ascii.eqb c ">" then "&gt;"
  else if Ascii.eqb c (ascii_of_nat 34) then "&quot;"
  else if Ascii.eqb c "'" then "&#039;"
  else String c EmptyString.

(** Every character replaced by what is written for it. *)
Fixpoint escape_each (s : string) : string :=
  match s with
  | EmptyString => EmptyString
  | String c r => escape_char c +:+ escape_each r
  end.

(** The characters that open or close a tag or an attribute value. *)
Definition is_markup (c : ascii) : bool :=
  Ascii.eqb c "<" || Ascii.eqb c ">" || Ascii.eqb c (ascii_of_nat 34)
  || Ascii.eqb c "'".

(** The reporter's collector once the reporter has been told of the
    beginning of the run. *)
Definition begun (clock : nat -> Date) : TestMetricsCollector.t :=
  TestMetricsCollector.start clock
    (TestMetricsCollector.new_Date clock
       (TestMetricsCollector.new clock "chromium" "dev")).2.

(** The results the reporter records for what the framework reports. *)
Definition converted
    (tests : list (Playwright.TestCase.t * Playwright.TestResult.t))
  : list TestResult.t :=
  (fun ev => EnhancedReporter.convertToTestResult ev.1 ev.2) <$> tests.

(** The framework reports neither passed nor skipped. *)
Definition not_ok (result : Playwright.TestResult.t) : Prop :=
  Playwright.TestResult.status result <> Playwright.passed
  /\ Playwright.TestResult.status result <> Playwright.skipped.


(** The collector after [n] calls of [getMetrics()]. *)
Definition after_copies (n : nat) (c : TestMetricsCollector.t)
  : TestMetricsCollector.t :=
  Nat.iter n (fun c => (TestMetricsCollector.getMetrics c).2) c.

End Derived.

(* ===================================================================== *)
(** ** Sample runs *)
(* ===================================================================== *)

Module Sample.

(** A clock that advances by one millisecond at every reading. *)
Definition clock (n : nat) : Date := (1700000000000 + Z.of_nat n)%Z.

Definition result (name : string) (status : Status) (duration : Z)
    (error : option TestError.t) : TestResult.t :=
  {| TestResult.name := name;
     TestResult.fullName := "Suite > " +:+ name;
     TestResult.status := status;
     TestResult.duration := Qc_of_Z duration;
     TestResult.startTime := 1700000000000%Z;
     TestResult.endTime := Some (1700000000000 + duration)%Z;
     TestResult.error := error;
     TestResult.retries := 0;
     TestResult.attachments := [];
     TestResult.tags := [] |}.

Definition timeout_error : TestError.t :=
  {| TestError.message := "Timeout 5000ms exceeded";
     TestError.stack := None;
     TestError.type := "TimeoutError";
     TestError.location := None |}.

(** An error whose type, and not its message, names a network failure. *)
Definition network_typed_error : TestError.t :=
  {| TestError.message := "Request failed";
     TestError.stack := None;
     TestError.type := "NetworkError";
     TestError.location := None |}.

(** A collector as constructed by the reporter. *)
Definition collector : TestMetricsCollector.t :=
  TestMetricsCollector.new clock "chromium" "dev".

(** Scenario A, the failed test recorded second. *)
Definition p1 : TestResult.t := result "first" passed 100 None.
Definition p2 : TestResult.t := result "second" passed 200 None.
Definition p3 : TestResult.t := result "third" passed 300 None.
Definition slow_page : TestResult.t :=
  result "slow page" failed 5000 (Some timeout_error).
Definition scenario_A : list TestResult.t := [p1; slow_page; p2; p3].

(** A failed result that carries no error object. *)
Definition failed_without_error : TestResult.t :=
  result "no error object" failed 40 None.

(** A run: start, one failure with an error, one without. *)
Definition run : TestMetricsCollector.t :=
  TestMetricsCollector.recordTest clock failed_without_error
    (TestMetricsCollector.recordTest clock
       slow_page (TestMetricsCollector.start clock collector)).

(** A metrics object with the given [passed] and [total]. *)
Definition metrics (passed total : nat) : TestMetrics.t :=
  Assign.total total
    (Assign.passed passed (fresh_metrics 0%Z "chromium" "dev")).

(** Scenario A recorded by a started collector. *)
Definition recorded_A : TestMetricsCollector.t :=
  record_all clock scenario_A (TestMetricsCollector.start clock collector).

(** The failure index entry of [slow_page], and its key. *)
Definition slow_page_key : string := "TimeoutError:Timeout 5000ms exceeded".
Definition slow_page_entry : FailureAnalysis.t :=
  {| FailureAnalysis.errorType := "TimeoutError";
     FailureAnalysis.errorMessage := "Timeout 5000ms exceeded";
     FailureAnalysis.count := 1;
     FailureAnalysis.tests := ["Suite > slow page"];
     FailureAnalysis.firstOccurrence := 1700000005000%Z;
     FailureAnalysis.lastOccurrence := 1700000005000%Z |}.


(** A test that failed on its second attempt. *)
Definition retried : TestResult.t :=
  {| TestResult.name := "retried";
     TestResult.fullName := "Suite > retried";
     TestResult.status := failed;
     TestResult.duration := Qc_of_Z 700;
     TestResult.startTime := 1700000000000%Z;
     TestResult.endTime := Some 1700000000700%Z;
     TestResult.error := Some timeout_error;
     TestResult.retries := 1;
     TestResult.attachments := [];
     TestResult.tags := [] |}.

(** A run with one passed test and the retried failure. *)
Definition recorded_retry : TestMetricsCollector.t :=
  record_all clock [p1; retried] (TestMetricsCollector.start clock collector).

End Sample.

(* ===================================================================== *)
(** * Properties *)
(* ===================================================================== *)

(** ** The sample run *)

Lemma sample_run_reachable :
  reachable Sample.clock "chromium" "dev" Sample.run.
Proof. repeat constructor. Qed.

(** ** The stable sort *)

Section SortByKey.
Context {A : Type}.
Variable cmp : A -> A -> Z.
Variable key : A -> nat.
Hypothesis cmp_key :
  forall a b, cmp a b = (Z.of_nat (key b) - Z.of_nat (key a))%Z.

Lemma insert_perm x l : JsArray.insert cmp x l ≡ₚ x :: l.
Proof.
  induction l as [|y l IH]; simpl; [done|].
  destruct (cmp x y <=? 0)%Z; [done|].
  rewrite IH. apply Permutation_swap.
Qed.

Lemma sort_perm l : JsArray.sort cmp l ≡ₚ l.
Proof.
  induction l as [|x l IH]; simpl; [done|].
  by rewrite insert_perm, IH.
Qed.

Lemma insert_sorted x l :
  StronglySorted (JsArray.desc key) l -> StronglySorted (JsArray.desc key) (JsArray.insert cmp x l).
Proof.
  induction 1 as [|y l Hl IH Hy]; simpl.
  - repeat constructor.
  - destruct (Z.leb_spec (cmp x y) 0) as [Hc|Hc]; rewrite cmp_key in Hc.
    + constructor; [by constructor|].
      constructor; [unfold JsArray.desc; lia|].
      eapply Forall_impl; [exact Hy|]. unfold JsArray.desc. intros z Hz. lia.
    + constructor; [exact IH|].
      rewrite insert_perm. constructor; [unfold JsArray.desc; lia|exact Hy].
Qed.

Lemma sort_sorted l : StronglySorted (JsArray.desc key) (JsArray.sort cmp l).
Proof.
  induction l as [|x l IH]; simpl; [constructor|].
  by apply insert_sorted.
Qed.

Lemma insert_stable n x l :
  filter (fun a => key a = n) (JsArray.insert cmp x l)
  = filter (fun a => key a = n) (x :: l).
Proof.
  induction l as [|y l IH]; simpl; [done|].
  destruct (Z.leb_spec (cmp x y) 0) as [Hc|Hc]; [done|].
  rewrite cmp_key in Hc.
  rewrite (filter_cons _ y), IH, !filter_cons.
  repeat case_decide; try done; lia.
Qed.

(** Elements with the same key leave the sort in the order they entered. *)
Lemma sort_stable n l :
  filter (fun a => key a = n) (JsArray.sort cmp l)
  = filter (fun a => key a = n) l.
Proof.
  induction l as [|x l IH]; simpl; [done|].
  by rewrite insert_stable, !filter_cons, IH.
Qed.
End SortByKey.

(** ** Categorization *)

(** C1, as worded, fails: the error with message [Request failed] and type
    [NetworkError] has the keyword [network] in its lower-cased type, so the
    checks against the combined text give [network]; [categorizeFailure]
    gives [unknown]. *)
Lemma categorizeFailure_ignores_network_in_type :
  Js.includes (Js.toLowerCase (TestError.type Sample.network_typed_error)) "network"
    = true
  /\ Spec.categorize_combined Sample.network_typed_error = network
  /\ FailureAnalyzer.categorizeFailure Sample.network_typed_error = unknown
  /\ FailureAnalyzer.categorizeFailure Sample.network_typed_error
     <> Spec.categorize_combined Sample.network_typed_error.
Proof. repeat split; try reflexivity. vm_compute. discriminate. Qed.

(** C1, amended: [categorizeFailure] is the first-match-wins evaluation of
    the decision table [Spec.rules], in the priority order timeout,
    assertion, element-not-found, network, navigation, authentication, data,
    with unknown as the fallback.  The lower-cased message is searched for
    every keyword of the table; the lower-cased type is searched only for
    [timeout] (timeout) and [assertion] (assertion). *)
Theorem categorizeFailure_decision_table (error : TestError.t) :
  FailureAnalyzer.categorizeFailure error
  = Spec.first_rule (Js.toLowerCase (TestError.message error))
      (Js.toLowerCase (TestError.type error)) Spec.rules.
Proof.
  unfold FailureAnalyzer.categorizeFailure, Spec.rules.
  cbn [Spec.first_rule existsb].
  rewrite !orb_false_r, !orb_assoc.
  reflexivity.
Qed.

(** ** First occurrences and the insertion-ordered map *)

Section FirstSeen.
Context {A : Type} `{EqDecision A}.

Lemma elem_of_first_seen (x : A) l : x ∈ Spec.first_seen l <-> x ∈ l.
Proof.
  induction l as [|y l IH]; simpl; [done|].
  rewrite !elem_of_cons, list_elem_of_filter, IH.
  destruct (decide (x = y)); tauto.
Qed.

Lemma NoDup_first_seen (l : list A) : NoDup (Spec.first_seen l).
Proof.
  induction l as [|y l IH]; simpl; constructor.
  - rewrite list_elem_of_filter. tauto.
  - by apply NoDup_filter.
Qed.

Lemma first_seen_snoc (x : A) l :
  Spec.first_seen (l ++ [x])
  = if decide (x ∈ l) then Spec.first_seen l else Spec.first_seen l ++ [x].
Proof.
  induction l as [|y l IH]; simpl; [reflexivity|].
  - rewrite IH. destruct (decide (x = y)) as [->|Hxy].
    + rewrite (decide_True _ _ (list_elem_of_here y l)).
      destruct (decide (y ∈ l)); [done|].
      rewrite filter_app, filter_cons_False, filter_nil, app_nil_r; tauto.
    + destruct (decide (x ∈ l)) as [Hin|Hin].
      * by rewrite decide_True by (by apply list_elem_of_further).
      * rewrite decide_False by (rewrite elem_of_cons; tauto).
        by rewrite filter_app, filter_cons_True, filter_nil.
Qed.
End FirstSeen.

Section MapFacts.
Context {V : Type}.
Implicit Types (m : JsMap.t V) (k : string) (v : V).

Lemma keys_set k v m :
  (JsMap.set k v m).*1 = if decide (k ∈ m.*1) then m.*1 else m.*1 ++ [k].
Proof.
  induction m as [|[k' v'] m IH]; csimpl.
  - reflexivity.
  - destruct (String.eqb_spec k k') as [->|Hne]; csimpl.
    + by rewrite decide_True by apply list_elem_of_here.
    + rewrite IH. destruct (decide (k ∈ m.*1)).
      * by rewrite decide_True by (by apply list_elem_of_further).
      * by rewrite decide_False by (rewrite elem_of_cons; tauto).
Qed.

End MapFacts.

(** ** The collector: effect of each method *)

Section CollectorFacts.
Variable clock : nat -> Date.
Import TestMetricsCollector.
Implicit Types (c : TestMetricsCollector.t) (r : TestResult.t).

Lemma the_metrics_mutate f c : the_metrics (mutate f c) = f (the_metrics c).
Proof. unfold the_metrics, mutate; simpl. apply lookup_total_insert_eq. Qed.

Lemma wf_mutate f c : wf (mutate f c).
Proof. unfold wf, mutate; simpl. rewrite lookup_insert_eq. eauto. Qed.

(** *** [recordFailure] touches the failure index and the clock only *)

Lemma recordFailure_frame r c :
  let c' := recordFailure clock r c in
  heap c' = heap c /\ metrics c' = metrics c
  /\ testResults c' = testResults c /\ the_metrics c' = the_metrics c.
Proof.
  unfold recordFailure, endTime_or_now, the_metrics.
  destruct (TestResult.error r); [|done].
  destruct (JsMap.get _ _); destruct (TestResult.endTime r); done.
Qed.

Lemma recordFailure_no_error r c :
  TestResult.error r = None -> recordFailure clock r c = c.
Proof. unfold recordFailure. by intros ->. Qed.

Lemma recordFailure_keys r c e :
  TestResult.error r = Some e ->
  (failures (recordFailure clock r c)).*1
  = (if decide (TestError.type e +:+ ":" +:+ TestError.message e
                  ∈ (failures c).*1)
     then (failures c).*1
     else (failures c).*1
          ++ [TestError.type e +:+ ":" +:+ TestError.message e]).
Proof.
  unfold recordFailure, endTime_or_now. intros ->.
  destruct (JsMap.get _ _); destruct (TestResult.endTime r);
    simpl; apply keys_set.
Qed.

(** *** [updatePerformanceMetrics] assigns the two extremes and the mean *)

Lemma assign_slowest_same (m : TestMetrics.t) :
  Assign.slowestTest (TestMetrics.slowestTest m) m = m.
Proof. by destruct m. Qed.

Lemma assign_fastest_same (m : TestMetrics.t) :
  Assign.fastestTest (TestMetrics.fastestTest m) m = m.
Proof. by destruct m. Qed.

Lemma updatePerformanceMetrics_effect r c :
  let c' := updatePerformanceMetrics r c in
  wf c' /\ metrics c' = metrics c /\ testResults c' = testResults c
  /\ failures c' = failures c /\ ticks c' = ticks c
  /\ exists s f,
       the_metrics c'
       = Assign.averageTestDuration (Spec.mean (testResults c))
           (Assign.fastestTest f (Assign.slowestTest s (the_metrics c))).
Proof.
  unfold updatePerformanceMetrics.
  set (c1 := match TestMetrics.slowestTest (the_metrics c) with
             | Some slowest => _ | None => _ end).
  assert (H1 : metrics c1 = metrics c /\ testResults c1 = testResults c
               /\ failures c1 = failures c /\ ticks c1 = ticks c
               /\ exists s, the_metrics c1
                             = Assign.slowestTest s (the_metrics c)).
  { subst c1. destruct (TestMetrics.slowestTest (the_metrics c)) as [s0|] eqn:E.
    - destruct (Qc_ltb _ _); repeat split; try done.
      + eexists. apply the_metrics_mutate.
      + exists (Some s0). by rewrite <- E, assign_slowest_same.
    - repeat split; try done. eexists. apply the_metrics_mutate. }
  destruct H1 as (Hm1 & Hr1 & Hf1 & Ht1 & s & Hs).
  set (c2 := if decide (TestResult.status r = passed) then _ else c1).
  assert (H2 : metrics c2 = metrics c /\ testResults c2 = testResults c
               /\ failures c2 = failures c /\ ticks c2 = ticks c
               /\ exists f, the_metrics c2
                             = Assign.fastestTest f (the_metrics c1)).
  { subst c2. destruct (decide _).
    - destruct (TestMetrics.fastestTest (the_metrics c1)) as [f0|] eqn:E.
      + destruct (Qc_ltb _ _); repeat split; try done.
        * eexists. apply the_metrics_mutate.
        * exists (Some f0). by rewrite <- E, assign_fastest_same.
      + repeat split; try done. eexists. apply the_metrics_mutate.
    - repeat split; try done.
      exists (TestMetrics.fastestTest (the_metrics c1)).
      by rewrite assign_fastest_same. }
  destruct H2 as (Hm2 & Hr2 & Hf2 & Ht2 & f & Hf).
  simpl. split; [apply wf_mutate|].
  repeat split; try done.
  exists s, f. rewrite the_metrics_mutate, Hf, Hs, Hr2. done.
Qed.

(** *** [recordTest] *)

Lemma recordFailure_failures r c1 c2 :
  failures c1 = failures c2 -> ticks c1 = ticks c2 ->
  failures (recordFailure clock r c1) = failures (recordFailure clock r c2).
Proof.
  unfold recordFailure, endTime_or_now, new_Date. intros Hf Ht.
  destruct (TestResult.error r); [|done]. rewrite Hf.
  destruct (JsMap.get _ _); destruct (TestResult.endTime r); simpl;
    by rewrite ?Hf, ?Ht.
Qed.

Lemma recordTest_effect r c :
  let c' := recordTest clock r c in
  wf c' /\ metrics c' = metrics c /\ testResults c' = testResults c ++ [r]
  /\ failures c'
     = match TestResult.status r with
       | failed => failures (recordFailure clock r c)
       | _ => failures c
       end
  /\ exists s f,
       the_metrics c'
       = Assign.averageTestDuration (Spec.mean (testResults c ++ [r]))
           (Assign.fastestTest f
              (Assign.slowestTest s
                 (Spec.counted (TestResult.status r) (the_metrics c)))).
Proof.
  unfold recordTest.
  set (c2 := match TestResult.status r with passed => _ | _ => _ end).
  assert (H2 : metrics c2 = metrics c
               /\ testResults c2 = testResults c ++ [r]
               /\ failures c2
                  = match TestResult.status r with
                    | failed => failures (recordFailure clock r c)
                    | _ => failures c
                    end
               /\ the_metrics c2
                  = Spec.counted (TestResult.status r) (the_metrics c)).
  { subst c2. unfold Spec.counted.
    destruct (TestResult.status r); rewrite ?the_metrics_mutate;
      try (repeat split; done).
    destruct (recordFailure_frame r
      (mutate (fun m => Assign.failed (S (TestMetrics.failed m)) m)
         (mutate (fun m => Assign.total (S (TestMetrics.total m)) m)
            (push_result r c)))) as (_ & Hm & Hr & Hthe).
    rewrite Hm, Hr, Hthe, !the_metrics_mutate.
    repeat split; try done. by apply recordFailure_failures. }
  destruct H2 as (Hm & Hr & Hf & Hthe).
  destruct (updatePerformanceMetrics_effect r c2)
    as (Hwf & Hm' & Hr' & Hf' & _ & s & f & Hthe').
  split; [exact Hwf|].
  rewrite Hm', Hr', Hf', Hm, Hr, Hf. repeat split; try done.
  exists s, f. by rewrite Hthe', Hr, Hthe.
Qed.

Lemma start_effect c :
  let c' := start clock c in
  wf c' /\ metrics c' = metrics c /\ testResults c' = testResults c
  /\ failures c' = failures c
  /\ the_metrics c' = Assign.startTime (clock (ticks c)) (the_metrics c).
Proof.
  unfold start; simpl. split; [apply wf_mutate|].
  repeat split; try done. by rewrite the_metrics_mutate.
Qed.

Lemma finish_effect c :
  let c' := finish clock c in
  let now := clock (ticks c) in
  let m := the_metrics c in
  let timed :=
    Assign.duration (now - TestMetrics.startTime m)%Z
      (Assign.endTime (Some now) m) in
  wf c' /\ metrics c' = metrics c /\ testResults c' = testResults c
  /\ failures c' = failures c
  /\ the_metrics c'
     = Assign.topFailures
         (take 10 (JsArray.sort by_count (JsMap.values (failures c))))
         (if decide (0 < TestMetrics.total m)
          then Assign.failureRate
                 (Qc_of_nat (TestMetrics.failed m)
                  / Qc_of_nat (TestMetrics.total m) * Qc_of_Z 100)%Qc timed
          else timed).
Proof.
  unfold finish, new_Date.
  set (c0 := TestMetricsCollector.mk (heap c) (S (ticks c)) (metrics c)
               (testResults c) (failures c)).
  assert (H0 : the_metrics c0 = the_metrics c) by done.
  rewrite !the_metrics_mutate, H0.
  change (TestMetrics.total (Assign.duration _ (Assign.endTime _ ?m)))
    with (TestMetrics.total m).
  destruct (decide (0 < TestMetrics.total (the_metrics c)));
    (split; [apply wf_mutate|]); repeat split; try done;
    by rewrite !the_metrics_mutate, H0.
Qed.

Lemma getMetrics_effect c :
  let l := (getMetrics c).1 in
  let c' := (getMetrics c).2 in
  (l ∉ dom (heap c)) /\ heap c' = <[l := the_metrics c]> (heap c)
  /\ metrics c' = metrics c /\ testResults c' = testResults c
  /\ failures c' = failures c /\ the_metrics c' = the_metrics c
  /\ (wf c -> wf c').
Proof.
  unfold getMetrics, alloc; simpl.
  pose proof (is_fresh (dom (heap c))) as Hfresh.
  repeat split; try done.
  - unfold the_metrics; simpl.
    destruct (decide (fresh (dom (heap c)) = metrics c)) as [->|Hne].
    + by rewrite lookup_total_insert_eq.
    + by rewrite lookup_total_insert_ne.
  - unfold wf; simpl. intros Hwf.
    rewrite lookup_insert_ne; [done|].
    intros Heq. apply Hfresh. rewrite Heq. by apply elem_of_dom.
Qed.

Lemma reset_effect c :
  let c' := reset clock c in
  wf c' /\ testResults c' = [] /\ failures c' = []
  /\ the_metrics c'
     = fresh_metrics (clock (ticks c)) (TestMetrics.browser (the_metrics c))
         (TestMetrics.environment (the_metrics c)).
Proof.
  unfold reset, alloc, wf, the_metrics; simpl.
  rewrite lookup_insert_eq, lookup_total_insert_eq. eauto.
Qed.
End CollectorFacts.

(** ** What every reachable collector satisfies *)

Section Reachable.
Variable clock : nat -> Date.
Variables browser environment : string.
Import TestMetricsCollector.

Lemma invariant_new :
  Spec.invariant browser environment (new clock browser environment).
Proof.
  unfold new, alloc.
  split; try done; unfold wf, the_metrics; simpl;
    rewrite ?lookup_insert_eq, ?lookup_total_insert_eq; eauto.
Qed.

Lemma invariant_recordTest r c :
  Spec.invariant browser environment c ->
  Spec.invariant browser environment (recordTest clock r c).
Proof.
  intros [Hwf Hb He Ht Hempty Hk].
  destruct (recordTest_effect clock r c)
    as (Hwf' & Hm & Hr & Hf & s & f & Hthe).
  split; [exact Hwf'| | | | |].
  - rewrite Hthe. by destruct (TestResult.status r).
  - rewrite Hthe. by destruct (TestResult.status r).
  - rewrite Hthe, Hr, length_app. simpl.
    destruct (TestResult.status r); simpl; lia.
  - rewrite Hr. intros Habs. by destruct (testResults c).
  - rewrite Hf, Hr, omap_app. unfold Spec.failure_key at 2. simpl.
    destruct (TestResult.status r); try by rewrite app_nil_r.
    destruct (TestResult.error r) as [e|] eqn:E.
    + rewrite (recordFailure_keys clock r c e E), Hk. simpl.
      rewrite first_seen_snoc.
      repeat case_decide; try done; exfalso;
        rewrite elem_of_first_seen in *; tauto.
    + by rewrite recordFailure_no_error, app_nil_r.
Qed.

Lemma invariant_finish c :
  Spec.invariant browser environment c ->
  Spec.invariant browser environment (finish clock c).
Proof.
  intros [Hwf Hb He Ht Hempty Hk].
  destruct (finish_effect clock c) as (Hwf' & Hm & Hr & Hf & Hthe).
  split; [exact Hwf'| | | | |]; rewrite ?Hthe, ?Hr, ?Hf; try done.
  - by destruct (decide _).
  - by destruct (decide _).
  - by destruct (decide _).
  - intros Hnil. destruct (Hempty Hnil) as [Hf0 Hrate].
    split; [done|]. rewrite Hnil in Ht. simpl in Ht.
    rewrite decide_False by lia. exact Hrate.
Qed.

Lemma reachable_invariant c :
  reachable clock browser environment c ->
  Spec.invariant browser environment c.
Proof.
  induction 1 as [|c Hc IH|r c Hc IH|c Hc IH|c Hc IH|c Hc IH].
  - apply invariant_new.
  - destruct IH as [Hwf Hb He Ht Hempty Hk].
    destruct (start_effect clock c) as (Hwf' & Hm & Hr & Hf & Hthe).
    split; [exact Hwf'| | | | |]; by rewrite ?Hthe, ?Hr, ?Hf.
  - by apply invariant_recordTest.
  - by apply invariant_finish.
  - destruct IH as [Hwf Hb He Ht Hempty Hk].
    destruct (getMetrics_effect c)
      as (_ & _ & Hm & Hr & Hf & Hthe & Hwf').
    split; [by apply Hwf'| | | | |]; by rewrite ?Hthe, ?Hr, ?Hf.
  - destruct IH as [Hwf Hb He Ht Hempty Hk].
    destruct (reset_effect clock c) as (Hwf' & Hr & Hf & Hthe).
    split; [exact Hwf'| | | | |]; by rewrite ?Hthe, ?Hr, ?Hf.
Qed.
End Reachable.

(** ** The counters *)

Section Counters.
Variable clock : nat -> Date.
Import TestMetricsCollector.

Lemma recordTest_keeps_counts r c :
  Spec.counts_add_up (the_metrics c) ->
  Spec.counts_add_up (the_metrics (recordTest clock r c)).
Proof.
  unfold Spec.counts_add_up. intros H.
  destruct (recordTest_effect clock r c) as (_ & _ & _ & _ & s & f & ->).
  destruct (TestResult.status r); simpl; lia.
Qed.

Lemma record_all_keeps_counts results c :
  Spec.counts_add_up (the_metrics c) ->
  Spec.counts_add_up (the_metrics (record_all clock results c)).
Proof.
  revert c. induction results as [|r results IH]; intros c H; simpl.
  - exact H.
  - apply IH. by apply recordTest_keeps_counts.
Qed.

(** C2: on a collector that has been constructed and started, after each
    call of a sequence of [recordTest] calls (after the first [n] calls,
    for every [n]) the metrics satisfy
    [total = passed + failed + skipped + flaky]. *)
Theorem counts_add_up_after_every_recordTest
    (browser environment : string) (results : list TestResult.t) (n : nat) :
  let c := record_all clock (take n results)
             (start clock (new clock browser environment)) in
  TestMetrics.total (the_metrics c)
  = TestMetrics.passed (the_metrics c) + TestMetrics.failed (the_metrics c)
    + TestMetrics.skipped (the_metrics c)
    + TestMetrics.flaky (the_metrics c).
Proof.
  apply record_all_keeps_counts.
  destruct (start_effect clock (new clock browser environment))
    as (_ & _ & _ & _ & Hthe).
  unfold Spec.counts_add_up. rewrite Hthe.
  unfold new, alloc, the_metrics; simpl.
  by rewrite lookup_total_insert_eq.
Qed.

(** C7: [getPassRate()] returns 0 when [total] is 0, and otherwise
    [passed / total * 100], evaluated in that order. *)
Theorem getPassRate_zero_or_ratio c :
  (TestMetrics.total (the_metrics c) = 0 -> getPassRate c = 0%Qc)
  /\ (TestMetrics.total (the_metrics c) <> 0 ->
      getPassRate c
      = (Qc_of_nat (TestMetrics.passed (the_metrics c))
         / Qc_of_nat (TestMetrics.total (the_metrics c))
         * Qc_of_Z 100)%Qc).
Proof.
  unfold getPassRate. split; intros H.
  - by rewrite decide_True.
  - by rewrite decide_False.
Qed.
End Counters.

(** Both cases at work: a new collector, and one with a passed test. *)
Lemma getPassRate_zero_or_ratio_witness :
  TestMetricsCollector.getPassRate Sample.collector = 0%Qc
  /\ (let c := TestMetricsCollector.recordTest Sample.clock
                 (Sample.result "a" passed 100 None) Sample.collector in
      TestMetricsCollector.getPassRate c
      = (Qc_of_nat (TestMetrics.passed (TestMetricsCollector.the_metrics c))
         / Qc_of_nat (TestMetrics.total (TestMetricsCollector.the_metrics c))
         * Qc_of_Z 100)%Qc).
Proof.
  split.
  - apply (proj1 (getPassRate_zero_or_ratio Sample.collector)).
    vm_compute. reflexivity.
  - apply (proj2 (getPassRate_zero_or_ratio _)).
    vm_compute. discriminate.
Defined.

(** ** [finish], [reset] and [getMetrics] *)

Section Finalization.
Variable clock : nat -> Date.
Import TestMetricsCollector.

Lemma by_count_key (a b : FailureAnalysis.t) :
  by_count a b
  = (Z.of_nat (FailureAnalysis.count b)
     - Z.of_nat (FailureAnalysis.count a))%Z.
Proof. reflexivity. Qed.

Lemma topFailures_finish c :
  TestMetrics.topFailures (the_metrics (finish clock c))
  = take 10 (JsArray.sort by_count (JsMap.values (failures c))).
Proof.
  destruct (finish_effect clock c) as (_ & _ & _ & _ & ->). done.
Qed.

(** C5: for a collector reached through the public methods, [finish()]
    sets [failureRate] to [failed / total * 100] when [total > 0]; it sets
    [topFailures] to the first 10 (at most) of the failure-index entries
    sorted descending by [count], entries with equal counts staying in the
    order of the index, which is the order in which their keys were first
    recorded; and when [total] is 0, [failureRate] is 0 and [topFailures]
    is empty. *)
Theorem finish_failureRate_and_topFailures
    (browser environment : string) c :
  reachable clock browser environment c ->
  let m := the_metrics c in
  let m' := the_metrics (finish clock c) in
  (0 < TestMetrics.total m ->
   TestMetrics.failureRate m'
   = (Qc_of_nat (TestMetrics.failed m) / Qc_of_nat (TestMetrics.total m)
      * Qc_of_Z 100)%Qc)
  /\ (exists sorted,
        sorted ≡ₚ JsMap.values (failures c)
        /\ StronglySorted (JsArray.desc FailureAnalysis.count) sorted
        /\ (forall n,
              filter (fun a => FailureAnalysis.count a = n) sorted
              = filter (fun a => FailureAnalysis.count a = n)
                  (JsMap.values (failures c)))
        /\ TestMetrics.topFailures m' = take 10 sorted)
  /\ (failures c).*1 = Spec.first_seen (omap Spec.failure_key (testResults c))
  /\ length (TestMetrics.topFailures m') <= 10
  /\ (TestMetrics.total m = 0 ->
      TestMetrics.failureRate m' = 0%Qc /\ TestMetrics.topFailures m' = []).
Proof.
  intros Hreach. simpl.
  destruct (reachable_invariant _ _ _ _ Hreach) as [Hwf Hb He Ht Hempty Hk].
  destruct (finish_effect clock c) as (_ & _ & _ & _ & Hthe).
  split; [|split; [|split; [|split]]].
  - intros Hpos. rewrite Hthe, decide_True by done. done.
  - exists (JsArray.sort by_count (JsMap.values (failures c))).
    split; [apply (sort_perm by_count)|].
    split; [apply (sort_sorted by_count _ by_count_key)|].
    split; [intros n; apply (sort_stable by_count _ by_count_key)|].
    apply topFailures_finish.
  - exact Hk.
  - rewrite topFailures_finish, length_take. lia.
  - intros H0. rewrite H0 in Ht.
    destruct (testResults c) eqn:E; [|done].
    destruct (Hempty eq_refl) as [Hf Hrate].
    rewrite Hthe, Hf, decide_False by lia. done.
Qed.

(** C10: [reset()] on a collector constructed with the labels [browser]
    and [environment] leaves all five counters at zero, [duration],
    [averageTestDuration] and [failureRate] at zero, [topFailures], the
    results and the failure index empty, [endTime], [slowestTest] and
    [fastestTest] unset, and the two labels as they were before the call,
    which is as they were at construction. *)
Theorem reset_restores_initial_state (browser environment : string) c :
  reachable clock browser environment c ->
  let c' := reset clock c in
  let m' := the_metrics c' in
  (TestMetrics.total m' = 0 /\ TestMetrics.passed m' = 0
   /\ TestMetrics.failed m' = 0 /\ TestMetrics.skipped m' = 0
   /\ TestMetrics.flaky m' = 0)
  /\ (TestMetrics.duration m' = 0%Z
      /\ TestMetrics.averageTestDuration m' = 0%Qc
      /\ TestMetrics.failureRate m' = 0%Qc)
  /\ (TestMetrics.topFailures m' = [] /\ testResults c' = []
      /\ failures c' = [])
  /\ (TestMetrics.endTime m' = None /\ TestMetrics.slowestTest m' = None
      /\ TestMetrics.fastestTest m' = None)
  /\ (TestMetrics.browser m' = TestMetrics.browser (the_metrics c)
      /\ TestMetrics.environment m'
         = TestMetrics.environment (the_metrics c))
  /\ (TestMetrics.browser m' = browser
      /\ TestMetrics.environment m' = environment).
Proof.
  intros Hreach c' m'. subst c' m'.
  destruct (reachable_invariant _ _ _ _ Hreach) as [Hwf Hb He Ht Hempty Hk].
  destruct (reset_effect clock c) as (_ & Hr & Hf & Hthe).
  rewrite Hthe, Hr, Hf. simpl. rewrite Hb, He. done.
Qed.

(** Further calls of [getMetrics()] add objects to the heap and change
    nothing else. *)
Lemma after_copies_effect (n : nat) c :
  let c' := Derived.after_copies n c in
  (forall l, l ∈ dom (heap c) -> heap c' !! l = heap c !! l)
  /\ metrics c' = metrics c /\ the_metrics c' = the_metrics c
  /\ (wf c -> wf c').
Proof.
  induction n as [|n IH]; [done|].
  destruct IH as (Hkeep & Hm & Hthe & Hwf).
  change (Derived.after_copies (S n) c)
    with (getMetrics (Derived.after_copies n c)).2.
  destruct (getMetrics_effect (Derived.after_copies n c))
    as (Hl & Hh & Hm' & _ & _ & Hthe' & Hwf').
  cbv zeta. rewrite Hm', Hthe', Hm, Hthe. repeat split; [|by auto].
  intros l Hin. rewrite Hh, lookup_insert_ne; [by apply Hkeep|].
  intros <-. apply Hl. apply elem_of_dom. rewrite (Hkeep _ Hin).
  by apply elem_of_dom.
Qed.

(** C8, amended: two calls of [getMetrics()] on a reachable collector
    between which none of [recordTest], [start], [finish] and [reset] is
    called, only [getMetrics()] itself any number [n] of times, return two
    objects with the same field values, those of the collector's metrics
    object, and the three objects are pairwise distinct; the collector's
    own object is left as it was. *)
Theorem getMetrics_returns_distinct_equal_copies
    (browser environment : string) c (n : nat) :
  reachable clock browser environment c ->
  let first := (getMetrics c).1 in
  let c1 := Derived.after_copies n (getMetrics c).2 in
  let second := (getMetrics c1).1 in
  let c2 := (getMetrics c1).2 in
  heap c2 !! first = heap c2 !! second
  /\ heap c2 !! first = Some (the_metrics c)
  /\ heap c2 !! metrics c2 = Some (the_metrics c)
  /\ first <> second /\ first <> metrics c2 /\ second <> metrics c2
  /\ metrics c2 = metrics c.
Proof.
  intros Hreach first c1 second c2. subst first c1 second c2.
  pose proof (Spec.inv_wf _ _ _ (reachable_invariant _ _ _ _ Hreach)) as Hwf.
  destruct (getMetrics_effect c)
    as (Hl1 & Hh1 & Hm1 & _ & _ & Hthe1 & Hwf1).
  destruct (after_copies_effect n (getMetrics c).2)
    as (Hkeep & Hmn & Hthen & _).
  destruct (getMetrics_effect (Derived.after_copies n (getMetrics c).2))
    as (Hl2 & Hh2 & Hm2 & _ & _ & Hthe2 & _).
  set (l1 := (getMetrics c).1) in *.
  set (c0 := (getMetrics c).2) in *.
  set (c1 := Derived.after_copies n c0) in *.
  set (l2 := (getMetrics c1).1) in *.
  set (c2 := (getMetrics c1).2) in *.
  assert (Hin : metrics c ∈ dom (heap c)) by (by apply elem_of_dom).
  assert (H1m : l1 <> metrics c) by (intros E; apply Hl1; by rewrite E).
  assert (Hin0 : metrics c ∈ dom (heap c0)).
  { apply elem_of_dom. rewrite Hh1, lookup_insert_ne by done.
    by apply elem_of_dom. }
  assert (Hl1in : l1 ∈ dom (heap c0)).
  { apply elem_of_dom. rewrite Hh1, lookup_insert_eq. eauto. }
  assert (Hdom : forall l, l ∈ dom (heap c0) -> l ∈ dom (heap c1)).
  { intros l Hl. apply elem_of_dom. rewrite (Hkeep _ Hl).
    by apply elem_of_dom. }
  assert (H12 : l1 <> l2) by (intros E; apply Hl2; rewrite <- E; auto).
  assert (H2m : l2 <> metrics c) by (intros E; apply Hl2; rewrite E; auto).
  assert (Hfirst : heap c2 !! l1 = Some (the_metrics c)).
  { rewrite Hh2, lookup_insert_ne by done.
    rewrite (Hkeep _ Hl1in). by rewrite Hh1, lookup_insert_eq. }
  assert (Hsecond : heap c2 !! l2 = Some (the_metrics c)).
  { by rewrite Hh2, lookup_insert_eq, Hthen, Hthe1. }
  rewrite Hm2, Hmn, Hm1.
  repeat split; try done.
  - by rewrite Hfirst, Hsecond.
  - rewrite Hh2, lookup_insert_ne by done.
    rewrite (Hkeep _ Hin0).
    rewrite Hh1, lookup_insert_ne by done.
    destruct Hwf as [m Hm]. unfold the_metrics.
    by rewrite (lookup_total_correct _ _ _ Hm).
Qed.
End Finalization.

(** The sample run is reachable, and its [topFailures] is within bound. *)
Lemma finish_failureRate_and_topFailures_witness :
  reachable Sample.clock "chromium" "dev" Sample.run
  /\ length (TestMetrics.topFailures
               (TestMetricsCollector.the_metrics
                  (TestMetricsCollector.finish Sample.clock Sample.run)))
     <= 10.
Proof.
  split; [exact sample_run_reachable|].
  exact (proj1 (proj2 (proj2 (proj2
    (finish_failureRate_and_topFailures Sample.clock "chromium" "dev"
       Sample.run sample_run_reachable))))).
Defined.

(** Resetting the sample run keeps the labels it was constructed with. *)
Lemma reset_restores_initial_state_witness :
  reachable Sample.clock "chromium" "dev" Sample.run
  /\ TestMetrics.browser
       (TestMetricsCollector.the_metrics
          (TestMetricsCollector.reset Sample.clock Sample.run)) = "chromium"
  /\ TestMetrics.environment
       (TestMetricsCollector.the_metrics
          (TestMetricsCollector.reset Sample.clock Sample.run)) = "dev".
Proof.
  split; [exact sample_run_reachable|].
  exact (proj2 (proj2 (proj2 (proj2 (proj2
    (reset_restores_initial_state Sample.clock "chromium" "dev"
       Sample.run sample_run_reachable)))))).
Defined.

(** C8, as worded, fails: on the sample run, which is never finished, a
    copy is taken, [finish()] is called, and a second copy is taken, with
    no [recordTest] in between.  The first copy has no end time and the
    failure rate 0, the second has an end time and the failure rate 100:
    the two objects are not equal. *)
Lemma getMetrics_copies_differ_across_finish :
  let first := (TestMetricsCollector.getMetrics Sample.run).1 in
  let c1 :=
    TestMetricsCollector.finish Sample.clock
      (TestMetricsCollector.getMetrics Sample.run).2 in
  let second := (TestMetricsCollector.getMetrics c1).1 in
  let c2 := (TestMetricsCollector.getMetrics c1).2 in
  reachable Sample.clock "chromium" "dev" Sample.run
  /\ TestMetrics.endTime <$> TestMetricsCollector.heap c2 !! first
     = Some None
  /\ TestMetrics.endTime <$> TestMetricsCollector.heap c2 !! second
     = Some (Some 1700000000002%Z)
  /\ TestMetrics.failureRate <$> TestMetricsCollector.heap c2 !! first
     = Some (Qc_of_Z 0)
  /\ TestMetrics.failureRate <$> TestMetricsCollector.heap c2 !! second
     = Some (Qc_of_Z 100)
  /\ TestMetricsCollector.heap c2 !! first
     <> TestMetricsCollector.heap c2 !! second.
Proof.
  intros first c1 second c2.
  assert (H1 : TestMetrics.endTime <$> TestMetricsCollector.heap c2 !! first
               = Some None) by (vm_compute; reflexivity).
  assert (H2 : TestMetrics.endTime <$> TestMetricsCollector.heap c2 !! second
               = Some (Some 1700000000002%Z)) by (vm_compute; reflexivity).
  split; [exact sample_run_reachable|].
  split; [exact H1|]. split; [exact H2|].
  split; [vm_compute; reflexivity|]. split; [vm_compute; reflexivity|].
  intros E. rewrite E, H2 in H1. discriminate.
Qed.

(** Two copies taken of the sample run, with a third taken in between, are
    different objects. *)
Lemma getMetrics_returns_distinct_equal_copies_witness :
  reachable Sample.clock "chromium" "dev" Sample.run
  /\ (TestMetricsCollector.getMetrics Sample.run).1
     <> (TestMetricsCollector.getMetrics
           (Derived.after_copies 1
              (TestMetricsCollector.getMetrics Sample.run).2)).1.
Proof.
  split; [exact sample_run_reachable|].
  exact (proj1 (proj2 (proj2 (proj2
    (getMetrics_returns_distinct_equal_copies Sample.clock "chromium" "dev"
       Sample.run 1 sample_run_reachable))))).
Defined.

(** ** A failed test without an error object *)

Section Unattributable.
Variable clock : nat -> Date.
Import TestMetricsCollector.

Lemma visit_no_error patterns r :
  TestResult.error r = None -> FailureAnalyzer.visit patterns r = patterns.
Proof. unfold FailureAnalyzer.visit. by intros ->. Qed.

Lemma topFailures_same_index c1 c2 :
  failures c1 = failures c2 ->
  TestMetrics.topFailures (the_metrics (finish clock c1))
  = TestMetrics.topFailures (the_metrics (finish clock c2)).
Proof. intros H. by rewrite !topFailures_finish, H. Qed.

(** C6: a result with status failed and no error object is counted by
    [recordTest] in [failed] and in [total] and is kept among the failed
    tests, but the failure index is left as it was, so that [topFailures]
    at [finish()] is what it would be without that result; and
    [analyzeFailures()] returns, for any list of failed tests containing
    it, what it returns for the list without it. *)
Theorem failed_without_error_counted_not_indexed
    (r : TestResult.t) c (before after : list TestResult.t) :
  TestResult.status r = failed -> TestResult.error r = None ->
  let c' := recordTest clock r c in
  TestMetrics.failed (the_metrics c') = S (TestMetrics.failed (the_metrics c))
  /\ TestMetrics.total (the_metrics c') = S (TestMetrics.total (the_metrics c))
  /\ r ∈ getFailedTests c'
  /\ failures c' = failures c
  /\ TestMetrics.topFailures (the_metrics (finish clock c'))
     = TestMetrics.topFailures (the_metrics (finish clock c))
  /\ FailureAnalyzer.analyzeFailures (before ++ r :: after)
     = FailureAnalyzer.analyzeFailures (before ++ after).
Proof.
  intros Hs He c'. subst c'.
  destruct (recordTest_effect clock r c)
    as (_ & _ & Hr & Hf & s & f & Hthe).
  rewrite Hs in Hf, Hthe. rewrite recordFailure_no_error in Hf by done.
  split; [by rewrite Hthe|]. split; [by rewrite Hthe|].
  split; [|split; [exact Hf|split]].
  - unfold getFailedTests. rewrite Hr, list_elem_of_filter.
    split; [done|]. rewrite elem_of_app, list_elem_of_singleton. by right.
  - by apply topFailures_same_index.
  - unfold FailureAnalyzer.analyzeFailures, FailureAnalyzer.collect.
    rewrite !fold_left_app. simpl. by rewrite visit_no_error.
Qed.
End Unattributable.

(** The sample failure without an error object leaves the analysis of the
    other failure as it is. *)
Lemma failed_without_error_counted_not_indexed_witness :
  TestResult.status Sample.failed_without_error = failed
  /\ TestResult.error Sample.failed_without_error = None
  /\ FailureAnalyzer.analyzeFailures
       ([Sample.slow_page] ++ Sample.failed_without_error :: [])
     = FailureAnalyzer.analyzeFailures
         ([Sample.slow_page] ++ []).
Proof.
  split; [reflexivity|]. split; [reflexivity|].
  exact (proj2 (proj2 (proj2 (proj2 (proj2
    (failed_without_error_counted_not_indexed Sample.clock
       Sample.failed_without_error Sample.collector
       [Sample.slow_page] [] eq_refl eq_refl)))))).
Defined.

(** ** Grouping by (category, pattern) *)

Section Tabulated.
Context {P V : Type} `{EqDecision P}.
Variable kf : P -> string.
Hypothesis kf_inj : forall p q, kf p = kf q -> p = q.
Implicit Types (vf : P -> V) (L : list P).

Lemma get_tabulated vf L p :
  JsMap.get (kf p) ((fun q => (kf q, vf q)) <$> L)
  = if decide (p ∈ L) then Some (vf p) else None.
Proof.
  induction L as [|a L IH]; csimpl; [done|].
  destruct (String.eqb_spec (kf p) (kf a)) as [Heq|Hne].
  - apply kf_inj in Heq as ->.
    by rewrite decide_True by apply list_elem_of_here.
  - rewrite IH. assert (p <> a) by congruence.
    repeat case_decide; try done; exfalso;
      rewrite elem_of_cons in *; tauto.
Qed.

Lemma set_tabulated vf L p v :
  NoDup L ->
  JsMap.set (kf p) v ((fun q => (kf q, vf q)) <$> L)
  = if decide (p ∈ L)
    then (fun q => (kf q, if decide (q = p) then v else vf q)) <$> L
    else ((fun q => (kf q, vf q)) <$> L) ++ [(kf p, v)].
Proof.
  induction 1 as [|a L Ha HL IH]; csimpl; [done|].
  destruct (String.eqb_spec (kf p) (kf a)) as [Heq|Hne].
  - apply kf_inj in Heq as ->.
    rewrite decide_True by apply list_elem_of_here.
    rewrite (decide_True _ _ eq_refl). f_equal.
    apply list_fmap_ext. intros i q Hq.
    rewrite decide_False; [done|].
    intros ->. apply Ha. by eapply list_elem_of_lookup_2.
  - rewrite IH. assert (a <> p) by congruence.
    destruct (decide (a = p)); [done|].
    repeat case_decide; try done; exfalso;
      rewrite elem_of_cons in *; intuition congruence.
Qed.
End Tabulated.

Section Grouping.
Import FailureAnalyzer.

(** No category name contains a colon, so the key determines the pair. *)
Lemma key_str_inj (p q : FailureCategory * string) :
  Spec.key_str p = Spec.key_str q -> p = q.
Proof.
  destruct p as [c1 s1], q as [c2 s2]. unfold Spec.key_str. simpl.
  destruct c1, c2; intros H; vm_compute in H; congruence.
Qed.

Lemma members_snoc pr items e n :
  Spec.members pr (items ++ [(e, n)])
  = Spec.members pr items ++ (if decide (Spec.pair_of e = pr) then [n] else []).
Proof.
  unfold Spec.members. rewrite filter_app, fmap_app. f_equal.
  rewrite filter_cons, filter_nil. simpl. by destruct (decide _).
Qed.

Lemma members_unseen pr items :
  pr ∉ Spec.pair_of <$> (fst <$> items) -> Spec.members pr items = [].
Proof.
  unfold Spec.members. induction items as [|[e n] items IH]; csimpl; [done|].
  rewrite not_elem_of_cons. intros [Hne Hin].
  rewrite filter_cons_False by (simpl; congruence). by apply IH.
Qed.

(** The pattern map holds one entry per pair, in first-seen order, each
    with all the tests of its pair. *)
Lemma collect_tabulates tests :
  collect tests
  = (fun pr => (Spec.key_str pr,
                Spec.pattern_of (Spec.attributable tests) pr))
    <$> Spec.first_seen (Spec.pair_of <$> (fst <$> Spec.attributable tests)).
Proof.
  induction tests as [|t tests IH] using rev_ind; [done|].
  unfold collect in *. rewrite fold_left_app. simpl. rewrite IH. clear IH.
  unfold Spec.attributable. rewrite omap_app. simpl.
  unfold visit. destruct (TestResult.error t) as [e|]; simpl;
    [|by rewrite app_nil_r].
  fold (Spec.attributable tests).
  set (items := Spec.attributable tests).
  set (n := TestResult.fullName t).
  rewrite !fmap_app. simpl. rewrite first_seen_snoc.
  change (key_of e) with (Spec.key_str (Spec.pair_of e)).
  unfold JsMap.has. rewrite !(get_tabulated _ key_str_inj).
  set (L := Spec.first_seen (Spec.pair_of <$> (fst <$> items))).
  assert (HL : NoDup L) by apply NoDup_first_seen.
  destruct (decide (Spec.pair_of e ∈ L)) as [Hin|Hin].
  - rewrite (set_tabulated _ key_str_inj _ _ _ _ HL).
    rewrite decide_True by done.
    rewrite decide_True by (by apply elem_of_first_seen).
    apply list_fmap_ext. intros i q Hq. f_equal.
    unfold Spec.pattern_of. rewrite members_snoc.
    destruct (decide (q = Spec.pair_of e)) as [->|Hne].
    + rewrite decide_True by done. unfold bump. simpl.
      f_equal. rewrite length_app. simpl. lia.
    + rewrite decide_False by congruence. by rewrite app_nil_r.
  - rewrite (set_tabulated _ key_str_inj _ _ _ _ HL).
    rewrite decide_False by done.
    rewrite decide_False by (by rewrite <- elem_of_first_seen).
    rewrite fmap_app. simpl. f_equal.
    + apply list_fmap_ext. intros i q Hq. f_equal.
      unfold Spec.pattern_of. rewrite members_snoc.
      rewrite decide_False; [by rewrite app_nil_r|].
      intros Heq. apply Hin. rewrite Heq.
      by eapply list_elem_of_lookup_2.
    + do 2 f_equal. unfold Spec.pattern_of, new_pattern.
      rewrite members_snoc, decide_True by done.
      rewrite members_unseen by (by rewrite <- elem_of_first_seen).
      done.
Qed.

Lemma values_collect tests :
  JsMap.values (collect tests) = Spec.group_by_pair tests.
Proof.
  rewrite collect_tabulates. unfold JsMap.values, Spec.group_by_pair.
  rewrite <- list_fmap_compose. done.
Qed.

Lemma by_occurrences_key (a b : FailurePattern.t) :
  by_occurrences a b
  = (Z.of_nat (FailurePattern.occurrences b)
     - Z.of_nat (FailurePattern.occurrences a))%Z.
Proof. reflexivity. Qed.

(** C4: [analyzeFailures()] returns one pattern per distinct pair
    (category, pattern) among the failed tests that carry an error, whose
    [affectedTests] are the full names of the tests of that pair in the
    order they were met and whose [occurrences] is their number; the
    result is a rearrangement of these patterns that is descending by
    [occurrences], in which patterns with equal [occurrences] keep the
    order in which their pairs were first seen. *)
Theorem analyzeFailures_groups_and_orders (failedTests : list TestResult.t) :
  let groups := Spec.group_by_pair failedTests in
  let out := analyzeFailures failedTests in
  out = JsArray.sort by_occurrences groups
  /\ out ≡ₚ groups
  /\ StronglySorted (JsArray.desc FailurePattern.occurrences) out
  /\ (forall n,
        filter (fun p => FailurePattern.occurrences p = n) out
        = filter (fun p => FailurePattern.occurrences p = n) groups).
Proof.
  intros groups out. subst groups out.
  unfold analyzeFailures. rewrite values_collect.
  split; [done|].
  split; [apply (sort_perm by_occurrences)|].
  split; [apply (sort_sorted by_occurrences _ by_occurrences_key)|].
  intros n. apply (sort_stable by_occurrences _ by_occurrences_key).
Qed.
End Grouping.

(** ** A whole run *)

Section Run.
Variable clock : nat -> Date.
Import TestMetricsCollector.

(** After a sequence of [recordTest] calls each counter has grown by the
    number of results of its status, and the average is the mean over all
    the results recorded. *)
Lemma record_all_effect results c :
  let m := the_metrics c in
  let c' := record_all clock results c in
  let m' := the_metrics c' in
  testResults c' = testResults c ++ results
  /\ TestMetrics.total m' = TestMetrics.total m + length results
  /\ TestMetrics.passed m'
     = TestMetrics.passed m + length (Spec.with_status passed results)
  /\ TestMetrics.failed m'
     = TestMetrics.failed m + length (Spec.with_status failed results)
  /\ TestMetrics.skipped m'
     = TestMetrics.skipped m + length (Spec.with_status skipped results)
  /\ TestMetrics.flaky m'
     = TestMetrics.flaky m + length (Spec.with_status flaky results)
  /\ (results <> [] ->
      TestMetrics.averageTestDuration m'
      = Spec.mean (testResults c ++ results)).
Proof.
  revert c. induction results as [|r results IH]; intros c; simpl.
  - rewrite app_nil_r. unfold Spec.with_status. simpl. repeat split; try lia. done.
  - destruct (recordTest_effect clock r c)
      as (_ & _ & Hr & _ & s & f & Hthe).
    destruct (IH (recordTest clock r c))
      as (IHr & IHt & IHp & IHf & IHs & IHk & IHavg).
    unfold record_all in *. simpl in *.
    rewrite IHr, IHt, IHp, IHf, IHs, IHk, Hr, Hthe.
    rewrite <- !app_assoc. simpl.
    unfold Spec.with_status. rewrite !filter_cons.
    repeat split; try (destruct (TestResult.status r); simpl;
                       repeat case_decide; simpl; try done; lia).
    intros _. destruct results as [|r' results].
    + simpl. by rewrite Hthe.
    + rewrite IHavg by done. by rewrite Hr, <- app_assoc.
Qed.

Lemma totalDuration_from (acc : Qc) results :
  fold_left (fun sum t => (sum + TestResult.duration t)%Qc) results acc
  = (acc + totalDuration results)%Qc.
Proof.
  unfold totalDuration. revert acc.
  induction results as [|r results IH]; intros acc; simpl.
  - ring.
  - rewrite IH, (IH (0 + _)%Qc). ring.
Qed.

Lemma totalDuration_cons r results :
  totalDuration (r :: results)
  = (TestResult.duration r + totalDuration results)%Qc.
Proof.
  unfold totalDuration at 1. simpl. rewrite totalDuration_from. ring.
Qed.

Lemma totalDuration_perm l1 l2 :
  l1 ≡ₚ l2 -> totalDuration l1 = totalDuration l2.
Proof.
  induction 1 as [|x l1 l2 H IH|x y l|l1 l2 l3 H1 IH1 H2 IH2];
    rewrite ?totalDuration_cons; try congruence.
  ring.
Qed.

(** C3: three passed results of 100, 200 and 300 ms and one failed result
    whose error has the message [Timeout 5000ms exceeded] and the type
    [TimeoutError] are recorded, in any order, on a started collector;
    after [finish()], [total] is 4, [passed] 3, [failed] 1,
    [averageTestDuration] is the mean of the four durations and
    [failureRate] is 25; [analyzeFailures()] on the failed tests yields
    exactly one pattern, of category timeout, pattern [Timeout 5000ms],
    one occurrence and severity medium. *)
Theorem scenario_three_passed_one_timeout
    (browser environment : string) (p1 p2 p3 f : TestResult.t)
    (err : TestError.t) (results : list TestResult.t) :
  results ≡ₚ [p1; p2; p3; f] ->
  TestResult.status p1 = passed -> TestResult.duration p1 = Qc_of_Z 100 ->
  TestResult.status p2 = passed -> TestResult.duration p2 = Qc_of_Z 200 ->
  TestResult.status p3 = passed -> TestResult.duration p3 = Qc_of_Z 300 ->
  TestResult.status f = failed -> TestResult.error f = Some err ->
  TestError.message err = "Timeout 5000ms exceeded" ->
  TestError.type err = "TimeoutError" ->
  let c := finish clock
             (record_all clock results
                (start clock (new clock browser environment))) in
  let m := the_metrics c in
  TestMetrics.total m = 4 /\ TestMetrics.passed m = 3
  /\ TestMetrics.failed m = 1
  /\ TestMetrics.averageTestDuration m
     = ((Qc_of_Z 100 + Qc_of_Z 200 + Qc_of_Z 300 + TestResult.duration f)
        / Qc_of_Z 4)%Qc
  /\ TestMetrics.failureRate m = Qc_of_Z 25
  /\ exists p,
       FailureAnalyzer.analyzeFailures (getFailedTests c) = [p]
       /\ FailurePattern.category p = timeout
       /\ FailurePattern.pattern p = "Timeout 5000ms"
       /\ FailurePattern.occurrences p = 1
       /\ FailurePattern.severity p = medium.
Proof.
  intros Hperm Hs1 Hd1 Hs2 Hd2 Hs3 Hd3 Hsf Hef Hmsg Hty c m. subst c m.
  set (c0 := start clock (new clock browser environment)).
  assert (H0 : testResults c0 = []
               /\ the_metrics c0
                  = Assign.startTime (clock 1)
                      (fresh_metrics (clock 0) browser environment)).
  { destruct (start_effect clock (new clock browser environment))
      as (_ & _ & Hr & _ & Hthe).
    fold c0 in Hr, Hthe. rewrite Hr, Hthe. split; [done|].
    unfold new, alloc, the_metrics; simpl.
    by rewrite lookup_total_insert_eq. }
  destruct H0 as [Hr0 Hm0].
  destruct (record_all_effect results c0)
    as (Hr & Ht & Hp & Hf & _ & _ & Havg).
  rewrite Hr0 in Hr, Havg. rewrite Hm0 in Ht, Hp, Hf. simpl in Hr, Ht, Hp, Hf.
  set (c4 := record_all clock results c0) in *.
  assert (Hlen : length results = 4) by (by rewrite Hperm).
  assert (Hpassed : Spec.with_status passed results ≡ₚ [p1; p2; p3]).
  { unfold Spec.with_status. rewrite Hperm, !filter_cons, filter_nil.
    rewrite Hs1, Hs2, Hs3, Hsf. by repeat case_decide. }
  assert (Hfailed : Spec.with_status failed results = [f]).
  { apply Permutation_singleton_r.
    unfold Spec.with_status. rewrite Hperm, !filter_cons, filter_nil.
    rewrite Hs1, Hs2, Hs3, Hsf. by repeat case_decide. }
  rewrite Hlen in Ht. rewrite Hpassed in Hp. rewrite Hfailed in Hf.
  simpl in Hp, Hf.
  destruct (finish_effect clock c4) as (_ & _ & Hr5 & _ & Hthe).
  rewrite Hthe, Ht, Hf. rewrite decide_True by lia. simpl.
  rewrite Ht, Hp, Hf.
  split; [done|]. split; [done|]. split; [done|].
  split; [|split].
  - rewrite Havg by (intros E; by rewrite E in Hlen).
    unfold Spec.mean. simpl. rewrite Hlen, (totalDuration_perm _ _ Hperm).
    rewrite !totalDuration_cons, Hd1, Hd2, Hd3.
    unfold totalDuration. simpl.
    change (Qc_of_nat 4) with (Qc_of_Z 4). f_equal. ring.
  - apply Qc_is_canon. vm_compute. reflexivity.
  - unfold getFailedTests. rewrite Hr5, Hr.
    change (filter _ results) with (Spec.with_status failed results).
    rewrite Hfailed.
    unfold FailureAnalyzer.analyzeFailures, FailureAnalyzer.collect.
    simpl. unfold FailureAnalyzer.visit. rewrite Hef. simpl.
    eexists. split; [reflexivity|]. simpl.
    unfold FailureAnalyzer.categorizeFailure, FailureAnalyzer.extractPattern.
    rewrite Hmsg, Hty. repeat split; reflexivity.
Qed.
End Run.

Section RoundedRate.
Import JsNumber.
Local Open Scope Q_scope.

Lemma this_Q2Qc (q : Q) : this (Q2Qc q) == q.
Proof. simpl. apply Qred_correct. Qed.

Lemma this_of_Z (z : Z) : this (Qc_of_Z z) == inject_Z z.
Proof. apply this_Q2Qc. Qed.

Lemma this_mult (a b : Qc) : this (a * b)%Qc == this a * this b.
Proof. apply this_Q2Qc. Qed.

Lemma this_plus (a b : Qc) : this (a + b)%Qc == this a + this b.
Proof. apply this_Q2Qc. Qed.

Lemma this_div (a b : Qc) : this (a / b)%Qc == this a / this b.
Proof.
  unfold Qcdiv. rewrite this_mult. unfold Qcinv. by rewrite this_Q2Qc.
Qed.

Lemma floor_ge (z : Z) (q : Q) : (z <= Qfloor q)%Z <-> inject_Z z <= q.
Proof.
  split; intros H.
  - eapply Qle_trans; [|apply Qfloor_le]. by rewrite <- Zle_Qle.
  - rewrite <- (Qfloor_Z z). by apply Qfloor_resp_le.
Qed.

(** The rate [passed / total * 100] against a threshold [a / b]. *)
Lemma rate_ge (p t : nat) (a : Z) (b : positive) :
  (0 < t)%nat ->
  (a # b) <= this (Qc_of_nat p / Qc_of_nat t * Qc_of_Z 100)%Qc
  <-> (a * Z.of_nat t <= 100 * Z.of_nat p * Z.pos b)%Z.
Proof.
  intros Ht. rewrite this_mult, this_div. unfold Qc_of_nat.
  rewrite !this_of_Z.
  destruct (Z.of_nat t) as [|k|k] eqn:E; try lia.
  unfold Qle, Qdiv, Qmult, Qinv. simpl. lia.
Qed.

Lemma not_neg (x : Qc) : 0 <= this x -> is_neg x = false.
Proof.
  intros H. unfold is_neg, Qc_ltb.
  apply negb_false_iff, Qle_bool_iff. exact H.
Qed.

(** What the header compares with its thresholds is the rate rounded to
    one decimal, halves upwards. *)
Lemma displayed_ge (x : Qc) (k : Z) :
  0 <= this x -> (0 <= k <= 10 ^ 20)%Z ->
  geb (parseFloat (toFixed1 (Num x))) (Num (Qc_of_Z k)) = true
  <-> ((20 * k - 1) # 20) <= this x.
Proof.
  intros Hx Hk. unfold toFixed1. rewrite (not_neg x Hx).
  destruct (Qle_bool (this ten_pow_21) (this x)) eqn:Ebig; simpl parseFloat;
    unfold geb; rewrite Qle_bool_iff.
  - apply Qle_bool_iff in Ebig. unfold ten_pow_21 in Ebig.
    rewrite this_of_Z in *. 
    destruct (this x) as [n d]. unfold Qle in *. simpl in *. split; intros _; nia.
  - assert (Hsmall : ~ this ten_pow_21 <= this x).
    { rewrite <- Qle_bool_iff. congruence. }
    clear Ebig. rewrite this_div, !this_of_Z. unfold nearest_tenths.
    transitivity (10 * k <= Qfloor (this (x * Qc_of_Z 10 + Q2Qc (1 # 2))%Qc))%Z.
    { unfold Qle, Qdiv, Qmult, Qinv. simpl. lia. }
    rewrite floor_ge, this_plus, this_mult, this_of_Z, this_Q2Qc.
    destruct (this x) as [n d]. unfold Qle, Qplus, Qmult. simpl. lia.
Qed.

Lemma is_zero_of_nat (n : nat) :
  is_zero (Qc_of_nat n) = true <-> n = 0%nat.
Proof.
  unfold is_zero, Qc_of_nat. rewrite Qeq_bool_iff, this_of_Z.
  unfold Qeq. simpl. lia.
Qed.

Lemma is_neg_of_nat (n : nat) : is_neg (Qc_of_nat n) = false.
Proof.
  apply not_neg. unfold Qc_of_nat. rewrite this_of_Z.
  unfold Qle. simpl. lia.
Qed.

Lemma rate_undefined (p : nat) :
  mul (div (of_nat p) (of_nat 0)) (Num (Qc_of_Z 100))
  = if decide (p = 0%nat) then NaN else PosInf.
Proof.
  unfold of_nat, div. change (is_zero (Qc_of_nat 0)) with true.
  destruct (is_zero (Qc_of_nat p)) eqn:E.
  - apply is_zero_of_nat in E. by rewrite decide_True.
  - rewrite is_neg_of_nat, decide_False; [done|].
    intros Hp. apply is_zero_of_nat in Hp. congruence.
Qed.

Lemma rate_defined (p t : nat) :
  (0 < t)%nat ->
  mul (div (of_nat p) (of_nat t)) (Num (Qc_of_Z 100))
  = Num (Qc_of_nat p / Qc_of_nat t * Qc_of_Z 100)%Qc.
Proof.
  intros Ht. unfold of_nat, div.
  destruct (is_zero (Qc_of_nat t)) eqn:E; [|done].
  apply is_zero_of_nat in E. lia.
Qed.
End RoundedRate.

Section DisplayedRate.
Import JsNumber.
Local Open Scope Q_scope.

Lemma this_opp (a : Qc) : this (- a)%Qc == - this a.
Proof. apply this_Q2Qc. Qed.

Lemma is_neg_spec (x : Qc) : is_neg x = true <-> this x < 0.
Proof.
  unfold is_neg, Qc_ltb. rewrite negb_true_iff. split.
  - intros E. apply Qnot_le_lt. intros H.
    assert (E' : Qle_bool (this 0%Qc) (this x) = true)
      by (apply Qle_bool_iff; exact H).
    congruence.
  - intros H. destruct (Qle_bool (this 0%Qc) (this x)) eqn:E; [|done].
    apply Qle_bool_iff in E. exfalso.
    eapply Qlt_not_le; [exact H|exact E].
Qed.

Lemma nearest_tenths_nonneg (x : Qc) : 0 <= this x -> (0 <= nearest_tenths x)%Z.
Proof.
  intros Hx. unfold nearest_tenths.
  apply floor_ge. rewrite this_plus, this_mult, this_of_Z, this_Q2Qc.
  destruct (this x) as [n d]. unfold Qle, Qplus, Qmult in *. simpl in *. lia.
Qed.

(** What the header compares with a threshold [k] is at least [k] exactly
    when the number itself is at least [k - 1/20]; this holds of every
    number, the negative ones, the infinities and NaN included. *)
Lemma displayed_at_least (x : JsNumber.t) (k : Z) :
  (0 < k <= 10 ^ 20)%Z ->
  geb (parseFloat (toFixed1 x)) (Num (Qc_of_Z k)) = true
  <-> Spec.at_least (Q2Qc ((20 * k - 1) # 20)) x.
Proof.
  intros Hk. destruct x as [q| | |]; try (simpl; by intuition).
  unfold Spec.at_least, Qcle. rewrite this_Q2Qc.
  destruct (is_neg q) eqn:Eneg.
  - apply is_neg_spec in Eneg.
    assert (Hno : ~ ((20 * k - 1) # 20) <= this q).
    { intros H. destruct (this q) as [n d].
      unfold Qle, Qlt in *. simpl in *. nia. }
    split; [|done]. intros H. exfalso. revert H.
    unfold toFixed1. rewrite (proj2 (is_neg_spec q) Eneg).
    destruct (Qle_bool _ _); simpl parseFloat; unfold geb;
      rewrite Qle_bool_iff.
    + rewrite this_of_Z. intros H. destruct (this q) as [n d].
      unfold Qle, Qlt in *. simpl in *. lia.
    + rewrite this_div, !this_of_Z.
      assert (Hn : (0 <= nearest_tenths (- q)%Qc)%Z).
      { apply nearest_tenths_nonneg. rewrite this_opp.
        destruct (this q) as [n d]. unfold Qle, Qlt, Qopp in *.
        simpl in *. lia. }
      set (f := nearest_tenths _) in *. clearbody f.
      unfold Qle, Qdiv, Qmult, Qinv. simpl. lia.
  - assert (Hq : 0 <= this q).
    { apply Qnot_lt_le. intros H. apply is_neg_spec in H. congruence. }
    apply displayed_ge; [exact Hq|lia].
Qed.

(** The same of the number rounded to one decimal place. *)
Lemma rounded_at_least (x : JsNumber.t) (k : Z) :
  (0 < k)%Z ->
  geb (Spec.rounded_to_tenth x) (Num (Qc_of_Z k)) = true
  <-> Spec.at_least (Q2Qc ((20 * k - 1) # 20)) x.
Proof.
  intros Hk. destruct x as [q| | |]; try (simpl; by intuition).
  unfold Spec.at_least, Qcle, Spec.rounded_to_tenth, geb.
  rewrite this_Q2Qc, Qle_bool_iff, this_div, !this_of_Z.
  destruct (Qle_bool 0 q) eqn:E.
  - transitivity
      (10 * k <= Qfloor (this (q * Qc_of_Z 10 + Q2Qc (1 # 2))%Qc))%Z.
    { unfold Qle, Qdiv, Qmult, Qinv. simpl. lia. }
    rewrite floor_ge, this_plus, this_mult, this_of_Z, this_Q2Qc.
    destruct (this q) as [n d]. unfold Qle, Qplus, Qmult. simpl. lia.
  - assert (Hq : this q < 0).
    { apply Qnot_le_lt. intros H. apply Qle_bool_iff in H.
      change (this 0%Qc) with 0 in E. congruence. }
    assert (Hn : (0 <= Qfloor (this (- q * Qc_of_Z 10 + Q2Qc (1 # 2))%Qc))%Z).
    { apply floor_ge.
      rewrite this_plus, this_mult, this_opp, this_of_Z, this_Q2Qc.
      destruct (this q) as [n d]. unfold Qle, Qlt, Qplus, Qmult, Qopp in *.
      simpl in *. lia. }
    split; intros H; exfalso.
    + set (f := Qfloor _) in *. clearbody f. revert H.
      unfold Qle, Qdiv, Qmult, Qinv. simpl. lia.
    + destruct (this q) as [n d]. unfold Qle, Qlt in *. simpl in *. nia.
Qed.

(** The class of the header by the number it rounds, in any arithmetic. *)
Lemma statusClass_thresholds (arith : Arithmetic.t) (metrics : TestMetrics.t) :
  let x := HTMLReportGenerator.rate arith metrics in
  let class := HTMLReportGenerator.statusClass arith metrics in
  class = Spec.class_of (Spec.rounded_to_tenth x)
  /\ (class = HTMLReportGenerator.success
      <-> Spec.at_least (Q2Qc (1599 # 20)) x)
  /\ (class = HTMLReportGenerator.warning
      <-> Spec.at_least (Q2Qc (999 # 20)) x
          /\ ~ Spec.at_least (Q2Qc (1599 # 20)) x)
  /\ (class = HTMLReportGenerator.error
      <-> ~ Spec.at_least (Q2Qc (999 # 20)) x).
Proof.
  intros x class. subst class.
  unfold HTMLReportGenerator.statusClass, HTMLReportGenerator.passRate,
    Spec.class_of. fold x.
  pose proof (displayed_at_least x 80 ltac:(lia)) as H80.
  pose proof (displayed_at_least x 50 ltac:(lia)) as H50.
  pose proof (rounded_at_least x 80 ltac:(lia)) as R80.
  pose proof (rounded_at_least x 50 ltac:(lia)) as R50.
  change (20 * 80 - 1)%Z with 1599%Z in *.
  change (20 * 50 - 1)%Z with 999%Z in *.
  assert (Hmono : Spec.at_least (Q2Qc (1599 # 20)) x ->
                  Spec.at_least (Q2Qc (999 # 20)) x).
  { destruct x as [q| | |]; simpl; try done.
    unfold Qcle. rewrite !this_Q2Qc. intros H.
    eapply Qle_trans; [|exact H]. unfold Qle. simpl. lia. }
  destruct (geb (parseFloat (toFixed1 x)) (Num (Qc_of_Z 80))) eqn:E80;
    [|destruct (geb (parseFloat (toFixed1 x)) (Num (Qc_of_Z 50))) eqn:E50];
    destruct (geb (Spec.rounded_to_tenth x) (Num (Qc_of_Z 80))) eqn:F80;
    destruct (geb (Spec.rounded_to_tenth x) (Num (Qc_of_Z 50))) eqn:F50;
    intuition (try discriminate; try congruence).
Qed.
End DisplayedRate.

(** C9, as worded, fails: with 1999 of 2500 tests passed the pass rate is
    79.96, below 80 both as a fraction and as the double the code computes,
    and the header carries the class [success]. *)
Lemma statusClass_success_below_80 :
  (Qc_of_nat 1999 / Qc_of_nat 2500 * Qc_of_Z 100 < Qc_of_Z 80)%Qc
  /\ JsNumber.geb
       (HTMLReportGenerator.rate Arithmetic.binary64
          (Sample.metrics 1999 2500))
       (JsNumber.Num (Qc_of_Z 80)) = false
  /\ HTMLReportGenerator.pass_rate_class
       (HTMLReportGenerator.buildHeader Arithmetic.binary64
          (Sample.metrics 1999 2500))
     = HTMLReportGenerator.success.
Proof. split; [reflexivity|]. split; vm_compute; reflexivity. Qed.

(** C9, amended: the class is derived from the pass rate rounded to one
    decimal place, as the header displays it.  With [x] the double the code
    computes for [(passed / total) * 100], the class is [success] exactly
    when [x] rounded to one decimal is at least 80, [warning] when it is at
    least 50 and below 80, and [error] otherwise.  By the rounding, [x]
    rounded is at least 80 exactly when [x] is at least 79.95, and at least
    50 exactly when [x] is at least 49.95. *)
Theorem statusClass_by_displayed_rate (metrics : TestMetrics.t) :
  let x := HTMLReportGenerator.rate Arithmetic.binary64 metrics in
  let class :=
    HTMLReportGenerator.pass_rate_class
      (HTMLReportGenerator.buildHeader Arithmetic.binary64 metrics) in
  class = Spec.class_of (Spec.rounded_to_tenth x)
  /\ (class = HTMLReportGenerator.success
      <-> Spec.at_least (Q2Qc (1599 # 20)) x)
  /\ (class = HTMLReportGenerator.warning
      <-> Spec.at_least (Q2Qc (999 # 20)) x
          /\ ~ Spec.at_least (Q2Qc (1599 # 20)) x)
  /\ (class = HTMLReportGenerator.error
      <-> ~ Spec.at_least (Q2Qc (999 # 20)) x).
Proof.
  intros x class. subst x class.
  exact (statusClass_thresholds Arithmetic.binary64 metrics).
Qed.

(** The rounding of the single operations shows in the header.  With 23
    of 80 tests passed the quotient times 100 is 28.75, the double the
    code computes lies just below it, and the header shows 28.7.  With
    7995000000319 of 10000000000399 passed the fraction lies below 79.95
    and the double above it: the class is [success], where computing in
    the rationals would give [warning]. *)
Lemma header_follows_the_double :
  HTMLReportGenerator.passRate Arithmetic.binary64 (Sample.metrics 23 80)
  = JsNumber.FDec 287
  /\ HTMLReportGenerator.passRate Arithmetic.exact (Sample.metrics 23 80)
     = JsNumber.FDec 288
  /\ (let metrics :=
        Sample.metrics (Z.to_nat 7995000000319) (Z.to_nat 10000000000399) in
      HTMLReportGenerator.statusClass Arithmetic.binary64 metrics
      = HTMLReportGenerator.success
      /\ HTMLReportGenerator.statusClass Arithmetic.exact metrics
         = HTMLReportGenerator.warning).
Proof.
  split; [vm_compute; reflexivity|]. split; [vm_compute; reflexivity|].
  unfold HTMLReportGenerator.statusClass, HTMLReportGenerator.passRate,
    HTMLReportGenerator.rate, Sample.metrics.
  cbn [TestMetrics.passed TestMetrics.total Assign.total Assign.passed
       fresh_metrics Arithmetic.of_nat Arithmetic.binary64 Arithmetic.exact
       Arithmetic.div Arithmetic.mul Arithmetic.value].
  unfold Binary64.of_nat, JsNumber.of_nat, Qc_of_nat.
  rewrite !Z2Nat.id by lia.
  split; vm_compute; reflexivity.
Qed.

(** Scenario A with the failed test recorded second. *)
Lemma scenario_three_passed_one_timeout_witness :
  Sample.scenario_A ≡ₚ [Sample.p1; Sample.p2; Sample.p3; Sample.slow_page]
  /\ (let c := TestMetricsCollector.finish Sample.clock
                 (record_all Sample.clock Sample.scenario_A
                    (TestMetricsCollector.start Sample.clock Sample.collector))
      in
      TestMetrics.total (TestMetricsCollector.the_metrics c) = 4
      /\ TestMetrics.failureRate (TestMetricsCollector.the_metrics c)
         = Qc_of_Z 25).
Proof.
  assert (Hperm : Sample.scenario_A
                  ≡ₚ [Sample.p1; Sample.p2; Sample.p3; Sample.slow_page]).
  { unfold Sample.scenario_A. apply perm_skip.
    apply (Permutation_cons_append [Sample.p2; Sample.p3] Sample.slow_page). }
  split; [exact Hperm|].
  pose proof (scenario_three_passed_one_timeout Sample.clock "chromium" "dev"
                Sample.p1 Sample.p2 Sample.p3 Sample.slow_page
                Sample.timeout_error Sample.scenario_A Hperm
                eq_refl eq_refl eq_refl eq_refl eq_refl eq_refl
                eq_refl eq_refl eq_refl eq_refl) as H.
  split; [exact (proj1 H)|exact (proj1 (proj2 (proj2 (proj2 (proj2 H)))))].
Defined.

(* ===================================================================== *)
(** * Further properties of the collector *)
(* ===================================================================== *)

(** ** Sorting under any consistent comparator *)

Section SortInOrder.
Context {A : Type}.
Variable cmp : A -> A -> Z.
Hypothesis cmp_total : forall a b, (0 < cmp a b)%Z -> (cmp b a <= 0)%Z.
Hypothesis cmp_trans :
  forall a b c, (cmp a b <= 0)%Z -> (cmp b c <= 0)%Z -> (cmp a c <= 0)%Z.

Lemma insert_in_order x l :
  StronglySorted (JsArray.in_order cmp) l ->
  StronglySorted (JsArray.in_order cmp) (JsArray.insert cmp x l).
Proof.
  induction 1 as [|y l Hl IH Hy]; simpl.
  - repeat constructor.
  - destruct (Z.leb_spec (cmp x y) 0) as [Hc|Hc].
    + constructor; [by constructor|].
      constructor; [exact Hc|].
      eapply Forall_impl; [exact Hy|].
      intros z Hz. by eapply cmp_trans.
    + constructor; [exact IH|].
      rewrite insert_perm. constructor; [by apply cmp_total|exact Hy].
Qed.

Lemma sort_in_order l :
  StronglySorted (JsArray.in_order cmp) (JsArray.sort cmp l).
Proof.
  induction l as [|x l IH]; simpl; [constructor|].
  by apply insert_in_order.
Qed.
End SortInOrder.

Section SortKeepsClasses.
Context {A K : Type} `{EqDecision K}.
Variable cmp : A -> A -> Z.
Variable cls : A -> K.
Hypothesis cmp_cls : forall a b, (0 < cmp a b)%Z -> cls a <> cls b.

Lemma insert_keeps_class k x l :
  filter (fun a => cls a = k) (JsArray.insert cmp x l)
  = filter (fun a => cls a = k) (x :: l).
Proof.
  induction l as [|y l IH]; simpl; [done|].
  destruct (Z.leb_spec (cmp x y) 0) as [Hc|Hc]; [done|].
  apply cmp_cls in Hc.
  rewrite (filter_cons _ y), IH, !filter_cons.
  repeat case_decide; try done; congruence.
Qed.

Lemma sort_keeps_class k l :
  filter (fun a => cls a = k) (JsArray.sort cmp l)
  = filter (fun a => cls a = k) l.
Proof.
  induction l as [|x l IH]; simpl; [done|].
  by rewrite insert_keeps_class, !filter_cons, IH.
Qed.
End SortKeepsClasses.

(** A prefix of a sorted list holds nothing that should follow what is
    left out. *)
Lemma sorted_prefix_dominates {A} (R : relation A) (l : list A) n x y :
  StronglySorted R l -> x ∈ take n l -> y ∈ drop n l -> R x y.
Proof.
  intros Hs Hx Hy. rewrite <- (take_drop n l) in Hs.
  by eapply StronglySorted_app_1_elem_of.
Qed.

Lemma StronglySorted_weaken {A} (R R' : relation A) (l : list A) :
  (forall a b, R a b -> R' a b) -> StronglySorted R l -> StronglySorted R' l.
Proof.
  intros HR. induction 1 as [|x l Hl IH Hx]; constructor; [done|].
  eapply Forall_impl; [exact Hx|]. intros y. apply HR.
Qed.

(** ** Results by duration *)

Lemma Qc_sign_nonpos (q : Qc) : (Qc_sign q <= 0)%Z <-> (q <= 0)%Qc.
Proof.
  unfold Qc_sign, Qcle, Qle. simpl. destruct (Qnum q); simpl; lia.
Qed.

Lemma by_duration_in_order (a b : TestResult.t) :
  (TestMetricsCollector.by_duration a b <= 0)%Z
  <-> (TestResult.duration b <= TestResult.duration a)%Qc.
Proof.
  unfold TestMetricsCollector.by_duration. rewrite Qc_sign_nonpos.
  rewrite (Qcplus_le_mono_r _ 0%Qc (TestResult.duration a)).
  replace (TestResult.duration b - TestResult.duration a
           + TestResult.duration a)%Qc
    with (TestResult.duration b) by ring.
  by rewrite Qcplus_0_l.
Qed.

Lemma by_duration_total a b :
  (0 < TestMetricsCollector.by_duration a b)%Z ->
  (TestMetricsCollector.by_duration b a <= 0)%Z.
Proof.
  intros H. apply by_duration_in_order.
  apply Qclt_le_weak, Qcnot_le_lt. rewrite <- by_duration_in_order. lia.
Qed.

Lemma by_duration_trans a b c :
  (TestMetricsCollector.by_duration a b <= 0)%Z ->
  (TestMetricsCollector.by_duration b c <= 0)%Z ->
  (TestMetricsCollector.by_duration a c <= 0)%Z.
Proof.
  rewrite !by_duration_in_order. intros H1 H2. by eapply Qcle_trans.
Qed.

Lemma by_duration_class a b :
  (0 < TestMetricsCollector.by_duration a b)%Z ->
  TestResult.duration a <> TestResult.duration b.
Proof.
  intros H E.
  assert (TestMetricsCollector.by_duration a b <= 0)%Z; [|lia].
  apply by_duration_in_order. rewrite E. apply Qcle_refl.
Qed.

Lemma sorted_by_duration (l : list TestResult.t) :
  StronglySorted
    (fun a b => (TestResult.duration b <= TestResult.duration a)%Qc)
    (JsArray.sort TestMetricsCollector.by_duration l).
Proof.
  eapply StronglySorted_weaken;
    [|apply (sort_in_order _ by_duration_total by_duration_trans)].
  intros a b. apply by_duration_in_order.
Qed.

Section ByDuration.
Import TestMetricsCollector.

(** X1: [getTestsByDuration()] without a limit, and also with the limit 0,
    which the conditional takes for an absent one, returns all the results:
    a rearrangement of what was recorded, descending by duration, results
    of equal duration in the order they were recorded. *)
Theorem getTestsByDuration_unlimited c :
  let all := getTestsByDuration None c in
  getTestsByDuration (Some 0%Z) c = all
  /\ all ≡ₚ testResults c
  /\ StronglySorted
       (fun a b => (TestResult.duration b <= TestResult.duration a)%Qc) all
  /\ (forall d,
        filter (fun r => TestResult.duration r = d) all
        = filter (fun r => TestResult.duration r = d) (testResults c)).
Proof.
  intros all. subst all. unfold getTestsByDuration.
  split; [done|]. split; [apply sort_perm|].
  split; [apply sorted_by_duration|].
  intros d. apply (sort_keeps_class by_duration _ by_duration_class).
Qed.

(** X2: with a positive limit [n], [getTestsByDuration(n)] returns the
    first [n] of the results in descending order of duration (all of them
    when there are fewer), and no result left out lasted longer than one
    that is returned. *)
Theorem getTestsByDuration_longest (n : Z) c :
  (0 < n)%Z ->
  let sorted := getTestsByDuration None c in
  let top := getTestsByDuration (Some n) c in
  top = take (Z.to_nat n) sorted
  /\ length top = min (Z.to_nat n) (length (testResults c))
  /\ (forall r r',
        r ∈ top -> r' ∈ drop (Z.to_nat n) sorted ->
        (TestResult.duration r' <= TestResult.duration r)%Qc).
Proof.
  intros Hn sorted top. subst sorted top. unfold getTestsByDuration.
  destruct (Z.eqb_spec n 0) as [->|_]; [lia|].
  unfold JsArray.slice0. destruct (Z.leb_spec 0 n) as [_|?]; [|lia].
  split; [done|]. split.
  - by rewrite length_take, (Permutation_length (sort_perm _ _)).
  - intros r r' Hr Hr'.
    apply (sorted_prefix_dominates _ _ _ _ _ (sorted_by_duration _) Hr Hr').
Qed.

End ByDuration.

(** ** Invariants of reachable collectors *)

Section MoreMapFacts.
Context {V : Type}.
Implicit Types (m : JsMap.t V) (k : string) (v : V).

Lemma get_Some_elem k v m : JsMap.get k m = Some v -> (k, v) ∈ m.
Proof.
  induction m as [|[k' v'] m IH]; csimpl; [done|].
  destruct (String.eqb_spec k k') as [->|]; intros H.
  - injection H as ->. apply list_elem_of_here.
  - apply list_elem_of_further; auto.
Qed.

Lemma get_None_keys k m : JsMap.get k m = None -> k ∉ m.*1.
Proof.
  induction m as [|[k' v'] m IH]; csimpl.
  - intros _. apply not_elem_of_nil.
  - rewrite not_elem_of_cons. destruct (String.eqb_spec k k'); [done|].
    intros H. split; [done|by apply IH].
Qed.

Lemma get_set_eq k v m : JsMap.get k (JsMap.set k v m) = Some v.
Proof.
  induction m as [|[k' v'] m IH]; csimpl.
  - by rewrite String.eqb_refl.
  - destruct (String.eqb_spec k k') as [->|Hne]; csimpl.
    + by rewrite String.eqb_refl.
    + by destruct (String.eqb_spec k k').
Qed.

Lemma get_set_ne k k' v m :
  k <> k' -> JsMap.get k' (JsMap.set k v m) = JsMap.get k' m.
Proof.
  intros Hne. induction m as [|[k0 v0] m IH]; csimpl.
  - by destruct (String.eqb_spec k' k).
  - destruct (String.eqb_spec k k0) as [->|Hne0]; csimpl.
    + by destruct (String.eqb_spec k' k0).
    + by rewrite IH.
Qed.

(** With distinct keys, [set] changes the entry of its key and nothing
    else. *)
Lemma elem_of_set k v k' v' m :
  NoDup m.*1 -> (k', v') ∈ JsMap.set k v m ->
  (k' = k /\ v' = v) \/ (k' <> k /\ (k', v') ∈ m).
Proof.
  induction m as [|[k0 v0] m IH]; csimpl; intros Hnd Hin.
  - apply list_elem_of_singleton in Hin. injection Hin as -> ->. by left.
  - apply NoDup_cons in Hnd as [Hk0 Hnd].
    destruct (String.eqb_spec k k0) as [->|Hne].
    + apply elem_of_cons in Hin as [Hin|Hin].
      * injection Hin as -> ->. by left.
      * right. split; [|by apply list_elem_of_further].
        intros ->. apply Hk0. apply list_elem_of_fmap. by exists (k0, v').
    + apply elem_of_cons in Hin as [Hin|Hin].
      * injection Hin as -> ->. right. split; [done|apply list_elem_of_here].
      * destruct (IH Hnd Hin) as [?|[? ?]]; [by left|].
        right. split; [done|by apply list_elem_of_further].
Qed.

(** What [set] does to a sum over the values. *)
Lemma sum_set (f : V -> nat) k v m :
  sum_list_with f (JsMap.values (JsMap.set k v m))
  + match JsMap.get k m with Some old => f old | None => 0 end
  = sum_list_with f (JsMap.values m) + f v.
Proof.
  unfold JsMap.values.
  induction m as [|[k0 v0] m IH]; simpl; [lia|].
  destruct (String.eqb_spec k k0) as [->|Hne]; simpl; lia.
Qed.
End MoreMapFacts.

Section Invariants.
Variable clock : nat -> Date.
Variables browser environment : string.
Import TestMetricsCollector.

Lemma new_effect :
  let c := new clock browser environment in
  testResults c = [] /\ failures c = []
  /\ the_metrics c = fresh_metrics (clock 0) browser environment.
Proof.
  unfold new, alloc, the_metrics; simpl.
  by rewrite lookup_total_insert_eq.
Qed.

Lemma stored_results_counted c :
  reachable clock browser environment c ->
  let m := the_metrics c in
  TestMetrics.total m = length (getTestResults c)
  /\ TestMetrics.passed m = length (getPassedTests c)
  /\ TestMetrics.failed m = length (getFailedTests c)
  /\ TestMetrics.skipped m = length (getSkippedTests c)
  /\ TestMetrics.flaky m = length (getTestsByStatus flaky c).
Proof.
  intros Hreach m. subst m.
  unfold getTestResults, getPassedTests, getFailedTests, getSkippedTests,
    getTestsByStatus.
  induction Hreach as [|c Hc IH|r c Hc IH|c Hc IH|c Hc IH|c Hc IH].
  - destruct new_effect as (-> & _ & ->). done.
  - destruct (start_effect clock c) as (_ & _ & -> & _ & ->). exact IH.
  - destruct (recordTest_effect clock r c) as (_ & _ & -> & _ & s & f & ->).
    rewrite !filter_app, !length_app, !filter_cons, !filter_nil.
    destruct IH as (IHt & IHp & IHf & IHs & IHk).
    destruct (TestResult.status r); repeat case_decide; try done;
      simpl; lia.
  - destruct (finish_effect clock c) as (_ & _ & -> & _ & ->).
    by destruct (decide _).
  - destruct (getMetrics_effect c) as (_ & _ & _ & -> & _ & -> & _).
    exact IH.
  - destruct (reset_effect clock c) as (_ & -> & _ & ->). done.
Qed.

(** X4: on a collector reached through the public methods each counter is
    the number of stored results of its status, and [total] the number of
    stored results. *)
Theorem counters_count_stored_results c :
  reachable clock browser environment c ->
  let m := the_metrics c in
  TestMetrics.total m = length (getTestResults c)
  /\ TestMetrics.passed m = length (getPassedTests c)
  /\ TestMetrics.failed m = length (getFailedTests c)
  /\ TestMetrics.skipped m = length (getSkippedTests c)
  /\ TestMetrics.flaky m = length (getTestsByStatus flaky c).
Proof. apply stored_results_counted. Qed.
End Invariants.

Section Extremes.
Variable clock : nat -> Date.
Variables browser environment : string.
Import TestMetricsCollector.

Lemma Qc_ltb_true (a b : Qc) : Qc_ltb a b = true -> (a < b)%Qc.
Proof.
  unfold Qc_ltb. rewrite negb_true_iff. intros H.
  apply Qcnot_le_lt. intros Hle. apply Qle_bool_iff in Hle. congruence.
Qed.

Lemma Qc_ltb_false (a b : Qc) : Qc_ltb a b = false -> (b <= a)%Qc.
Proof.
  unfold Qc_ltb. rewrite negb_false_iff. apply Qle_bool_iff.
Qed.

Lemma filter_weaken_length {A} (P Q : A -> Prop)
    `{forall x, Decision (P x)} `{forall x, Decision (Q x)} (l : list A) :
  (forall x, P x -> Q x) -> length (filter P l) <= length (filter Q l).
Proof.
  intros HPQ. induction l as [|x l IH]; [done|].
  rewrite !filter_cons. repeat case_decide; simpl; try lia.
  exfalso. auto.
Qed.

Lemma length_filter_or {A} (P Q : A -> Prop)
    `{forall x, Decision (P x)} `{forall x, Decision (Q x)} (l : list A) :
  length (filter (fun x => P x \/ Q x) l)
  = length (filter P l) + length (filter (fun x => ~ P x /\ Q x) l).
Proof.
  induction l as [|x l IH]; [done|].
  rewrite !filter_cons. repeat case_decide; simpl; try lia; tauto.
Qed.

(** X5: [getFlakyTests()] holds every result of status flaky and, besides,
    every result that consumed a retry; on a reachable collector it is at
    least as long as the [flaky] counter says.  Its length is the counter
    plus the number of stored results that consumed a retry and have
    another status than flaky, so it is longer than the counter says as
    soon as one such result is stored. *)
Theorem getFlakyTests_covers_flaky_counter c :
  reachable clock browser environment c ->
  (forall r, r ∈ getTestsByStatus flaky c -> r ∈ getFlakyTests c)
  /\ (forall r, r ∈ getTestResults c -> 0 < TestResult.retries r ->
                r ∈ getFlakyTests c)
  /\ TestMetrics.flaky (the_metrics c) <= length (getFlakyTests c)
  /\ length (getFlakyTests c)
     = TestMetrics.flaky (the_metrics c)
       + length (filter (fun r => TestResult.status r <> flaky
                                  /\ 0 < TestResult.retries r)
                   (getTestResults c))
  /\ (forall r, r ∈ getTestResults c -> TestResult.status r <> flaky ->
                0 < TestResult.retries r ->
                TestMetrics.flaky (the_metrics c) < length (getFlakyTests c)).
Proof.
  intros Hreach.
  destruct (stored_results_counted clock browser environment c Hreach)
    as (_ & _ & _ & _ & Hk).
  unfold getTestsByStatus, getFlakyTests, getTestResults in *.
  assert (Hlen : length (filter (fun r => TestResult.status r = flaky
                                          \/ 0 < TestResult.retries r)
                           (testResults c))
                 = TestMetrics.flaky (the_metrics c)
                   + length (filter (fun r => TestResult.status r <> flaky
                                              /\ 0 < TestResult.retries r)
                               (testResults c))).
  { rewrite Hk. apply length_filter_or. }
  split; [|split; [|split; [|split]]].
  - intros r. rewrite !list_elem_of_filter. tauto.
  - intros r Hr Hretry. rewrite list_elem_of_filter. tauto.
  - rewrite Hk. apply filter_weaken_length. tauto.
  - exact Hlen.
  - intros r Hr Hs Hretry. rewrite Hlen.
    assert (Hin : r ∈ filter (fun r => TestResult.status r <> flaky
                                       /\ 0 < TestResult.retries r)
                        (testResults c))
      by (rewrite list_elem_of_filter; tauto).
    destruct (filter (fun r => TestResult.status r <> flaky
                               /\ 0 < TestResult.retries r)
                (testResults c)) as [|x l].
    + by apply not_elem_of_nil in Hin.
    + simpl. lia.
Qed.

Lemma updatePerformanceMetrics_extremes r c :
  TestMetrics.slowestTest (the_metrics (updatePerformanceMetrics r c))
  = Derived.slowest_after r (TestMetrics.slowestTest (the_metrics c))
  /\ TestMetrics.fastestTest (the_metrics (updatePerformanceMetrics r c))
     = Derived.fastest_after r (TestMetrics.fastestTest (the_metrics c)).
Proof.
  unfold updatePerformanceMetrics, Derived.slowest_after,
    Derived.fastest_after.
  destruct (TestMetrics.slowestTest (the_metrics c)) as [s|] eqn:Es;
    [destruct (Qc_ltb (TestResult.duration s) _)|];
    (destruct (decide (TestResult.status r = passed));
     [rewrite ?the_metrics_mutate; simpl;
      destruct (TestMetrics.fastestTest (the_metrics c)) as [f|] eqn:Ef;
      [destruct (Qc_ltb _ (TestResult.duration f))|]|]);
    rewrite ?the_metrics_mutate; simpl; rewrite ?the_metrics_mutate; simpl;
    rewrite ?Es, ?Ef; done.
Qed.

Lemma recordTest_extremes r c :
  TestMetrics.slowestTest (the_metrics (recordTest clock r c))
  = Derived.slowest_after r (TestMetrics.slowestTest (the_metrics c))
  /\ TestMetrics.fastestTest (the_metrics (recordTest clock r c))
     = Derived.fastest_after r (TestMetrics.fastestTest (the_metrics c)).
Proof.
  unfold recordTest.
  set (c2 := match TestResult.status r with passed => _ | _ => _ end).
  assert (H2 : TestMetrics.slowestTest (the_metrics c2)
               = TestMetrics.slowestTest (the_metrics c)
               /\ TestMetrics.fastestTest (the_metrics c2)
                  = TestMetrics.fastestTest (the_metrics c)).
  { subst c2. destruct (TestResult.status r);
      rewrite ?(proj2 (proj2 (proj2 (recordFailure_frame clock r _))));
      rewrite ?the_metrics_mutate; done. }
  destruct H2 as [<- <-]. apply updatePerformanceMetrics_extremes.
Qed.

(** X6: on a reachable collector [slowestTest] is unset exactly when no
    result is stored and otherwise is a stored result that no stored
    result outlasts; [fastestTest] is unset exactly when no passed result
    is stored and otherwise is a stored passed result that no passed
    result undercuts. *)
Theorem extremes_are_extreme c :
  reachable clock browser environment c ->
  match TestMetrics.slowestTest (the_metrics c) with
  | None => getTestResults c = []
  | Some s =>
      s ∈ getTestResults c
      /\ forall r, r ∈ getTestResults c ->
                   (TestResult.duration r <= TestResult.duration s)%Qc
  end
  /\ match TestMetrics.fastestTest (the_metrics c) with
     | None => getPassedTests c = []
     | Some f =>
         f ∈ getPassedTests c
         /\ forall r, r ∈ getPassedTests c ->
                      (TestResult.duration f <= TestResult.duration r)%Qc
     end.
Proof.
  unfold getTestResults, getPassedTests.
  induction 1 as [|c Hc IH|r c Hc IH|c Hc IH|c Hc IH|c Hc IH].
  - destruct (new_effect clock browser environment) as (-> & _ & ->). done.
  - destruct (start_effect clock c) as (_ & _ & -> & _ & ->). exact IH.
  - destruct (recordTest_extremes r c) as [-> ->].
    destruct (recordTest_effect clock r c) as (_ & _ & -> & _).
    destruct IH as [IHs IHf]. split.
    + unfold Derived.slowest_after.
      destruct (TestMetrics.slowestTest (the_metrics c)) as [s|].
      * destruct IHs as [Hin Hmax].
        destruct (Qc_ltb _ _) eqn:E.
        -- apply Qc_ltb_true in E. split; [set_solver|].
           intros r' [Hr'|Hr']%elem_of_app.
           ++ eapply Qcle_trans; [by apply Hmax|by apply Qclt_le_weak].
           ++ apply list_elem_of_singleton in Hr' as ->. apply Qcle_refl.
        -- apply Qc_ltb_false in E. split; [set_solver|].
           intros r' [Hr'|Hr']%elem_of_app; [by apply Hmax|].
           by apply list_elem_of_singleton in Hr' as ->.
      * rewrite IHs. simpl. split; [set_solver|].
        intros r' Hr'%list_elem_of_singleton. subst r'. apply Qcle_refl.
    + unfold Derived.fastest_after. rewrite filter_app, filter_cons, filter_nil.
      destruct (decide (TestResult.status r = passed)) as [Hp|Hp].
      * destruct (TestMetrics.fastestTest (the_metrics c)) as [f|].
        -- destruct IHf as [Hin Hmin].
           destruct (Qc_ltb _ _) eqn:E.
           ++ apply Qc_ltb_true in E. split; [set_solver|].
              intros r' [Hr'|Hr']%elem_of_app.
              ** eapply Qcle_trans; [by apply Qclt_le_weak|by apply Hmin].
              ** apply list_elem_of_singleton in Hr' as ->. apply Qcle_refl.
           ++ apply Qc_ltb_false in E. split; [set_solver|].
              intros r' [Hr'|Hr']%elem_of_app; [by apply Hmin|].
              by apply list_elem_of_singleton in Hr' as ->.
        -- rewrite IHf. simpl. split; [set_solver|].
           intros r' Hr'%list_elem_of_singleton. subst r'. apply Qcle_refl.
      * rewrite app_nil_r. exact IHf.
  - destruct (finish_effect clock c) as (_ & _ & -> & _ & ->).
    by destruct (decide _).
  - destruct (getMetrics_effect c) as (_ & _ & _ & -> & _ & -> & _).
    exact IH.
  - destruct (reset_effect clock c) as (_ & -> & _ & ->). done.
Qed.

(** X7: on a reachable collector [averageTestDuration] is 0 while no result
    is stored and otherwise the sum of the stored durations divided by
    their number. *)
Theorem average_is_mean_of_stored_results c :
  reachable clock browser environment c ->
  (getTestResults c = [] ->
   TestMetrics.averageTestDuration (the_metrics c) = 0%Qc)
  /\ (getTestResults c <> [] ->
      TestMetrics.averageTestDuration (the_metrics c)
      = (totalDuration (getTestResults c)
         / Qc_of_nat (length (getTestResults c)))%Qc).
Proof.
  unfold getTestResults.
  induction 1 as [|c Hc IH|r c Hc IH|c Hc IH|c Hc IH|c Hc IH].
  - destruct (new_effect clock browser environment) as (-> & _ & ->). done.
  - destruct (start_effect clock c) as (_ & _ & -> & _ & ->). exact IH.
  - destruct (recordTest_effect clock r c) as (_ & _ & -> & _ & s & f & ->).
    split; [by destruct (testResults c)|done].
  - destruct (finish_effect clock c) as (_ & _ & -> & _ & ->).
    by destruct (decide _).
  - destruct (getMetrics_effect c) as (_ & _ & _ & -> & _ & -> & _).
    exact IH.
  - destruct (reset_effect clock c) as (_ & -> & _ & ->). done.
Qed.
End Extremes.

Section FailureIndex.
Variable clock : nat -> Date.
Variables browser environment : string.
Import TestMetricsCollector.

(** What [recordFailure] files for a result that carries an error. *)
Lemma recordFailure_entry r c e :
  TestResult.error r = Some e ->
  let k := TestError.type e +:+ ":" +:+ TestError.message e in
  exists entry,
    failures (recordFailure clock r c) = JsMap.set k entry (failures c)
    /\ match JsMap.get k (failures c) with
       | Some old =>
           FailureAnalysis.errorType entry = FailureAnalysis.errorType old
           /\ FailureAnalysis.errorMessage entry
              = FailureAnalysis.errorMessage old
           /\ FailureAnalysis.count entry = S (FailureAnalysis.count old)
           /\ FailureAnalysis.tests entry
              = FailureAnalysis.tests old ++ [TestResult.fullName r]
           /\ FailureAnalysis.firstOccurrence entry
              = FailureAnalysis.firstOccurrence old
       | None =>
           FailureAnalysis.errorType entry = TestError.type e
           /\ FailureAnalysis.errorMessage entry = TestError.message e
           /\ FailureAnalysis.count entry = 1
           /\ FailureAnalysis.tests entry = [TestResult.fullName r]
       end.
Proof.
  intros He k. subst k. unfold recordFailure, endTime_or_now. rewrite He.
  destruct (JsMap.get _ (failures c)) as [old|];
    destruct (TestResult.endTime r); simpl; eexists; split;
    try reflexivity; simpl; done.
Qed.

Lemma recordTest_failures r c :
  failures (recordTest clock r c)
  = match Spec.failure_key r with
    | Some _ => failures (recordFailure clock r c)
    | None => failures c
    end.
Proof.
  destruct (recordTest_effect clock r c) as (_ & _ & _ & -> & _).
  unfold Spec.failure_key.
  destruct (TestResult.status r); try done.
  destruct (TestResult.error r) eqn:E; [done|].
  by rewrite recordFailure_no_error.
Qed.

Lemma filed_under_snoc k results r :
  Derived.filed_under k (results ++ [r])
  = Derived.filed_under k results
    ++ (if decide (Spec.failure_key r = Some k)
        then [TestResult.fullName r] else []).
Proof.
  unfold Derived.filed_under. rewrite filter_app, fmap_app. f_equal.
  rewrite filter_cons, filter_nil. by destruct (decide _).
Qed.

Lemma filed_under_unseen k results :
  k ∉ omap Spec.failure_key results -> Derived.filed_under k results = [].
Proof.
  unfold Derived.filed_under.
  induction results as [|r results IH]; csimpl; [done|].
  destruct (Spec.failure_key r) as [k'|] eqn:E; csimpl.
  - rewrite not_elem_of_cons. intros [Hne Hin].
    rewrite filter_cons_False by congruence. by apply IH.
  - intros Hin. rewrite filter_cons_False by congruence. by apply IH.
Qed.

Lemma failure_index_entries c :
  reachable clock browser environment c ->
  Forall (Derived.entry_ok (testResults c)) (failures c).
Proof.
  induction 1 as [|c Hc IH|r c Hc IH|c Hc IH|c Hc IH|c Hc IH].
  - destruct (new_effect clock browser environment) as (_ & -> & _).
    constructor.
  - destruct (start_effect clock c) as (_ & _ & -> & -> & _). exact IH.
  - pose proof (Spec.inv_keys _ _ _ (reachable_invariant _ _ _ _ Hc)) as Hk.
    assert (Hnd : NoDup (failures c).*1)
      by (rewrite Hk; apply NoDup_first_seen).
    rewrite recordTest_failures.
    destruct (recordTest_effect clock r c) as (_ & _ & -> & _).
    rewrite Forall_forall in IH. apply Forall_forall.
    destruct (Spec.failure_key r) as [k|] eqn:Ekey.
    + assert (exists e, TestResult.error r = Some e
                /\ k = TestError.type e +:+ ":" +:+ TestError.message e)
        as (e & He & ->).
      { unfold Spec.failure_key in Ekey.
        destruct (TestResult.status r); try done.
        destruct (TestResult.error r) as [e|]; [|done].
        exists e. split; [done|]. congruence. }
      destruct (recordFailure_entry r c e He) as (entry & -> & Hentry).
      intros [k' fa] Hin'.
      apply (elem_of_set _ _ _ _ _ Hnd) in Hin' as [[-> ->]|[Hne Hin]].
      * unfold Derived.entry_ok. simpl. rewrite filed_under_snoc, Ekey.
        rewrite decide_True by done.
        destruct (JsMap.get _ (failures c)) as [old|] eqn:Eget.
        -- destruct Hentry as (Hty & Hmsg & Hcnt & Htests & _).
           apply get_Some_elem in Eget. apply IH in Eget.
           destruct Eget as (IHt & IHc & IHp & IHk). simpl in *.
           rewrite Htests, Hcnt, Hty, Hmsg, length_app, <- IHt, IHc.
           simpl. repeat split; try done; lia.
        -- destruct Hentry as (Hty & Hmsg & Hcnt & Htests).
           rewrite Htests, Hcnt, Hty, Hmsg.
           rewrite filed_under_unseen;
             [simpl; repeat split; try done; lia|].
           rewrite <- elem_of_first_seen, <- Hk.
           by apply get_None_keys.
      * destruct (IH _ Hin) as (IHt & IHc & IHp & IHk).
        unfold Derived.entry_ok. simpl in *. rewrite filed_under_snoc, Ekey.
        rewrite decide_False by congruence. by rewrite app_nil_r.
    + intros [k' fa] Hin. destruct (IH _ Hin) as (IHt & IHc & IHp & IHk).
      unfold Derived.entry_ok. simpl in *. rewrite filed_under_snoc, Ekey.
      rewrite decide_False by done. by rewrite app_nil_r.
  - destruct (finish_effect clock c) as (_ & _ & -> & -> & _). exact IH.
  - destruct (getMetrics_effect c) as (_ & _ & _ & -> & -> & _). exact IH.
  - destruct (reset_effect clock c) as (_ & -> & -> & _). constructor.
Qed.

(** X8: on a reachable collector every entry of the failure index lists,
    in the order recorded, the full names of exactly the failed results
    with an error whose [type:message] is the entry's key; its [count] is
    the number of those names and at least 1, and the key is the entry's
    own [errorType:errorMessage]. *)
Theorem failure_index_entry_holds_its_tests c (k : string)
    (entry : FailureAnalysis.t) :
  reachable clock browser environment c ->
  (k, entry) ∈ failures c ->
  FailureAnalysis.tests entry = Derived.filed_under k (getTestResults c)
  /\ FailureAnalysis.count entry = length (FailureAnalysis.tests entry)
  /\ 0 < FailureAnalysis.count entry
  /\ FailureAnalysis.errorType entry +:+ ":"
       +:+ FailureAnalysis.errorMessage entry = k.
Proof.
  intros Hreach Hin.
  pose proof (failure_index_entries c Hreach) as H.
  rewrite Forall_forall in H. exact (H _ Hin).
Qed.

Lemma failure_index_total c :
  reachable clock browser environment c ->
  sum_list_with FailureAnalysis.count (JsMap.values (failures c))
  = length (omap Spec.failure_key (testResults c)).
Proof.
  induction 1 as [|c Hc IH|r c Hc IH|c Hc IH|c Hc IH|c Hc IH].
  - destruct (new_effect clock browser environment) as (-> & -> & _). done.
  - destruct (start_effect clock c) as (_ & _ & -> & -> & _). exact IH.
  - rewrite recordTest_failures.
    destruct (recordTest_effect clock r c) as (_ & _ & -> & _).
    rewrite omap_app, length_app. simpl.
    destruct (Spec.failure_key r) as [k|] eqn:Ekey; simpl; [|lia].
    assert (exists e, TestResult.error r = Some e) as (e & He).
    { unfold Spec.failure_key in Ekey.
      destruct (TestResult.status r); try done.
      destruct (TestResult.error r) as [e|]; [eauto|done]. }
    destruct (recordFailure_entry r c e He) as (entry & -> & Hentry).
    pose proof (sum_set FailureAnalysis.count
                  (TestError.type e +:+ ":" +:+ TestError.message e)
                  entry (failures c)) as Hsum.
    destruct (JsMap.get _ (failures c)) as [old|].
    + destruct Hentry as (_ & _ & Hcnt & _). lia.
    + destruct Hentry as (_ & _ & Hcnt & _). lia.
  - destruct (finish_effect clock c) as (_ & _ & -> & -> & _). exact IH.
  - destruct (getMetrics_effect c) as (_ & _ & _ & -> & -> & _). exact IH.
  - destruct (reset_effect clock c) as (_ & -> & -> & _). done.
Qed.

Lemma length_failure_keys (results : list TestResult.t) :
  length (omap Spec.failure_key results)
  = length (filter (fun r => TestResult.status r = failed
                             /\ is_Some (TestResult.error r)) results).
Proof.
  induction results as [|r results IH]; [done|].
  csimpl. rewrite filter_cons. unfold Spec.failure_key at 1.
  destruct (TestResult.status r) eqn:Es;
    destruct (TestResult.error r) eqn:Ee; case_decide as H; csimpl;
    try (by rewrite IH); exfalso;
    try (destruct H as [? [? ?]]; congruence);
    apply H; eauto.
Qed.

(** X9: on a reachable collector the counts of the failure index add up to
    the number of stored results that are failed and carry an error: each
    such result is counted once, under one key. *)
Theorem failure_index_counts_every_error_once c :
  reachable clock browser environment c ->
  sum_list_with FailureAnalysis.count (JsMap.values (failures c))
  = length (filter (fun r => TestResult.status r = failed
                             /\ is_Some (TestResult.error r))
              (getTestResults c)).
Proof.
  intros Hreach. rewrite (failure_index_total c Hreach).
  apply length_failure_keys.
Qed.
End FailureIndex.

(* ===================================================================== *)
(** * Further properties of the analyzer *)
(* ===================================================================== *)

Section Patterns.
Import FailureAnalyzer.
Implicit Types (failedTests : list TestResult.t).

Lemma analyze_perm failedTests :
  analyzeFailures failedTests ≡ₚ Spec.group_by_pair failedTests.
Proof.
  unfold analyzeFailures. rewrite values_collect. apply sort_perm.
Qed.

Lemma analyze_sorted failedTests :
  StronglySorted (JsArray.desc FailurePattern.occurrences)
    (analyzeFailures failedTests).
Proof. apply (sort_sorted by_occurrences _ by_occurrences_key). Qed.

Lemma pair_pattern_of items pr :
  Derived.pair (Spec.pattern_of items pr) = pr.
Proof. by destruct pr. Qed.

Lemma members_seen pr items :
  pr ∈ Spec.pair_of <$> (fst <$> items) -> 0 < length (Spec.members pr items).
Proof.
  unfold Spec.members. rewrite length_fmap.
  induction items as [|[e n] items IH]; csimpl.
  - intros H. by apply not_elem_of_nil in H.
  - rewrite filter_cons. intros [->|Hin]%elem_of_cons.
    + rewrite decide_True by done. simpl. lia.
    + case_decide; simpl; [lia|by apply IH].
Qed.

Lemma analyze_total failedTests :
  sum_list_with FailurePattern.occurrences (analyzeFailures failedTests)
  = length (filter (fun t => is_Some (TestResult.error t)) failedTests).
Proof.
  unfold analyzeFailures.
  rewrite (sort_perm by_occurrences). unfold collect.
  induction failedTests as [|t tests IH] using rev_ind; [done|].
  rewrite fold_left_app, filter_app, length_app, filter_cons, filter_nil.
  simpl. unfold visit at 1.
  destruct (TestResult.error t) as [e|] eqn:E.
  - rewrite decide_True by eauto. simpl. unfold JsMap.has.
    pose proof (fun v => sum_set FailurePattern.occurrences (key_of e) v
                           (fold_left visit tests JsMap.empty)) as Hsum.
    destruct (JsMap.get (key_of e) _) as [old|].
    + specialize (Hsum (bump old (TestResult.fullName t))). simpl in Hsum.
      lia.
    + specialize (Hsum (new_pattern e (TestResult.fullName t))).
      simpl in Hsum. lia.
  - rewrite decide_False by (intros [? ?]; done). simpl. lia.
Qed.

(** X10: the occurrences of the patterns [analyzeFailures()] returns add up
    to the number of tests handed to the analyzer that carry an error: each
    such test is counted once, in one pattern. *)
Theorem analyzeFailures_counts_every_error_once failedTests :
  sum_list_with FailurePattern.occurrences (analyzeFailures failedTests)
  = length (filter (fun t => is_Some (TestResult.error t)) failedTests).
Proof. apply analyze_total. Qed.

Lemma analyze_counts_agree failedTests :
  Forall (fun p => FailurePattern.occurrences p
                   = length (FailurePattern.affectedTests p))
    (analyzeFailures failedTests).
Proof.
  rewrite (analyze_perm failedTests). unfold Spec.group_by_pair.
  apply Forall_fmap, Forall_forall. by intros [c s] _.
Qed.

(** X11: [analyzeFailures()] returns at most one pattern per pair
    (category, pattern); each returned pattern lists the tests of its pair,
    has as [occurrences] their number, which is at least 1, and carries the
    severity, description and suggested fix of its category. *)
Theorem analyzeFailures_patterns_well_formed failedTests :
  NoDup (Derived.pair <$> analyzeFailures failedTests)
  /\ Forall
       (fun p =>
          FailurePattern.affectedTests p
          = Spec.members (Derived.pair p) (Spec.attributable failedTests)
          /\ FailurePattern.occurrences p
             = length (FailurePattern.affectedTests p)
          /\ 0 < FailurePattern.occurrences p
          /\ FailurePattern.severity p
             = calculateSeverity (FailurePattern.category p)
          /\ FailurePattern.description p
             = getPatternDescription (FailurePattern.category p)
                 (FailurePattern.pattern p)
          /\ FailurePattern.suggestedFix p
             = getSuggestedFix (FailurePattern.category p)
                 (FailurePattern.pattern p))
       (analyzeFailures failedTests).
Proof.
  rewrite (analyze_perm failedTests). unfold Spec.group_by_pair.
  set (items := Spec.attributable failedTests).
  split.
  - rewrite <- list_fmap_compose.
    erewrite list_fmap_ext; [rewrite list_fmap_id; apply NoDup_first_seen|].
    intros i x _. apply pair_pattern_of.
  - apply Forall_fmap, Forall_forall. intros pr Hpr.
    rewrite elem_of_first_seen in Hpr. simpl.
    destruct pr as [c s]. simpl. repeat split; try done.
    by apply (members_seen (c, s)).
Qed.
End Patterns.

Section PatternAccessors.
Import FailureAnalyzer.
Implicit Types (failedTests : list TestResult.t).

Lemma slice0_is_take {A} (n : Z) (l : list A) :
  exists k, JsArray.slice0 n l = take k l.
Proof. unfold JsArray.slice0. destruct (0 <=? n)%Z; eauto. Qed.

(** X12: [getCommonFailures(limit)] returns a leading part of what
    [analyzeFailures()] returns, and no pattern it leaves out occurs more
    often than one it returns; without a limit it returns 5 patterns, or
    all of them when there are fewer. *)
Theorem getCommonFailures_most_frequent (limit : option Z) failedTests :
  (exists omitted,
     analyzeFailures failedTests
     = getCommonFailures limit failedTests ++ omitted
     /\ forall p q,
          p ∈ getCommonFailures limit failedTests -> q ∈ omitted ->
          FailurePattern.occurrences q <= FailurePattern.occurrences p)
  /\ length (getCommonFailures None failedTests)
     = min 5 (length (analyzeFailures failedTests)).
Proof.
  split.
  - unfold getCommonFailures.
    destruct (slice0_is_take (match limit with Some n => n | None => 5%Z end)
                (analyzeFailures failedTests)) as [k ->].
    exists (drop k (analyzeFailures failedTests)).
    split; [by rewrite take_drop|].
    intros p q Hp Hq.
    apply (sorted_prefix_dominates _ _ _ _ _ (analyze_sorted failedTests)
             Hp Hq).
  - unfold getCommonFailures, JsArray.slice0.
    change (0 <=? 5)%Z with true. cbv iota.
    change (Z.to_nat 5) with 5. apply length_take.
Qed.

Lemma category_name_inj c1 c2 :
  category_name c1 = category_name c2 -> c1 = c2.
Proof. destruct c1, c2; simpl; intros H; try done; discriminate. Qed.

Lemma has_keys {V} k (m : JsMap.t V) :
  JsMap.has k m = true <-> k ∈ m.*1.
Proof.
  unfold JsMap.has. destruct (JsMap.get k m) as [v|] eqn:E.
  - split; [intros _|done]. apply get_Some_elem in E.
    apply list_elem_of_fmap. by exists (k, v).
  - split; [done|]. intros Hin. by apply get_None_keys in E.
Qed.

(** The map [getFailuresByCategory] builds from a list of patterns. *)
Lemma by_category_lookup (patterns : list FailurePattern.t) :
  let m := fold_left file_by_category patterns JsMap.empty in
  (forall cat,
     JsMap.get (category_name cat) m
     = if decide (filter (fun p => FailurePattern.category p = cat) patterns
                  = [])
       then None
       else Some (filter (fun p => FailurePattern.category p = cat) patterns))
  /\ m.*1 = category_name
            <$> Spec.first_seen (FailurePattern.category <$> patterns).
Proof.
  induction patterns as [|p ps IH] using rev_ind; [done|].
  rewrite fold_left_app. simpl.
  set (m := fold_left file_by_category ps JsMap.empty) in *.
  destruct IH as [IHget IHkeys].
  unfold file_by_category.
  set (k := category_name (FailurePattern.category p)).
  set (m' := if JsMap.has k m then m else JsMap.set k [] m).
  assert (Hget' : JsMap.get k m'
                  = Some (filter (fun q => FailurePattern.category q
                                           = FailurePattern.category p) ps)).
  { subst m'. specialize (IHget (FailurePattern.category p)). fold k in IHget.
    unfold JsMap.has. rewrite IHget.
    destruct (decide _) as [->|Hne]; [apply get_set_eq|exact IHget]. }
  assert (Hother : forall cat, cat <> FailurePattern.category p ->
            JsMap.get (category_name cat) m'
            = JsMap.get (category_name cat) m).
  { intros cat Hcat. subst m'. destruct (JsMap.has k m); [done|].
    apply get_set_ne. intros E. apply category_name_inj in E. congruence. }
  assert (Hkeys' : m'.*1
            = if decide (k ∈ m.*1) then m.*1 else m.*1 ++ [k]).
  { subst m'. destruct (JsMap.has k m) eqn:Eh.
    - apply has_keys in Eh. by rewrite decide_True.
    - rewrite keys_set. destruct (decide (k ∈ m.*1)) as [Hin|]; [|done].
      apply has_keys in Hin. congruence. }
  rewrite Hget'. split.
  - intros cat. rewrite filter_app, filter_cons, filter_nil.
    destruct (decide (cat = FailurePattern.category p)) as [->|Hne].
    + fold k. rewrite get_set_eq.
      destruct (decide (FailurePattern.category p = FailurePattern.category p));
        [|done].
      rewrite decide_False; [done|].
      intros E. by apply app_eq_nil in E as [_ ?].
    + rewrite get_set_ne
        by (intros E; apply category_name_inj in E; congruence).
      rewrite (Hother cat Hne), IHget.
      destruct (decide (FailurePattern.category p = cat)); [congruence|].
      by rewrite app_nil_r.
  - rewrite keys_set, Hkeys', fmap_app.
    change (FailurePattern.category <$> [p])
      with [FailurePattern.category p].
    rewrite first_seen_snoc.
    assert (Hiff : k ∈ m.*1
              <-> FailurePattern.category p ∈ FailurePattern.category <$> ps).
    { rewrite IHkeys.
      rewrite <- (elem_of_first_seen (FailurePattern.category p)
                    (FailurePattern.category <$> ps)).
      split.
      - intros (c & E & Hc)%list_elem_of_fmap.
        apply category_name_inj in E. by subst c.
      - intros H. apply list_elem_of_fmap. eauto. }
    destruct (decide (k ∈ m.*1)) as [Hin|Hin].
    + rewrite decide_True by done.
      rewrite decide_True by (by apply Hiff). exact IHkeys.
    + rewrite decide_True by (rewrite elem_of_app, list_elem_of_singleton; tauto).
      rewrite decide_False by (by rewrite <- Hiff).
      by rewrite fmap_app, IHkeys.
Qed.

(** X13: in the map [getFailuresByCategory()] returns, the entry of a
    category is the list of the patterns of that category, in the order
    [analyzeFailures()] returns them, and a category without a pattern has
    no entry; the keys appear in the order in which their categories first
    occur in that list. *)
Theorem getFailuresByCategory_lookup failedTests :
  (forall cat,
     JsMap.get (category_name cat) (getFailuresByCategory failedTests)
     = if decide (filter (fun p => FailurePattern.category p = cat)
                    (analyzeFailures failedTests) = [])
       then None
       else Some (filter (fun p => FailurePattern.category p = cat)
                    (analyzeFailures failedTests)))
  /\ (getFailuresByCategory failedTests).*1
     = category_name
       <$> Spec.first_seen
             (FailurePattern.category <$> analyzeFailures failedTests).
Proof. apply by_category_lookup. Qed.

Lemma filter_ext_elems {A} (P Q : A -> Prop)
    `{forall x, Decision (P x)} `{forall x, Decision (Q x)} (l : list A) :
  Forall (fun x => P x <-> Q x) l -> filter P l = filter Q l.
Proof.
  induction 1 as [|x l Hx Hl IH]; [done|].
  rewrite !filter_cons, IH. repeat case_decide; try done; tauto.
Qed.

Lemma high_categories (c : FailureCategory) :
  calculateSeverity c = high <-> Derived.is_high c.
Proof.
  unfold Derived.is_high.
  destruct c; simpl; split; intros H; try done; try tauto;
    destruct H as [H|[H|H]]; discriminate.
Qed.

Lemma analyze_severity failedTests :
  Forall (fun p => FailurePattern.severity p
                   = calculateSeverity (FailurePattern.category p))
    (analyzeFailures failedTests).
Proof.
  rewrite (analyze_perm failedTests). unfold Spec.group_by_pair.
  apply Forall_fmap, Forall_forall. by intros [c s] _.
Qed.

(** X14: [getHighSeverityFailures()] returns the patterns of the categories
    authentication, network and navigation, and only those, in the order
    [analyzeFailures()] returns them. *)
Theorem getHighSeverityFailures_by_category failedTests :
  getHighSeverityFailures failedTests
  = filter (fun p => Derived.is_high (FailurePattern.category p))
      (analyzeFailures failedTests).
Proof.
  unfold getHighSeverityFailures. apply filter_ext_elems.
  eapply Forall_impl; [apply analyze_severity|].
  intros p Hp. simpl in *. rewrite Hp. apply high_categories.
Qed.
End PatternAccessors.

(** ** Strings *)

Section StringFacts.
Import Js.

Lemma append_nil_l (s : string) : EmptyString +:+ s = s.
Proof. reflexivity. Qed.

Lemma append_cons (a : ascii) (s t : string) :
  String a s +:+ t = String a (s +:+ t).
Proof. reflexivity. Qed.

Lemma append_assoc (s t u : string) : (s +:+ t) +:+ u = s +:+ t +:+ u.
Proof.
  induction s as [|a s IH]; [done|].
  by rewrite !append_cons, IH.
Qed.

Lemma strip_prefix_app p s r : strip_prefix p s = Some r -> s = p +:+ r.
Proof.
  revert s. induction p as [|a p IH]; intros s; simpl.
  - by intros [= ->].
  - destruct s as [|b s]; [done|].
    destruct (Ascii.eqb_spec a b) as [->|]; [|done].
    intros H. rewrite append_cons. f_equal. by apply IH.
Qed.

Lemma strip_prefix_self p r : strip_prefix p (p +:+ r) = Some r.
Proof.
  induction p as [|a p IH]; [done|].
  rewrite append_cons. simpl. by rewrite Ascii.eqb_refl.
Qed.

Lemma startsWith_app p r : startsWith (p +:+ r) p = true.
Proof. unfold startsWith. by rewrite strip_prefix_self. Qed.

Lemma startsWith_inv s p : startsWith s p = true -> exists r, s = p +:+ r.
Proof.
  unfold startsWith. destruct (strip_prefix p s) as [r|] eqn:E; [|done].
  intros _. exists r. by apply strip_prefix_app.
Qed.

Lemma includes_app pre x post : includes (pre +:+ x +:+ post) x = true.
Proof.
  induction pre as [|a pre IH].
  - rewrite append_nil_l. destruct (x +:+ post) eqn:E; simpl;
      rewrite <- ?E, startsWith_app; done.
  - rewrite append_cons. simpl. rewrite IH. apply orb_true_r.
Qed.

Lemma span_app f s a b : span f s = (a, b) -> s = a +:+ b.
Proof.
  revert a b. induction s as [|c s IH]; intros a b; simpl.
  - by intros [= <- <-].
  - destruct (f c).
    + destruct (span f s) as [a' b'] eqn:E. intros [= <- <-].
      rewrite append_cons. f_equal. by apply IH.
    + by intros [= <- <-].
Qed.

Lemma span_all f s a b : span f s = (a, b) -> span f a = (a, EmptyString).
Proof.
  revert a b. induction s as [|c s IH]; intros a b; simpl.
  - by intros [= <- <-].
  - destruct (f c) eqn:Ec.
    + destruct (span f s) as [a' b'] eqn:E. intros [= <- <-].
      simpl. rewrite Ec. by rewrite (IH a' b' eq_refl).
    + by intros [= <- <-].
Qed.

Lemma search_Some try s cap :
  search try s = Some cap ->
  exists pre suf, s = pre +:+ suf /\ try suf = Some cap.
Proof.
  induction s as [|c s IH]; simpl.
  - destruct (try EmptyString) eqn:E; [|done].
    intros [= <-]. by exists EmptyString, EmptyString.
  - destruct (try (String c s)) eqn:E.
    + intros [= <-]. by exists EmptyString, (String c s).
    + intros H. destruct (IH H) as (pre & suf & -> & Hs).
      by exists (String c pre), suf.
Qed.

Lemma strip_prefix_lower p s r :
  strip_prefix p s = Some r ->
  strip_prefix (toLowerCase p) (toLowerCase s) = Some (toLowerCase r).
Proof.
  revert s. induction p as [|a p IH]; intros s; simpl.
  - by intros [= ->].
  - destruct s as [|b s]; [done|]. simpl.
    destruct (Ascii.eqb_spec a b) as [->|]; [|done].
    rewrite Ascii.eqb_refl. apply IH.
Qed.

(** Lower-casing keeps occurrences. *)
Lemma includes_lower s needle :
  includes s needle = true ->
  includes (toLowerCase s) (toLowerCase needle) = true.
Proof.
  assert (Hsw : forall s, startsWith s needle = true ->
            startsWith (toLowerCase s) (toLowerCase needle) = true).
  { intros s0. unfold startsWith.
    destruct (strip_prefix needle s0) as [r|] eqn:E; [|done].
    by rewrite (strip_prefix_lower _ _ _ E). }
  induction s as [|c s IH]; simpl.
  - rewrite !orb_false_r. apply Hsw.
  - intros [H|H]%orb_true_iff.
    + apply Hsw in H. simpl in H. by rewrite H.
    + rewrite (IH H). apply orb_true_r.
Qed.

Lemma length_substring0 n s : String.length (substring0 n s) <= n.
Proof.
  revert s. induction n as [|n IH]; intros [|c s]; simpl; try lia.
  specialize (IH s). lia.
Qed.

Lemma substring0_prefix n s : startsWith s (substring0 n s) = true.
Proof.
  unfold startsWith. revert s.
  induction n as [|n IH]; intros [|c s]; simpl; try done.
  rewrite Ascii.eqb_refl. apply IH.
Qed.

Lemma first_line_prefix s : exists r, s = first_line s +:+ r.
Proof.
  induction s as [|c s [r IH]]; simpl; [by exists EmptyString|].
  destruct (Ascii.eqb c "010"); [by exists (String c s)|].
  exists r. rewrite append_cons. by f_equal.
Qed.

Lemma startsWith_char c y d :
  startsWith (String c y) (String d EmptyString) = Ascii.eqb d c.
Proof.
  unfold startsWith. cbn [strip_prefix]. by destruct (Ascii.eqb d c).
Qed.

Lemma first_line_no_newline n s :
  includes (substring0 n (first_line s)) (String "010" EmptyString) = false.
Proof.
  revert n. induction s as [|c s IH]; intros n; cbn [first_line].
  - by destruct n.
  - destruct (Ascii.eqb_spec c "010") as [->|Hne]; [by destruct n|].
    destruct n as [|n]; [done|]. cbn [substring0 includes].
    rewrite IH, startsWith_char, orb_false_r.
    destruct (Ascii.eqb_spec "010" c) as [<-|]; done.
Qed.
End StringFacts.

(** ** Patterns and categories *)

Section PatternText.
Import Js FailureAnalyzer.

(** X15: when the message contains [Timeout], the failure is of category
    timeout, and its pattern is either the bare word [Timeout] or
    [Timeout <digits>ms] with a non-empty run of digits; in the latter
    case the pattern is a piece of the message. *)
Theorem timeout_pattern_comes_from_message (error : TestError.t) :
  includes (TestError.message error) "Timeout" = true ->
  categorizeFailure error = timeout
  /\ (extractPattern error = "Timeout"
      \/ exists digits,
           extractPattern error = "Timeout " +:+ digits +:+ "ms"
           /\ digits <> EmptyString
           /\ span is_digit digits = (digits, EmptyString)
           /\ includes (TestError.message error) (extractPattern error)
              = true).
Proof.
  intros Hinc. split.
  - apply includes_lower in Hinc.
    change (toLowerCase "Timeout") with "timeout" in Hinc.
    unfold categorizeFailure. by rewrite Hinc.
  - unfold extractPattern. rewrite Hinc.
    destruct (search re_timeout_at (TestError.message error)) as [digits|]
      eqn:Es; [right|by left].
    exists digits. split; [done|].
    destruct (search_Some _ _ _ Es) as (pre & suf & Hmsg & Hat).
    unfold re_timeout_at in Hat.
    destruct (strip_prefix "Timeout " suf) as [r|] eqn:Ep; [|done].
    destruct (span is_digit r) as [ds rest] eqn:Esp.
    destruct (nonempty ds) eqn:Ene; [|done]. simpl in Hat.
    destruct (startsWith rest "ms") eqn:Ems; [|done].
    injection Hat as ->.
    split; [by intros ->|]. split; [by apply (span_all _ _ _ _ Esp)|].
    apply strip_prefix_app in Ep. apply span_app in Esp.
    apply startsWith_inv in Ems as [rest' ->].
    rewrite Hmsg, Ep, Esp.
    replace ("Timeout " +:+ digits +:+ "ms" +:+ rest')
      with (("Timeout " +:+ digits +:+ "ms") +:+ rest')
      by (by rewrite !append_assoc).
    apply includes_app.
Qed.

(** X16: when the message contains none of [Timeout], [locator] and
    [expect], the pattern is the beginning of the message: at most 100
    characters of it, stopping before the first line break. *)
Theorem fallback_pattern_is_bounded_first_line (error : TestError.t) :
  includes (TestError.message error) "Timeout" = false ->
  includes (TestError.message error) "locator" = false ->
  includes (TestError.message error) "expect" = false ->
  String.length (extractPattern error) <= 100
  /\ includes (extractPattern error) (String "010" EmptyString) = false
  /\ startsWith (TestError.message error) (extractPattern error) = true.
Proof.
  intros H1 H2 H3. unfold extractPattern. rewrite H1, H2, H3.
  split; [apply length_substring0|].
  split; [apply first_line_no_newline|].
  destruct (first_line_prefix (TestError.message error)) as [r Hr].
  destruct (startsWith_inv _ _
              (substring0_prefix 100 (first_line (TestError.message error))))
    as [r' Hr'].
  rewrite Hr at 1. rewrite Hr' at 1. rewrite append_assoc.
  apply startsWith_app.
Qed.

(** X17: the case-sensitive words [extractPattern] looks for are among the
    words [categorizeFailure] looks for without regard to case: a message
    containing [locator] is categorized as timeout, assertion or
    element-not-found, and one containing [expect] as timeout or
    assertion. *)
Theorem pattern_words_bound_the_category (error : TestError.t) :
  (includes (TestError.message error) "locator" = true ->
   categorizeFailure error = timeout \/ categorizeFailure error = assertion
   \/ categorizeFailure error = element_not_found)
  /\ (includes (TestError.message error) "expect" = true ->
      categorizeFailure error = timeout
      \/ categorizeFailure error = assertion).
Proof.
  split; intros Hinc; apply includes_lower in Hinc.
  - change (toLowerCase "locator") with "locator" in Hinc.
    unfold categorizeFailure.
    destruct (includes _ "timeout" || includes _ "timeout"); [tauto|].
    destruct (includes _ "expect" || _ || _); [tauto|].
    rewrite Hinc. simpl. tauto.
  - change (toLowerCase "expect") with "expect" in Hinc.
    unfold categorizeFailure.
    destruct (includes _ "timeout" || includes _ "timeout"); [tauto|].
    rewrite Hinc. simpl. tauto.
Qed.
End PatternText.

(* ===================================================================== *)
(** * Further properties of the report generator *)
(* ===================================================================== *)

Section Escaping.
Import Js HTMLReportGenerator.

Lemma replaceAll_app c by_ s t :
  replaceAll c by_ (s +:+ t) = replaceAll c by_ s +:+ replaceAll c by_ t.
Proof.
  induction s as [|a s IH]; [done|].
  rewrite append_cons. cbn [replaceAll]. rewrite IH.
  destruct (Ascii.eqb a c); [by rewrite append_assoc|done].
Qed.

Lemma replaced_app s t :
  Derived.replaced (s +:+ t) = Derived.replaced s +:+ Derived.replaced t.
Proof. unfold Derived.replaced. by rewrite !replaceAll_app. Qed.

Lemma replaced_char c :
  Derived.replaced (String c EmptyString) = Derived.escape_char c.
Proof.
  unfold Derived.replaced, Derived.escape_char. cbn [replaceAll].
  destruct (Ascii.eqb_spec c "&") as [->|H1]; [done|].
  cbn [replaceAll].
  destruct (Ascii.eqb_spec c "<") as [->|H2]; [done|].
  cbn [replaceAll].
  destruct (Ascii.eqb_spec c ">") as [->|H3]; [done|].
  cbn [replaceAll].
  destruct (Ascii.eqb_spec c (ascii_of_nat 34)) as [->|H4]; [done|].
  cbn [replaceAll].
  destruct (Ascii.eqb_spec c "'") as [->|H5]; done.
Qed.

Lemma replaced_each text :
  Derived.replaced text = Derived.escape_each text.
Proof.
  induction text as [|c text IH]; [done|].
  change (String c text) with (String c EmptyString +:+ text).
  rewrite replaced_app, replaced_char, IH. done.
Qed.

Lemma escape_char_nonempty c : nonempty (Derived.escape_char c) = true.
Proof.
  unfold Derived.escape_char.
  repeat (destruct (Ascii.eqb c _); [done|]). done.
Qed.

Lemma escapeHTML_each text : escapeHTML text = Derived.escape_each text.
Proof.
  unfold escapeHTML. fold (Derived.replaced text). rewrite replaced_each.
  destruct text as [|c text]; [done|]. cbn [Derived.escape_each].
  pose proof (escape_char_nonempty c) as H.
  destruct (Derived.escape_char c); [done|]. by rewrite append_cons.
Qed.

Lemma includes_char_app d s t :
  includes (s +:+ t) (String d EmptyString)
  = includes s (String d EmptyString) || includes t (String d EmptyString).
Proof.
  induction s as [|a s IH].
  - rewrite append_nil_l. by destruct t.
  - rewrite append_cons. cbn [includes].
    by rewrite IH, !startsWith_char, orb_assoc.
Qed.

Lemma escape_char_no_markup c d :
  Derived.is_markup d = true ->
  includes (Derived.escape_char c) (String d EmptyString) = false.
Proof.
  unfold Derived.is_markup. rewrite !orb_true_iff, !Ascii.eqb_eq.
  unfold Derived.escape_char.
  destruct (Ascii.eqb_spec c "&") as [->|H1];
    [intros [[[->| ->]| ->]| ->]; reflexivity|].
  destruct (Ascii.eqb_spec c "<") as [->|H2];
    [intros [[[->| ->]| ->]| ->]; reflexivity|].
  destruct (Ascii.eqb_spec c ">") as [->|H3];
    [intros [[[->| ->]| ->]| ->]; reflexivity|].
  destruct (Ascii.eqb_spec c (ascii_of_nat 34)) as [->|H4];
    [intros [[[->| ->]| ->]| ->]; reflexivity|].
  destruct (Ascii.eqb_spec c "'") as [->|H5];
    [intros [[[->| ->]| ->]| ->]; reflexivity|].
  intros Hd. cbn [includes]. rewrite startsWith_char, orb_false_r.
  destruct (Ascii.eqb_spec d c) as [<-|]; [|done].
  destruct Hd as [[[Hd|Hd]|Hd]|Hd]; congruence.
Qed.

(** X18: [escapeHTML] replaces every character on its own: the ampersand,
    the two angle brackets and the two quotes by their entities, any other
    character by itself; an entity written for one character is not
    touched by a later replacement.  The result contains neither angle
    bracket and neither quote. *)
Theorem escapeHTML_escapes_each_character (text : string) :
  escapeHTML text = Derived.escape_each text
  /\ forall d, Derived.is_markup d = true ->
       includes (escapeHTML text) (String d EmptyString) = false.
Proof.
  split; [apply escapeHTML_each|].
  intros d Hd. rewrite escapeHTML_each.
  induction text as [|c text IH]; [done|].
  cbn [Derived.escape_each].
  by rewrite includes_char_app, IH, escape_char_no_markup.
Qed.

Lemma escape_char_app_inj a b X Y :
  Derived.escape_char a +:+ X = Derived.escape_char b +:+ Y ->
  a = b /\ X = Y.
Proof.
  unfold Derived.escape_char.
  destruct (Ascii.eqb_spec a "&") as [->|A1];
    [|destruct (Ascii.eqb_spec a "<") as [->|A2];
      [|destruct (Ascii.eqb_spec a ">") as [->|A3];
        [|destruct (Ascii.eqb_spec a (ascii_of_nat 34)) as [->|A4];
          [|destruct (Ascii.eqb_spec a "'") as [->|A5]]]]];
  (destruct (Ascii.eqb_spec b "&") as [->|B1];
    [|destruct (Ascii.eqb_spec b "<") as [->|B2];
      [|destruct (Ascii.eqb_spec b ">") as [->|B3];
        [|destruct (Ascii.eqb_spec b (ascii_of_nat 34)) as [->|B4];
          [|destruct (Ascii.eqb_spec b "'") as [->|B5]]]]]);
  rewrite ?append_cons, ?append_nil_l; intros H;
  try (injection H; intros; subst; try done; congruence).
Qed.

Lemma escape_each_inj s t :
  Derived.escape_each s = Derived.escape_each t -> s = t.
Proof.
  revert t. induction s as [|a s IH]; intros [|b t]; cbn [Derived.escape_each].
  - done.
  - pose proof (escape_char_nonempty b) as H.
    destruct (Derived.escape_char b); [done|]. by rewrite append_cons.
  - pose proof (escape_char_nonempty a) as H.
    destruct (Derived.escape_char a); [done|]. by rewrite append_cons.
  - intros [-> H]%escape_char_app_inj. f_equal. by apply IH.
Qed.

(** X19: [escapeHTML] loses nothing: two texts with the same escaped form
    are the same text. *)
Theorem escapeHTML_injective (s t : string) :
  escapeHTML s = escapeHTML t -> s = t.
Proof. rewrite !escapeHTML_each. apply escape_each_inj. Qed.
End Escaping.

Section Charts.
Import HTMLReportGenerator.

(** X20: the duration chart is drawn from the first ten results of the
    list only, put in descending order of duration: it shows a
    rearrangement of those ten (of all, when there are fewer), so a result
    beyond the tenth is not charted however long it lasted. *)
Theorem durationData_charts_first_ten (testResults : list TestResult.t) :
  exists charted,
    charted ≡ₚ take 10 testResults
    /\ StronglySorted
         (fun a b => (TestResult.duration b <= TestResult.duration a)%Qc)
         charted
    /\ fst <$> durationData testResults = TestResult.name <$> charted
    /\ length (durationData testResults) = min 10 (length testResults).
Proof.
  exists (JsArray.sort TestMetricsCollector.by_duration (take 10 testResults)).
  split; [apply sort_perm|]. split; [apply sorted_by_duration|].
  unfold durationData. split.
  - by rewrite <- list_fmap_compose.
  - by rewrite length_fmap, (Permutation_length (sort_perm _ _)), length_take.
Qed.

Lemma analyze_nil failedTests :
  FailureAnalyzer.analyzeFailures failedTests = []
  <-> Forall (fun t => TestResult.error t = None) failedTests.
Proof.
  pose proof (analyze_total failedTests) as Hsum.
  split.
  - intros E. rewrite E in Hsum. simpl in Hsum.
    apply Forall_forall. intros t Ht.
    destruct (TestResult.error t) as [e|] eqn:Ee; [|done].
    assert (t ∈ filter (fun t => is_Some (TestResult.error t)) failedTests)
      as Hin by (apply list_elem_of_filter; eauto).
    destruct (filter _ failedTests); [by apply not_elem_of_nil in Hin|done].
  - intros Hall.
    assert (filter (fun t => is_Some (TestResult.error t)) failedTests = [])
      as Hnil.
    { clear Hsum. induction Hall as [|t l Ht Hl IH]; [done|].
      rewrite filter_cons_False; [done|]. rewrite Ht. by intros [? ?]. }
    rewrite Hnil in Hsum. simpl in Hsum.
    destruct (FailureAnalyzer.analyzeFailures failedTests) as [|p l] eqn:E;
      [done|].
    assert (Hp : p ∈ FailureAnalyzer.analyzeFailures failedTests)
      by (rewrite E; apply list_elem_of_here).
    rewrite (analyze_perm failedTests) in Hp. unfold Spec.group_by_pair in Hp.
    apply list_elem_of_fmap in Hp as (pr & -> & Hpr).
    rewrite elem_of_first_seen in Hpr.
    apply members_seen in Hpr. simpl in Hsum.
    unfold Spec.pattern_of in Hsum. simpl in Hsum. lia.
Qed.

(** X21: fed with what [analyzeFailures()] returns, the failure-analysis
    section shows the no-failures message exactly when no failed test
    carries an error; otherwise it shows a table of at most ten rows, one
    for each of the first ten patterns, no pattern left out occurring more
    often than one shown, and in every row the count of occurrences and
    the count of affected tests are the same number. *)
Theorem buildFailureAnalysis_of_analysis (failedTests : list TestResult.t) :
  let patterns := FailureAnalyzer.analyzeFailures failedTests in
  (buildFailureAnalysis patterns = NoFailures
   <-> Forall (fun t => TestResult.error t = None) failedTests)
  /\ forall rows,
       buildFailureAnalysis patterns = AnalysisTable rows ->
       rows = analysis_row <$> take 10 patterns
       /\ 0 < length rows <= 10
       /\ Forall (fun row => row_occurrences row = row_affected row) rows
       /\ forall p q,
            p ∈ take 10 patterns -> q ∈ drop 10 patterns ->
            FailurePattern.occurrences q <= FailurePattern.occurrences p.
Proof.
  intros patterns. subst patterns. unfold buildFailureAnalysis.
  rewrite <- analyze_nil.
  pose proof (analyze_counts_agree failedTests) as Hc.
  pose proof (analyze_sorted failedTests) as Hs.
  set (ps := FailureAnalyzer.analyzeFailures failedTests) in *.
  destruct (decide (length ps = 0)) as [H0|H0].
  - split; [split; [intros _; by destruct ps|done]|].
    intros rows H. discriminate.
  - split; [split; [discriminate|intros E; by rewrite E in H0]|].
    intros rows H. assert (rows = analysis_row <$> take 10 ps) as ->
      by congruence.
    split; [done|]. split; [|split].
    + rewrite length_fmap, length_take. lia.
    + apply Forall_fmap.
      rewrite <- (take_drop 10 ps) in Hc. apply Forall_app in Hc as [Hc _].
      eapply Forall_impl; [exact Hc|]. by intros q Hq.
    + intros p q Hp Hq.
      apply (sorted_prefix_dominates _ _ _ _ _ Hs Hp Hq).
Qed.
End Charts.

Section HeaderOfARun.
Variable clock : nat -> Date.
Variables browser environment : string.
Import TestMetricsCollector.

(** X22: for a reachable collector the pass rate shown in the header is
    [getPassRate()] rounded to one decimal as long as a result has been
    recorded; with no result recorded [getPassRate()] is 0, while the
    header shows NaN and carries the class [error].  The header is set
    beside [getPassRate()] in the arithmetic the collector is modelled in;
    with no result recorded the header computed in double precision shows
    NaN with the class [error] as well. *)
Theorem header_rate_agrees_with_getPassRate_unless_empty c :
  reachable clock browser environment c ->
  let header :=
    HTMLReportGenerator.buildHeader Arithmetic.exact (the_metrics c) in
  let header64 :=
    HTMLReportGenerator.buildHeader Arithmetic.binary64 (the_metrics c) in
  (getTestResults c <> [] ->
   HTMLReportGenerator.pass_rate_value header
   = JsNumber.toFixed1 (JsNumber.Num (getPassRate c)))
  /\ (getTestResults c = [] ->
      getPassRate c = 0%Qc
      /\ HTMLReportGenerator.pass_rate_value header = JsNumber.FNaN
      /\ HTMLReportGenerator.pass_rate_class header
         = HTMLReportGenerator.error)
  /\ (getTestResults c = [] ->
      HTMLReportGenerator.pass_rate_value header64 = JsNumber.FNaN
      /\ HTMLReportGenerator.pass_rate_class header64
         = HTMLReportGenerator.error).
Proof.
  intros Hreach header header64. subst header header64.
  destruct (stored_results_counted clock browser environment c Hreach)
    as (Ht & Hp & _).
  unfold getTestResults, getPassedTests in *.
  unfold HTMLReportGenerator.buildHeader.
  cbn [HTMLReportGenerator.pass_rate_value
         HTMLReportGenerator.pass_rate_class].
  unfold HTMLReportGenerator.statusClass, HTMLReportGenerator.passRate,
    HTMLReportGenerator.rate, getPassRate.
  cbn [Arithmetic.value Arithmetic.mul Arithmetic.div Arithmetic.of_nat
       Arithmetic.exact Arithmetic.binary64].
  change (JsNumber.of_nat 100) with (JsNumber.Num (Qc_of_Z 100)).
  split; [|split].
  - intros Hne.
    assert (0 < TestMetrics.total (the_metrics c))
      by (rewrite Ht; destruct (testResults c); [done|simpl; lia]).
    rewrite rate_defined by done. by rewrite decide_False by lia.
  - intros Hnil. rewrite Hnil in Ht, Hp. simpl in Ht, Hp.
    rewrite Ht, Hp, rate_undefined. done.
  - intros Hnil. rewrite Hnil in Ht, Hp. simpl in Ht, Hp.
    rewrite Ht, Hp. split; reflexivity.
Qed.
End HeaderOfARun.

(* ===================================================================== *)
(** * Properties of the reporter *)
(* ===================================================================== *)

Section ReporterFacts.
Variable clock : nat -> Date.
Import EnhancedReporter.

Lemma or_else_nonempty s d : d <> EmptyString -> Js.or_else s d <> EmptyString.
Proof. by destruct s as [[|? ?]|]. Qed.

(** X23: a result converted by the reporter has status passed only
    without retries and status flaky only with retries; it is skipped or
    failed exactly when the framework reports skipped, respectively
    anything other than passed and skipped; it always has an end time, and
    its error, present exactly when the framework reports one, has a
    non-empty message and a non-empty type. *)
Theorem convertToTestResult_well_formed
    (test : Playwright.TestCase.t) (result : Playwright.TestResult.t) :
  let r := convertToTestResult test result in
  (TestResult.status r = passed -> TestResult.retries r = 0)
  /\ (TestResult.status r = flaky -> 0 < TestResult.retries r)
  /\ (TestResult.status r = skipped
      <-> Playwright.TestResult.status result = Playwright.skipped)
  /\ (TestResult.status r = failed
      <-> Playwright.TestResult.status result <> Playwright.passed
          /\ Playwright.TestResult.status result <> Playwright.skipped)
  /\ is_Some (TestResult.endTime r)
  /\ (is_Some (TestResult.error r)
      <-> is_Some (Playwright.TestResult.error result))
  /\ (forall e, TestResult.error r = Some e ->
        TestError.message e <> EmptyString
        /\ TestError.type e <> EmptyString).
Proof.
  intros r. subst r. unfold convertToTestResult, getTestStatus. simpl.
  split; [|split; [|split; [|split; [|split; [|split]]]]].
  - repeat case_decide; try done. lia.
  - repeat case_decide; done.
  - repeat case_decide; split; try done; congruence.
  - repeat case_decide; split; try done; intros [? ?]; congruence.
  - eauto.
  - destruct (Playwright.TestResult.error result);
      split; eauto; by intros [? ?].
  - destruct (Playwright.TestResult.error result); [|done].
    intros e [= <-]. simpl. split; by apply or_else_nonempty.
Qed.

Lemma collector_after_tests oh oj
    (tests : list (Playwright.TestCase.t * Playwright.TestResult.t)) :
  metricsCollector
    (fold_left (fun r ev => onTestEnd clock ev.1 ev.2 r) tests
       (onBegin clock (new clock oh oj)))
  = record_all clock (Derived.converted tests) (Derived.begun clock).
Proof.
  assert (H : forall r,
    metricsCollector
      (fold_left (fun r ev => onTestEnd clock ev.1 ev.2 r) tests r)
    = record_all clock (Derived.converted tests) (metricsCollector r)).
  { induction tests as [|ev tests IH]; intros r; [done|].
    simpl. rewrite IH. done. }
  rewrite H. done.
Qed.

Lemma begun_effect :
  TestMetricsCollector.testResults (Derived.begun clock) = []
  /\ TestMetricsCollector.failures (Derived.begun clock) = []
  /\ TestMetricsCollector.the_metrics (Derived.begun clock)
     = Assign.startTime (clock 2) (fresh_metrics (clock 0) "chromium" "dev").
Proof.
  unfold Derived.begun.
  set (c := (TestMetricsCollector.new_Date clock
               (TestMetricsCollector.new clock "chromium" "dev")).2).
  destruct (start_effect clock c) as (_ & _ & -> & -> & ->).
  destruct (new_effect clock "chromium" "dev") as (Hr & Hf & Hthe).
  repeat split; try done.
Qed.

Lemma length_filter_fmap {A B} (f : A -> B) (P : B -> Prop)
    `{forall x, Decision (P x)} (l : list A) :
  length (filter P (f <$> l)) = length (filter (fun x => P (f x)) l).
Proof.
  induction l as [|x l IH]; [done|].
  csimpl. rewrite !filter_cons. case_decide; simpl; by rewrite IH.
Qed.

Lemma length_filter_ext {A} (P Q : A -> Prop)
    `{forall x, Decision (P x)} `{forall x, Decision (Q x)} (l : list A) :
  (forall x, P x <-> Q x) -> length (filter P l) = length (filter Q l).
Proof. intros HPQ. by rewrite (list_filter_iff P Q l HPQ). Qed.

Lemma record_all_labels results c :
  TestMetrics.browser
    (TestMetricsCollector.the_metrics (record_all clock results c))
  = TestMetrics.browser (TestMetricsCollector.the_metrics c)
  /\ TestMetrics.environment
       (TestMetricsCollector.the_metrics (record_all clock results c))
     = TestMetrics.environment (TestMetricsCollector.the_metrics c).
Proof.
  revert c. induction results as [|r l IH]; intros c; [done|].
  simpl. destruct (IH (TestMetricsCollector.recordTest clock r c)) as [-> ->].
  destruct (recordTest_effect clock r c) as (_ & _ & _ & _ & s & f & ->).
  by destruct (TestResult.status r).
Qed.

(** What [onEnd] hands over after a run. *)
Lemma run_handoff oh oj tests :
  let c := record_all clock (Derived.converted tests) (Derived.begun clock) in
  metrics (run clock oh oj tests)
  = TestMetricsCollector.the_metrics (TestMetricsCollector.finish clock c)
  /\ testResults (run clock oh oj tests) = Derived.converted tests
  /\ failurePatterns (run clock oh oj tests)
     = FailureAnalyzer.analyzeFailures
         (Spec.with_status failed (Derived.converted tests)).
Proof.
  intros c. unfold run, onEnd. rewrite collector_after_tests. fold c.
  set (cf := TestMetricsCollector.finish clock c).
  destruct (getMetrics_effect cf) as (_ & Hh & _ & Hr & _ & _ & _).
  destruct (TestMetricsCollector.getMetrics cf) as [copy c'] eqn:E.
  cbn [fst snd] in *. cbn [metrics testResults failurePatterns].
  destruct (finish_effect clock c) as (_ & _ & Hr' & _).
  destruct (record_all_effect clock (Derived.converted tests)
              (Derived.begun clock)) as (Hr0 & _).
  destruct begun_effect as (Hb & _).
  fold c in Hr0. rewrite Hb in Hr0. simpl in Hr0. fold cf in Hr'.
  unfold TestMetricsCollector.getTestResults,
    TestMetricsCollector.getFailedTests.
  rewrite Hh, lookup_total_insert_eq, Hr, Hr', Hr0. done.
Qed.

(** X24: after a run the metrics handed to the summary and to the report
    generators count the tests by what the framework reported: [total] all
    of them, [passed] those passed with no retry, [flaky] those passed
    after a retry, [skipped] those skipped and [failed] all the others; the
    results handed over are the converted ones, in the order reported; and
    the labels are always [chromium] and [dev], for the reporter
    constructs its collector without arguments. *)
Theorem run_metrics_count_reported_tests
    (outputHTML outputJSON : option bool)
    (tests : list (Playwright.TestCase.t * Playwright.TestResult.t)) :
  let handed := run clock outputHTML outputJSON tests in
  let m := metrics handed in
  TestMetrics.total m = length tests
  /\ TestMetrics.passed m
     = length (filter (fun ev =>
                 Playwright.TestResult.status ev.2 = Playwright.passed
                 /\ Playwright.TestResult.retry ev.2 = 0) tests)
  /\ TestMetrics.flaky m
     = length (filter (fun ev =>
                 Playwright.TestResult.status ev.2 = Playwright.passed
                 /\ 0 < Playwright.TestResult.retry ev.2) tests)
  /\ TestMetrics.skipped m
     = length (filter (fun ev =>
                 Playwright.TestResult.status ev.2 = Playwright.skipped)
                 tests)
  /\ TestMetrics.failed m
     = length (filter (fun ev => Derived.not_ok ev.2) tests)
  /\ testResults handed
     = (fun ev => convertToTestResult ev.1 ev.2) <$> tests
  /\ TestMetrics.browser m = "chromium"
  /\ TestMetrics.environment m = "dev".
Proof.
  intros handed m. subst handed m.
  destruct (run_handoff outputHTML outputJSON tests) as (-> & -> & _).
  set (c := record_all clock (Derived.converted tests) (Derived.begun clock)).
  destruct (finish_effect clock c) as (_ & _ & _ & _ & ->).
  destruct (record_all_effect clock (Derived.converted tests)
              (Derived.begun clock)) as (_ & Ht & Hp & Hf & Hs & Hk & _).
  destruct begun_effect as (_ & _ & Hb).
  fold c in Ht, Hp, Hf, Hs, Hk. rewrite Hb in Ht, Hp, Hf, Hs, Hk.
  simpl in Ht, Hp, Hf, Hs, Hk.
  assert (Hfr : forall m0 : TestMetrics.t,
    (if decide (0 < TestMetrics.total (TestMetricsCollector.the_metrics c))
     then Assign.failureRate
            (Qc_of_nat (TestMetrics.failed (TestMetricsCollector.the_metrics c))
             / Qc_of_nat (TestMetrics.total (TestMetricsCollector.the_metrics c))
             * Qc_of_Z 100)%Qc m0
     else m0)
    = Assign.failureRate
        (TestMetrics.failureRate
           (if decide (0 < TestMetrics.total
                             (TestMetricsCollector.the_metrics c))
            then Assign.failureRate
                   (Qc_of_nat (TestMetrics.failed
                                 (TestMetricsCollector.the_metrics c))
                    / Qc_of_nat (TestMetrics.total
                                   (TestMetricsCollector.the_metrics c))
                    * Qc_of_Z 100)%Qc m0
            else m0)) m0).
  { intros m0. destruct (decide _); [done|]. by destruct m0. }
  rewrite Hfr. simpl. clear Hfr.
  destruct (record_all_labels (Derived.converted tests) (Derived.begun clock))
    as [Hbr Hen].
  fold c in Hbr, Hen. rewrite Hb in Hbr, Hen. simpl in Hbr, Hen.
  rewrite Hbr, Hen. clear Hbr Hen.
  unfold Spec.with_status, Derived.converted in *.
  rewrite length_fmap in Ht.
  rewrite length_filter_fmap in Hp, Hf, Hs, Hk.
  rewrite Ht, Hp, Hf, Hs, Hk.
  repeat split; try done; apply length_filter_ext; intros [t r]; simpl;
    unfold getTestStatus, Derived.not_ok;
    repeat case_decide; intuition (try congruence; try lia).
Qed.
(** X25: the failure patterns handed over after a run account, by their
    occurrences, for exactly the reported tests that neither passed nor
    were skipped and that carry an error: tests that passed after a retry
    and failures without an error are in no pattern. *)
Theorem run_patterns_count_failed_errors
    (outputHTML outputJSON : option bool)
    (tests : list (Playwright.TestCase.t * Playwright.TestResult.t)) :
  sum_list_with FailurePattern.occurrences
    (failurePatterns (run clock outputHTML outputJSON tests))
  = length (filter (fun ev =>
              Derived.not_ok ev.2
              /\ is_Some (Playwright.TestResult.error ev.2)) tests).
Proof.
  destruct (run_handoff outputHTML outputJSON tests) as (_ & _ & ->).
  rewrite analyze_total. unfold Spec.with_status, Derived.converted.
  rewrite list_filter_filter, length_filter_fmap.
  apply length_filter_ext. intros [t r]. simpl.
  unfold getTestStatus, Derived.not_ok.
  destruct (Playwright.TestResult.error r);
    repeat case_decide;
    intuition (try congruence; try lia; eauto;
               try match goal with H : is_Some None |- _ =>
                     by destruct H end).
Qed.
End ReporterFacts.
(* ===================================================================== *)
(** * The properties at work on the sample runs *)
(* ===================================================================== *)

Lemma reachable_record_all clock browser environment results c :
  reachable clock browser environment c ->
  reachable clock browser environment (record_all clock results c).
Proof.
  revert c. induction results as [|r l IH]; intros c Hc; [exact Hc|].
  apply IH, reach_recordTest, Hc.
Qed.

Lemma sample_recorded_A_reachable :
  reachable Sample.clock "chromium" "dev" Sample.recorded_A.
Proof. apply reachable_record_all, reach_start, reach_new. Qed.

Lemma sample_recorded_A_results :
  TestMetricsCollector.getTestResults Sample.recorded_A = Sample.scenario_A.
Proof. reflexivity. Qed.

(** The two longest of the four tests of scenario A. *)
Lemma getTestsByDuration_longest_witness :
  (0 < 2)%Z
  /\ length (TestMetricsCollector.getTestsByDuration (Some 2%Z)
               Sample.recorded_A) = 2.
Proof.
  split; [reflexivity|].
  exact (proj1 (proj2
    (getTestsByDuration_longest 2 Sample.recorded_A eq_refl))).
Defined.

Lemma counters_count_stored_results_witness :
  reachable Sample.clock "chromium" "dev" Sample.recorded_A
  /\ TestMetrics.passed (TestMetricsCollector.the_metrics Sample.recorded_A)
     = length (TestMetricsCollector.getPassedTests Sample.recorded_A).
Proof.
  split; [exact sample_recorded_A_reachable|].
  exact (proj1 (proj2
    (counters_count_stored_results Sample.clock "chromium" "dev"
       Sample.recorded_A sample_recorded_A_reachable))).
Defined.

Lemma sample_recorded_retry_reachable :
  reachable Sample.clock "chromium" "dev" Sample.recorded_retry.
Proof. apply reachable_record_all, reach_start, reach_new. Qed.

(** A test that failed on its second attempt is among the flaky tests,
    which are more than the counter says. *)
Lemma getFlakyTests_covers_flaky_counter_witness :
  reachable Sample.clock "chromium" "dev" Sample.recorded_retry
  /\ Sample.retried
       ∈ TestMetricsCollector.getTestResults Sample.recorded_retry
  /\ TestResult.status Sample.retried <> flaky
  /\ 0 < TestResult.retries Sample.retried
  /\ TestMetrics.flaky (TestMetricsCollector.the_metrics Sample.recorded_retry)
     < length (TestMetricsCollector.getFlakyTests Sample.recorded_retry).
Proof.
  split; [exact sample_recorded_retry_reachable|].
  assert (Hr : TestMetricsCollector.getTestResults Sample.recorded_retry
               = [Sample.p1; Sample.retried]) by reflexivity.
  assert (Hin : Sample.retried
                  ∈ TestMetricsCollector.getTestResults Sample.recorded_retry)
    by (rewrite Hr; apply list_elem_of_further, list_elem_of_here).
  assert (Hs : TestResult.status Sample.retried <> flaky) by discriminate.
  assert (Hretry : 0 < TestResult.retries Sample.retried)
    by (unfold Sample.retried; simpl; lia).
  split; [exact Hin|]. split; [exact Hs|]. split; [exact Hretry|].
  pose proof (getFlakyTests_covers_flaky_counter Sample.clock "chromium"
                "dev" Sample.recorded_retry sample_recorded_retry_reachable)
    as (_ & _ & _ & _ & H).
  exact (H Sample.retried Hin Hs Hretry).
Defined.

(** In scenario A the slowest test is the failed one and the fastest
    passed test is the first. *)
Lemma extremes_are_extreme_witness :
  reachable Sample.clock "chromium" "dev" Sample.recorded_A
  /\ TestMetrics.slowestTest
       (TestMetricsCollector.the_metrics Sample.recorded_A)
     = Some Sample.slow_page
  /\ TestMetrics.fastestTest
       (TestMetricsCollector.the_metrics Sample.recorded_A)
     = Some Sample.p1
  /\ (forall r, r ∈ TestMetricsCollector.getTestResults Sample.recorded_A ->
        (TestResult.duration r <= TestResult.duration Sample.slow_page)%Qc)
  /\ (forall r, r ∈ TestMetricsCollector.getPassedTests Sample.recorded_A ->
        (TestResult.duration Sample.p1 <= TestResult.duration r)%Qc).
Proof.
  split; [exact sample_recorded_A_reachable|].
  assert (Es : TestMetrics.slowestTest
                 (TestMetricsCollector.the_metrics Sample.recorded_A)
               = Some Sample.slow_page) by reflexivity.
  assert (Ef : TestMetrics.fastestTest
                 (TestMetricsCollector.the_metrics Sample.recorded_A)
               = Some Sample.p1) by reflexivity.
  split; [exact Es|]. split; [exact Ef|].
  pose proof (extremes_are_extreme Sample.clock "chromium" "dev"
                Sample.recorded_A sample_recorded_A_reachable) as [Hs Hf].
  rewrite Es in Hs. rewrite Ef in Hf.
  split; [exact (proj2 Hs)|exact (proj2 Hf)].
Defined.

Lemma average_is_mean_of_stored_results_witness :
  reachable Sample.clock "chromium" "dev" Sample.recorded_A
  /\ TestMetricsCollector.getTestResults Sample.recorded_A <> []
  /\ TestMetrics.averageTestDuration
       (TestMetricsCollector.the_metrics Sample.recorded_A)
     = (TestMetricsCollector.totalDuration
          (TestMetricsCollector.getTestResults Sample.recorded_A)
        / Qc_of_nat (length (TestMetricsCollector.getTestResults
                               Sample.recorded_A)))%Qc.
Proof.
  split; [exact sample_recorded_A_reachable|].
  assert (Hne : TestMetricsCollector.getTestResults Sample.recorded_A <> [])
    by (rewrite sample_recorded_A_results; discriminate).
  split; [exact Hne|].
  apply (proj2 (average_is_mean_of_stored_results Sample.clock "chromium"
                  "dev" Sample.recorded_A sample_recorded_A_reachable)).
  exact Hne.
Defined.

Lemma failure_index_entry_holds_its_tests_witness :
  reachable Sample.clock "chromium" "dev" Sample.recorded_A
  /\ (Sample.slow_page_key, Sample.slow_page_entry)
       ∈ TestMetricsCollector.failures Sample.recorded_A
  /\ FailureAnalysis.tests Sample.slow_page_entry
     = Derived.filed_under Sample.slow_page_key
         (TestMetricsCollector.getTestResults Sample.recorded_A).
Proof.
  split; [exact sample_recorded_A_reachable|].
  assert (Hf : TestMetricsCollector.failures Sample.recorded_A
               = [(Sample.slow_page_key, Sample.slow_page_entry)])
    by reflexivity.
  assert (Hin : (Sample.slow_page_key, Sample.slow_page_entry)
                  ∈ TestMetricsCollector.failures Sample.recorded_A)
    by (rewrite Hf; apply list_elem_of_here).
  split; [exact Hin|].
  exact (proj1
    (failure_index_entry_holds_its_tests Sample.clock "chromium" "dev"
       Sample.recorded_A _ _ sample_recorded_A_reachable Hin)).
Defined.

Lemma failure_index_counts_every_error_once_witness :
  reachable Sample.clock "chromium" "dev" Sample.run
  /\ sum_list_with FailureAnalysis.count
       (JsMap.values (TestMetricsCollector.failures Sample.run))
     = length (filter (fun r => TestResult.status r = failed
                                /\ is_Some (TestResult.error r))
                 (TestMetricsCollector.getTestResults Sample.run)).
Proof.
  split; [exact sample_run_reachable|].
  exact (failure_index_counts_every_error_once Sample.clock "chromium" "dev"
           Sample.run sample_run_reachable).
Defined.

Lemma timeout_pattern_comes_from_message_witness :
  Js.includes (TestError.message Sample.timeout_error) "Timeout" = true
  /\ FailureAnalyzer.categorizeFailure Sample.timeout_error = timeout.
Proof.
  split; [reflexivity|].
  exact (proj1 (timeout_pattern_comes_from_message Sample.timeout_error
                  eq_refl)).
Defined.

Lemma fallback_pattern_is_bounded_first_line_witness :
  Js.includes (TestError.message Sample.network_typed_error) "Timeout" = false
  /\ Js.includes (TestError.message Sample.network_typed_error) "locator"
     = false
  /\ Js.includes (TestError.message Sample.network_typed_error) "expect"
     = false
  /\ String.length
       (FailureAnalyzer.extractPattern Sample.network_typed_error) <= 100.
Proof.
  repeat (split; [reflexivity|]).
  exact (proj1 (fallback_pattern_is_bounded_first_line
                  Sample.network_typed_error eq_refl eq_refl eq_refl)).
Defined.

Lemma escapeHTML_injective_witness :
  HTMLReportGenerator.escapeHTML ("a<" +:+ "b")
  = HTMLReportGenerator.escapeHTML "a<b"
  /\ "a<" +:+ "b" = "a<b".
Proof.
  split; [reflexivity|].
  exact (escapeHTML_injective ("a<" +:+ "b") "a<b" eq_refl).
Defined.

Lemma header_rate_agrees_with_getPassRate_unless_empty_witness :
  reachable Sample.clock "chromium" "dev" Sample.recorded_A
  /\ TestMetricsCollector.getTestResults Sample.recorded_A <> []
  /\ HTMLReportGenerator.pass_rate_value
       (HTMLReportGenerator.buildHeader Arithmetic.exact
          (TestMetricsCollector.the_metrics Sample.recorded_A))
     = JsNumber.toFixed1
         (JsNumber.Num (TestMetricsCollector.getPassRate Sample.recorded_A)).
Proof.
  split; [exact sample_recorded_A_reachable|].
  assert (Hne : TestMetricsCollector.getTestResults Sample.recorded_A <> [])
    by (rewrite sample_recorded_A_results; discriminate).
  split; [exact Hne|].
  apply (proj1 (header_rate_agrees_with_getPassRate_unless_empty
                  Sample.clock "chromium" "dev" Sample.recorded_A
                  sample_recorded_A_reachable)).
  exact Hne.
Defined.
